(** * ResSwaps: the bid/ask lifecycle of the reservation marketplace

    A shallow embedding of the transactional core of the repository:
    - the row conversions of the reservation context
      ([formatReservationFromDB], [formatReservationToDB]);
    - the store: the tables the core touches, the rate-limit procedures and
      trigger on [bids] (migration divine_temple), and the bid-expiration
      trigger on [reservations] (migration rough_moon);
    - the client operations of the reservation context ([placeBid],
      [buyNow]), of the API layer ([api.bids.create],
      [api.bids.getRateLimit]) and of the reservation detail page
      ([fetchReservation], [handlePlaceBid], [handlePlaceAsk],
      [handleBuyNow], [handleSellNow]);
    - the operations around them: the listing operations of the
      reservation context ([addReservation], [updateReservation],
      [deleteReservation], [getReservation], the featured listings), the
      rate-limit hook ([useRateLimit]) with its notice, and the bid
      analytics of the analytics page.

    Conventions.  A JavaScript [number] is modelled by an integer ([Z]):
    amounts are whole currency units and every comparison and subtraction
    the core performs is exact on them; [NaN] is represented separately
    where the code tests for it, and the one division (the thirty-day
    average) is taken in the rationals.  A point in time (a [timestamptz]
    value, an ISO-8601 text, the time value of a [Date]) is the number of
    milliseconds since the epoch, and one operation reads the clock once
    unless said otherwise.  UUID keys are opaque and only compared for
    equality; they are modelled by natural numbers and [gen_random_uuid()]
    by a counter of the store.  An optional or nullable field is an
    [option].

    The store.  Each awaited call of the client is one request, committed
    on its own.  The tables [reservations], [bids] and
    [reservation_history] are not defined by the migrations at hand: their
    columns are those of the generated database types together with the
    columns the clients read and write, and a column an insert leaves out
    is NULL.  Row-level security policies other than those of the
    migrations are not modelled: a request is carried out unless a trigger
    or a constraint named below refuses it. *)

From Stdlib Require Import ZArith List Bool String Lia QArith.
From Stdlib Require Import DecimalString Permutation Sorted.
Import ListNotations.
Open Scope string_scope.
Open Scope list_scope.
Open Scope Z_scope.

Set Implicit Arguments.

(** ** JavaScript values *)

Definition number := Z.
Definition Millis := Z.
Definition Uuid := nat.

(** A [Date] either holds a time value or is an Invalid Date. *)
Inductive JsDate :=
| Instant (ms : Millis)
| InvalidDate.

(** [new Date(x)] for a timestamp text [x]; [new Date(undefined)] is an
    Invalid Date. *)
Definition new_Date (x : option Millis) : JsDate :=
  match x with
  | Some t => Instant t
  | None => InvalidDate
  end.

(** [d.toISOString()]: raises a RangeError ([None]) on an Invalid Date. *)
Definition toISOString (d : JsDate) : option Millis :=
  match d with
  | Instant t => Some t
  | InvalidDate => None
  end.

(** [x || d] on numbers: [undefined], [null] and [0] are falsy. *)
Definition num_or (x : option number) (d : number) : number :=
  match x with
  | Some v => if v =? 0 then d else v
  | None => d
  end.

(** [x || d] on strings: the empty string is falsy. *)
Definition str_or (x : option string) (d : string) : string :=
  match x with
  | Some EmptyString => d
  | Some s => s
  | None => d
  end.

(** Truthiness of an optional boolean. *)
Definition truthy (x : option bool) : bool :=
  match x with
  | Some true => true
  | _ => false
  end.

(** [Math.ceil(ms / 1000)]. *)
Definition ceil_seconds (ms : Z) : Z := - ((- ms) / 1000).

Inductive ReservationStatus := available | pending | sold | expired.

Definition ReservationStatus_eqb (a b : ReservationStatus) : bool :=
  match a, b with
  | available, available | pending, pending
  | sold, sold | expired, expired => true
  | _, _ => false
  end.

Inductive BidStatus := bid_open | bid_accepted | bid_rejected | bid_expired.

Definition BidStatus_eqb (a b : BidStatus) : bool :=
  match a, b with
  | bid_open, bid_open | bid_accepted, bid_accepted
  | bid_rejected, bid_rejected | bid_expired, bid_expired => true
  | _, _ => false
  end.

Definition opt_eqb {A} (eqb : A -> A -> bool) (x : option A) (v : A) : bool :=
  match x with
  | Some a => eqb a v
  | None => false
  end.

(** ** Records *)

(** The client-side [Reservation] of the reservation context.  Every field
    is optional here because [formatReservationToDB] takes a
    [Partial<Reservation>]; [marketData], which the conversion fills with
    mock values, is left out. *)
Module Reservation.
Record t := mk {
  id : option Uuid;
  restaurantName : option string;
  location : option string;
  cuisine : option string;
  date : option JsDate;
  time : option string;
  partySize : option number;
  price : option number;
  originalPrice : option number;
  sellerId : option Uuid;
  sellerName : option string;
  status : option ReservationStatus;
  description : option string;
  imageUrl : option string;
  popularity : option number;
  allowBidding : option bool;
  minimumBid : option number;
  currentBid : option number;
  bidEndTime : option JsDate;
  stockRemaining : option number;
  lastSalePrice : option number;
  lastSaleDate : option JsDate;
  latitude : option number;
  longitude : option number
}.
End Reservation.

(** A row of the [reservations] table as the client sees it: a JavaScript
    object with snake_case keys, a key being absent ([None]) or present.
    [users_name] is the joined [users:seller_id (name)]. *)
Module DbReservation.
Record t := mk {
  id : option Uuid;
  restaurant_name : option string;
  location : option string;
  cuisine : option string;
  date : option Millis;
  time : option string;
  party_size : option number;
  price : option number;
  original_price : option number;
  seller_id : option Uuid;
  status : option ReservationStatus;
  description : option string;
  image_url : option string;
  popularity : option number;
  allow_bidding : option bool;
  minimum_bid : option number;
  current_bid : option number;
  bid_end_time : option Millis;
  stock_remaining : option number;
  last_sale_price : option number;
  last_sale_date : option Millis;
  latitude : option number;
  longitude : option number;
  users_name : option string
}.
End DbReservation.

(** ** Row conversions (reservation context) *)

Definition formatReservationFromDB (db : DbReservation.t) : Reservation.t :=
  {| Reservation.id := DbReservation.id db;
     Reservation.restaurantName := DbReservation.restaurant_name db;
     Reservation.location := DbReservation.location db;
     Reservation.cuisine := DbReservation.cuisine db;
     Reservation.date := Some (new_Date (DbReservation.date db));
     Reservation.time := DbReservation.time db;
     Reservation.partySize := DbReservation.party_size db;
     Reservation.price := DbReservation.price db;
     Reservation.originalPrice := DbReservation.original_price db;
     Reservation.sellerId := DbReservation.seller_id db;
     Reservation.sellerName :=
       Some (str_or (DbReservation.users_name db) "Unknown Seller");
     Reservation.status := DbReservation.status db;
     Reservation.description := DbReservation.description db;
     Reservation.imageUrl := DbReservation.image_url db;
     Reservation.popularity := DbReservation.popularity db;
     Reservation.allowBidding := DbReservation.allow_bidding db;
     Reservation.minimumBid := DbReservation.minimum_bid db;
     Reservation.currentBid := DbReservation.current_bid db;
     Reservation.bidEndTime :=
       match DbReservation.bid_end_time db with
       | Some t => Some (new_Date (Some t))
       | None => None
       end;
     Reservation.stockRemaining := DbReservation.stock_remaining db;
     Reservation.lastSalePrice := DbReservation.last_sale_price db;
     Reservation.lastSaleDate :=
       match DbReservation.last_sale_date db with
       | Some t => Some (new_Date (Some t))
       | None => None
       end;
     Reservation.latitude := DbReservation.latitude db;
     Reservation.longitude := DbReservation.longitude db |}.

(** [if (reservation.f !== undefined) dbReservation.k = reservation.f.toISOString()]:
    the key is skipped when the field is undefined, and the call raises on
    an Invalid Date (outer [None]). *)
Definition iso_field (d : option JsDate) : option (option Millis) :=
  match d with
  | None => Some None
  | Some d' =>
      match toISOString d' with
      | Some t => Some (Some t)
      | None => None
      end
  end.

(** [formatReservationToDB]; [None] when a [toISOString] call raises. *)
Definition formatReservationToDB (r : Reservation.t) : option DbReservation.t :=
  match iso_field (Reservation.date r),
        iso_field (Reservation.bidEndTime r),
        iso_field (Reservation.lastSaleDate r) with
  | Some d, Some b, Some l =>
      Some {| DbReservation.id := None;
              DbReservation.restaurant_name := Reservation.restaurantName r;
              DbReservation.location := Reservation.location r;
              DbReservation.cuisine := Reservation.cuisine r;
              DbReservation.date := d;
              DbReservation.time := Reservation.time r;
              DbReservation.party_size := Reservation.partySize r;
              DbReservation.price := Reservation.price r;
              DbReservation.original_price := Reservation.originalPrice r;
              DbReservation.seller_id := Reservation.sellerId r;
              DbReservation.status := Reservation.status r;
              DbReservation.description := Reservation.description r;
              DbReservation.image_url := Reservation.imageUrl r;
              DbReservation.popularity := Reservation.popularity r;
              DbReservation.allow_bidding := Reservation.allowBidding r;
              DbReservation.minimum_bid := Reservation.minimumBid r;
              DbReservation.current_bid := Reservation.currentBid r;
              DbReservation.bid_end_time := b;
              DbReservation.stock_remaining := Reservation.stockRemaining r;
              DbReservation.last_sale_price := Reservation.lastSalePrice r;
              DbReservation.last_sale_date := l;
              DbReservation.latitude := Reservation.latitude r;
              DbReservation.longitude := Reservation.longitude r;
              DbReservation.users_name := None |}
  | _, _, _ => None
  end.

(** ** Tables *)

(** A row of [reservations], columns as in the generated database types
    (NOT NULL columns are total), with the two coordinate columns the
    conversions read and write.  The table is kept in insertion order. *)
Module ReservationRow.
Record t := mk {
  id : Uuid;
  restaurant_name : string;
  location : string;
  cuisine : string;
  date : Millis;
  time : string;
  party_size : number;
  price : number;
  original_price : number;
  seller_id : Uuid;
  status : option ReservationStatus;
  description : option string;
  image_url : option string;
  popularity : option number;
  allow_bidding : option bool;
  minimum_bid : option number;
  current_bid : option number;
  bid_end_time : option Millis;
  stock_remaining : option number;
  last_sale_price : option number;
  last_sale_date : option Millis;
  latitude : option number;
  longitude : option number
}.

(** The object a [select] hands to the client; [users] is the joined
    seller name when the query asks for it. *)
Definition to_object (users : option string) (r : t) : DbReservation.t :=
  {| DbReservation.id := Some (id r);
     DbReservation.restaurant_name := Some (restaurant_name r);
     DbReservation.location := Some (location r);
     DbReservation.cuisine := Some (cuisine r);
     DbReservation.date := Some (date r);
     DbReservation.time := Some (time r);
     DbReservation.party_size := Some (party_size r);
     DbReservation.price := Some (price r);
     DbReservation.original_price := Some (original_price r);
     DbReservation.seller_id := Some (seller_id r);
     DbReservation.status := status r;
     DbReservation.description := description r;
     DbReservation.image_url := image_url r;
     DbReservation.popularity := popularity r;
     DbReservation.allow_bidding := allow_bidding r;
     DbReservation.minimum_bid := minimum_bid r;
     DbReservation.current_bid := current_bid r;
     DbReservation.bid_end_time := bid_end_time r;
     DbReservation.stock_remaining := stock_remaining r;
     DbReservation.last_sale_price := last_sale_price r;
     DbReservation.last_sale_date := last_sale_date r;
     DbReservation.latitude := latitude r;
     DbReservation.longitude := longitude r;
     DbReservation.users_name := users |}.
End ReservationRow.

(** The payload of an [update] on [reservations]: the columns the core
    writes, each one set ([Some]) or left alone. *)
Module Patch.
Record t := mk {
  status : option ReservationStatus;
  price : option number;
  stock_remaining : option number;
  last_sale_price : option number;
  last_sale_date : option Millis;
  current_bid : option number
}.

Definition empty : t := mk None None None None None None.

Definition or_old {A} (new : option A) (old : option A) : option A :=
  match new with
  | Some v => Some v
  | None => old
  end.

Definition apply (p : t) (r : ReservationRow.t) : ReservationRow.t :=
  {| ReservationRow.id := ReservationRow.id r;
     ReservationRow.restaurant_name := ReservationRow.restaurant_name r;
     ReservationRow.location := ReservationRow.location r;
     ReservationRow.cuisine := ReservationRow.cuisine r;
     ReservationRow.date := ReservationRow.date r;
     ReservationRow.time := ReservationRow.time r;
     ReservationRow.party_size := ReservationRow.party_size r;
     ReservationRow.price :=
       match price p with
       | Some v => v
       | None => ReservationRow.price r
       end;
     ReservationRow.original_price := ReservationRow.original_price r;
     ReservationRow.seller_id := ReservationRow.seller_id r;
     ReservationRow.status := or_old (status p) (ReservationRow.status r);
     ReservationRow.description := ReservationRow.description r;
     ReservationRow.image_url := ReservationRow.image_url r;
     ReservationRow.popularity := ReservationRow.popularity r;
     ReservationRow.allow_bidding := ReservationRow.allow_bidding r;
     ReservationRow.minimum_bid := ReservationRow.minimum_bid r;
     ReservationRow.current_bid :=
       or_old (current_bid p) (ReservationRow.current_bid r);
     ReservationRow.bid_end_time := ReservationRow.bid_end_time r;
     ReservationRow.stock_remaining :=
       or_old (stock_remaining p) (ReservationRow.stock_remaining r);
     ReservationRow.last_sale_price :=
       or_old (last_sale_price p) (ReservationRow.last_sale_price r);
     ReservationRow.last_sale_date :=
       or_old (last_sale_date p) (ReservationRow.last_sale_date r);
     ReservationRow.latitude := ReservationRow.latitude r;
     ReservationRow.longitude := ReservationRow.longitude r |}.
End Patch.

Module Bid.
Record t := mk {
  id : Uuid;
  reservation_id : Uuid;
  user_id : Uuid;
  amount : number;
  created_at : Millis;
  expires_at : option Millis;
  status : BidStatus
}.

Definition with_status (s : BidStatus) (b : t) : t :=
  mk (id b) (reservation_id b) (user_id b) (amount b) (created_at b)
     (expires_at b) s.
End Bid.

(** The object given to [insert] on [bids]. *)
Module BidInsert.
Record t := mk {
  reservation_id : Uuid;
  user_id : option Uuid;
  amount : number;
  expires_at : option Millis;
  status : option BidStatus
}.
End BidInsert.

Module History.
Record t := mk {
  id : Uuid;
  reservation_id : Uuid;
  buyer_id : option Uuid;
  buyer_name : option string;
  price : option number;
  created_at : Millis
}.
End History.

(** The object given to [insert] on [reservation_history]. *)
Module HistoryInsert.
Record t := mk {
  reservation_id : Uuid;
  buyer_id : option Uuid;
  buyer_name : option string;
  price : option number
}.
End HistoryInsert.

Module RateLimit.
Record t := mk {
  id : Uuid;
  user_id : Uuid;
  action_type : string;
  created_at : Millis;
  expires_at : Millis
}.
End RateLimit.

Module User.
Record t := mk {
  id : Uuid;
  name : option string
}.
End User.

Module Store.
Record t := mk {
  reservations : list ReservationRow.t;
  bids : list Bid.t;
  reservation_history : list History.t;
  rate_limits : list RateLimit.t;
  users : list User.t;
  next_uuid : Uuid
}.

Definition with_reservations (l : list ReservationRow.t) (s : t) : t :=
  mk l (bids s) (reservation_history s) (rate_limits s) (users s)
     (next_uuid s).

Definition with_bids (l : list Bid.t) (s : t) : t :=
  mk (reservations s) l (reservation_history s) (rate_limits s) (users s)
     (next_uuid s).

Definition with_rate_limits (l : list RateLimit.t) (s : t) : t :=
  mk (reservations s) (bids s) (reservation_history s) l (users s)
     (next_uuid s).

(** A new row with a generated key is appended to a table. *)
Definition add_bid (b : Bid.t) (s : t) : t :=
  mk (reservations s) (bids s ++ [b]) (reservation_history s)
     (rate_limits s) (users s) (S (next_uuid s)).

Definition add_history (h : History.t) (s : t) : t :=
  mk (reservations s) (bids s) (reservation_history s ++ [h])
     (rate_limits s) (users s) (S (next_uuid s)).

Definition add_rate_limit (r : RateLimit.t) (s : t) : t :=
  mk (reservations s) (bids s) (reservation_history s)
     (rate_limits s ++ [r]) (users s) (S (next_uuid s)).
End Store.

Inductive ErrorCode := RATELIMIT | PGRST116 | NOT_NULL_VIOLATION.

Inductive Result (A : Type) :=
| Ok (a : A)
| Err (e : ErrorCode).
Arguments Ok {A} a.
Arguments Err {A} e.

(** Modelled from the spec: the default of [bids.status], whose table
    definition is not among the migrations; a bid is created open. *)
Definition bids_status_default : BidStatus := bid_open.

(** ** Stored procedures and triggers *)

Definition rate_limit_of (p_user_id : Uuid) (p_action_type : string)
    (r : RateLimit.t) : bool :=
  Nat.eqb (RateLimit.user_id r) p_user_id
  && String.eqb (RateLimit.action_type r) p_action_type.

(** The rows that [check_rate_limit] counts: those of the pair with
    [expires_at > now()]. *)
Definition recent_attempts (now : Millis) (p_user_id : Uuid)
    (p_action_type : string) (l : list RateLimit.t) : list RateLimit.t :=
  filter (fun r => rate_limit_of p_user_id p_action_type r
                   && (now <? RateLimit.expires_at r)) l.

(** [check_rate_limit]: deletes the rows of the pair with
    [expires_at < now()], counts those with [expires_at > now()] and answers
    whether the count is under the limit.  [p_window_seconds] is not used by
    the procedure. *)
Definition check_rate_limit (now : Millis) (p_user_id : Uuid)
    (p_action_type : string) (p_max_attempts : Z) (p_window_seconds : Z)
    (db : Store.t) : bool * Store.t :=
  let kept :=
    filter (fun r => negb (rate_limit_of p_user_id p_action_type r
                           && (RateLimit.expires_at r <? now)))
           (Store.rate_limits db) in
  let attempt_count :=
    Z.of_nat (List.length (recent_attempts now p_user_id p_action_type kept)) in
  (attempt_count <? p_max_attempts, Store.with_rate_limits kept db).

(** [record_rate_limit_attempt]. *)
Definition record_rate_limit_attempt (now : Millis) (p_user_id : Uuid)
    (p_action_type : string) (p_window_seconds : Z) (db : Store.t) : Store.t :=
  Store.add_rate_limit
    (RateLimit.mk (Store.next_uuid db) p_user_id p_action_type now
                  (now + p_window_seconds * 1000))
    db.

Definition max_bids_per_window : Z := 5.
Definition window_seconds : Z := 300.

(** [enforce_bid_rate_limit], the BEFORE INSERT trigger on [bids].  The
    exception aborts the statement, so a refused insert leaves the store as
    it was, the purge of [check_rate_limit] included. *)
Definition enforce_bid_rate_limit (now : Millis) (new_user_id : Uuid)
    (db : Store.t) : Result Store.t :=
  let '(under, db1) :=
    check_rate_limit now new_user_id "place_bid" max_bids_per_window
                     window_seconds db in
  if negb under then Err RATELIMIT
  else Ok (record_rate_limit_attempt now new_user_id "place_bid"
                                     window_seconds db1).

(** [handle_bid_expiration], the BEFORE UPDATE trigger on [reservations],
    applied to the new version of each updated row.  A comparison with NULL
    is not true. *)
Definition handle_bid_expiration (now : Millis) (NEW : ReservationRow.t)
    : ReservationRow.t :=
  if match ReservationRow.bid_end_time NEW with
     | Some e => e <? now
     | None => false
     end
     && opt_eqb ReservationStatus_eqb (ReservationRow.status NEW) available
     && truthy (ReservationRow.allow_bidding NEW)
  then
    match ReservationRow.current_bid NEW with
    | Some _ =>
        Patch.apply (Patch.mk (Some pending) None None None None None) NEW
    | None =>
        Patch.apply (Patch.mk (Some expired) None None None None None) NEW
    end
  else NEW.

(** ** Requests to the store *)

(** [.order(key, { ascending: false })]. *)
Fixpoint insert_desc {A} (key : A -> Z) (x : A) (l : list A) : list A :=
  match l with
  | [] => [x]
  | y :: l' => if key y <? key x then x :: l else y :: insert_desc key x l'
  end.

Definition order_desc {A} (key : A -> Z) (l : list A) : list A :=
  fold_right (insert_desc key) [] l.

(** Each awaited call of the client is one request, committed on its
    own. *)
Inductive Request :=
| InsertBid (b : BidInsert.t)
| UpdateReservation (id : Uuid) (seller : option (option Uuid)) (p : Patch.t)
| InsertHistory (h : HistoryInsert.t)
| UpdateBidStatus (id : Uuid) (s : BidStatus).

(** [.eq('id', id)], and [.eq('seller_id', user?.id)] when the call has it;
    an undefined operand matches no row. *)
Definition reservation_matches (id : Uuid) (seller : option (option Uuid))
    (r : ReservationRow.t) : bool :=
  Nat.eqb (ReservationRow.id r) id
  && match seller with
     | None => true
     | Some None => false
     | Some (Some s) => Nat.eqb (ReservationRow.seller_id r) s
     end.

(** What an [update] does to one row: the payload is applied to a row the
    filters match, and the BEFORE UPDATE trigger runs on the new version. *)
Definition update_row (now : Millis) (id : Uuid)
    (seller : option (option Uuid)) (p : Patch.t) (r : ReservationRow.t)
    : ReservationRow.t :=
  if reservation_matches id seller r
  then handle_bid_expiration now (Patch.apply p r)
  else r.

(** What the sources leave open about the store, kept as parameters:
    - whether an [update] whose filters match no row is answered with the
      error PGRST116 (which two handlers of the detail page test for) or
      with success;
    - whether [reservation_history.price] must be given on insert (the
      generated database types have it NOT NULL, and two handlers of the
      detail page insert without it) or may be left out. *)
Module Backend.
Record t := mk {
  zero_row_update_raises : bool;
  history_price_required : bool
}.
End Backend.

Section Requests.

Variable backend : Backend.t.

Definition exec (now : Millis) (q : Request) (db : Store.t)
    : Result Store.t :=
  match q with
  | InsertBid b =>
      match BidInsert.user_id b with
      | None => Err NOT_NULL_VIOLATION
      | Some u =>
          match enforce_bid_rate_limit now u db with
          | Err e => Err e
          | Ok db1 =>
              Ok (Store.add_bid
                    (Bid.mk (Store.next_uuid db1)
                            (BidInsert.reservation_id b) u
                            (BidInsert.amount b) now
                            (BidInsert.expires_at b)
                            match BidInsert.status b with
                            | Some s => s
                            | None => bids_status_default
                            end)
                    db1)
          end
      end
  | UpdateReservation id seller p =>
      if Backend.zero_row_update_raises backend
         && negb (existsb (reservation_matches id seller)
                          (Store.reservations db))
      then Err PGRST116
      else
        Ok (Store.with_reservations
              (map (update_row now id seller p) (Store.reservations db))
              db)
  | InsertHistory h =>
      if Backend.history_price_required backend
         && match HistoryInsert.price h with
            | None => true
            | Some _ => false
            end
      then Err NOT_NULL_VIOLATION
      else
        Ok (Store.add_history
              (History.mk (Store.next_uuid db)
                          (HistoryInsert.reservation_id h)
                          (HistoryInsert.buyer_id h)
                          (HistoryInsert.buyer_name h)
                          (HistoryInsert.price h) now)
              db)
  | UpdateBidStatus id s =>
      if Backend.zero_row_update_raises backend
         && negb (existsb (fun b => Nat.eqb (Bid.id b) id) (Store.bids db))
      then Err PGRST116
      else
        Ok (Store.with_bids
              (map (fun b =>
                      if Nat.eqb (Bid.id b) id then Bid.with_status s b
                      else b)
                   (Store.bids db))
              db)
  end.

(** The requests of one operation, in order, until one fails: the store
    after each committed request, and the error that stopped the
    sequence. *)
Fixpoint run (now : Millis) (qs : list Request) (db : Store.t)
    : list Store.t * option ErrorCode :=
  match qs with
  | [] => ([], None)
  | q :: qs' =>
      match exec now q db with
      | Err e => ([], Some e)
      | Ok db' =>
          let '(tr, e) := run now qs' db' in
          (db' :: tr, e)
      end
  end.

End Requests.

(** What an operation leaves behind: its result, the client state, and the
    successive committed states of the store. *)
Record Effect (R S : Type) := mkEffect {
  result : R;
  client : S;
  commits : list Store.t
}.
Arguments mkEffect {R S} result client commits.

(** The store once the operation is over. *)
Definition store_after {R S} (db : Store.t) (e : Effect R S) : Store.t :=
  last (commits e) db.

(** The value of an [async] function that returns a boolean. *)
Inductive Returned :=
| Returns (b : bool)
| Throws (message : string).

(** ** The reservation context *)

Module Ctx.
Record t := mk {
  user : option User.t;
  reservations : list Reservation.t
}.
End Ctx.

Definition seller_name (db : Store.t) (r : ReservationRow.t) : option string :=
  match find (fun u => Nat.eqb (User.id u) (ReservationRow.seller_id r))
             (Store.users db) with
  | Some u => User.name u
  | None => None
  end.

(** [fetchReservations]: every row with the seller's name, newest first. *)
Definition fetchReservations (db : Store.t) : list Reservation.t :=
  map (fun r =>
         formatReservationFromDB
           (ReservationRow.to_object (seller_name db r) r))
      (rev (Store.reservations db)).

Definition getReservationById (c : Ctx.t) (id : Uuid) : option Reservation.t :=
  find (fun r => opt_eqb Nat.eqb (Reservation.id r) id) (Ctx.reservations c).

Section Client.

Variable backend : Backend.t.

Definition placeBid (c : Ctx.t) (db : Store.t) (id : Uuid)
    (amount : number) (now : Millis) : Effect Returned Ctx.t :=
  match Ctx.user c with
  | None => mkEffect (Throws "You must be logged in to place a bid") c []
  | Some user =>
      match getReservationById c id with
      | None => mkEffect (Returns false) c []
      | Some reservation =>
          if negb (truthy (Reservation.allowBidding reservation))
          then mkEffect (Returns false) c []
          else if (amount <? num_or (Reservation.minimumBid reservation) 0)
                  || (amount <=? num_or (Reservation.currentBid reservation) 0)
          then mkEffect (Returns false) c []
          else
            let '(tr, err) :=
              run backend now
                  [ InsertBid (BidInsert.mk id (Some (User.id user)) amount
                                            None None);
                    UpdateReservation id None
                      (Patch.mk None None None None None (Some amount)) ]
                  db in
            match err with
            | Some _ => mkEffect (Returns false) c tr
            | None =>
                mkEffect (Returns true)
                         (Ctx.mk (Ctx.user c)
                                 (fetchReservations (last tr db)))
                         tr
            end
      end
  end.

Definition buyNow (c : Ctx.t) (db : Store.t) (id : Uuid) (now : Millis)
    : Effect Returned Ctx.t :=
  match Ctx.user c with
  | None =>
      mkEffect (Throws "You must be logged in to buy a reservation") c []
  | Some user =>
      match getReservationById c id with
      | None => mkEffect (Returns false) c []
      | Some reservation =>
          let newStock :=
            num_or (Reservation.stockRemaining reservation) 0 - 1 in
          if newStock <? 0 then mkEffect (Returns false) c []
          else
            let newStatus := if newStock =? 0 then sold else available in
            let '(tr, err) :=
              run backend now
                  [ UpdateReservation id None
                      (Patch.mk (Some newStatus) None (Some newStock)
                                (Reservation.price reservation) (Some now)
                                None);
                    InsertHistory
                      (HistoryInsert.mk id (Some (User.id user))
                                        (User.name user)
                                        (Reservation.price reservation)) ]
                  db in
            match err with
            | Some _ => mkEffect (Returns false) c tr
            | None =>
                mkEffect (Returns true)
                         (Ctx.mk (Ctx.user c)
                                 (fetchReservations (last tr db)))
                         tr
            end
      end
  end.

End Client.

(** ** The API layer *)

Module AppError.
Record t := mk {
  message : string;
  code : option ErrorCode;
  status : option Z;
  retryAfter : option Z
}.

Definition isRateLimit (e : t) : bool :=
  match code e with
  | Some RATELIMIT => true
  | _ => false
  end
  || opt_eqb Z.eqb (status e) 429.
End AppError.

(** [handleSupabaseError] on an error the store reported; the store's
    errors carry no details. *)
Definition handleSupabaseError (e : ErrorCode) : AppError.t :=
  match e with
  | RATELIMIT =>
      AppError.mk "Too many attempts. Please wait before trying again."
                  (Some RATELIMIT) (Some 429) None
  | PGRST116 => AppError.mk "store error" (Some PGRST116) (Some 404) None
  | NOT_NULL_VIOLATION =>
      AppError.mk "store error" (Some NOT_NULL_VIOLATION) (Some 500) None
  end.

(** [getRateLimitRemainingTime]: [details.retryAfter || null]. *)
Definition getRateLimitRemainingTime (e : AppError.t) : option Z :=
  if negb (AppError.isRateLimit e) then None
  else match AppError.retryAfter e with
       | Some v => if v =? 0 then None else Some v
       | None => None
       end.

Inductive Promise (A : Type) :=
| Resolved (a : A)
| Rejected (e : AppError.t).
Arguments Resolved {A} a.
Arguments Rejected {A} e.

(** The filters of the query both [api.bids.create] and
    [api.bids.getRateLimit] start with: the caller's "place_bid" rows with
    [expires_at > now]. *)
Definition blocks (now : Millis) (user_id : option Uuid) (r : RateLimit.t)
    : bool :=
  opt_eqb Nat.eqb user_id (RateLimit.user_id r)
  && String.eqb (RateLimit.action_type r) "place_bid"
  && (now <? RateLimit.expires_at r).

(** That query: the [expires_at] of the rows, latest first, at most one. *)
Definition active_rate_limits (now : Millis) (user_id : option Uuid)
    (db : Store.t) : list Millis :=
  firstn 1
    (order_desc (fun e => e)
       (map RateLimit.expires_at
            (filter (blocks now user_id) (Store.rate_limits db)))).

Section Api.

Variable backend : Backend.t.

(** [api.bids.create].  The clock is read twice: [now] goes into the
    query, [later] is [new Date()] once the answer is back (and the time
    of the insert when the call goes on). *)
Definition api_bids_create (bid : BidInsert.t) (now later : Millis)
    (db : Store.t) : Effect (Promise Bid.t) unit :=
  match active_rate_limits now (BidInsert.user_id bid) db with
  | expiresAt :: _ =>
      let retryAfter := ceil_seconds (expiresAt - later) in
      mkEffect
        (Rejected (AppError.mk
                     "Too many bids. Please wait before trying again."
                     (Some RATELIMIT) (Some 429) (Some retryAfter)))
        tt []
  | [] =>
      match exec backend later (InsertBid bid) db with
      | Err e => mkEffect (Rejected (handleSupabaseError e)) tt []
      | Ok db' =>
          mkEffect
            match rev (Store.bids db') with
            | data :: _ => Resolved data
            | [] => Rejected (AppError.mk "Failed to create bid"
                                          None None None)
            end
            tt [db']
      end
  end.

(** [api.bids.getRateLimit]. *)
Definition api_bids_getRateLimit (userId : Uuid) (now later : Millis)
    (db : Store.t) : option Z :=
  match active_rate_limits now (Some userId) db with
  | expiresAt :: _ => Some (ceil_seconds (expiresAt - later))
  | [] => None
  end.

End Api.

(** ** The reservation detail page *)

Module Sale.
Record t := mk {
  id : Uuid;
  reservation_id : Uuid;
  price : number;
  executed_at : Millis
}.
End Sale.

Module MarketStats.
Record t := mk {
  lastSalePrice : option number;
  thirtyDayAvg : option Q;
  highPrice : option number;
  lowPrice : option number;
  salesCount : nat
}.

Definition initial : t := mk None None None None 0%nat.
End MarketStats.

Definition sum_prices (l : list number) : number := fold_left Z.add l 0.

(** [Math.max(...prices)] and [Math.min(...prices)] on a list whose first
    element is [p]. *)
Definition Math_max (p : number) (rest : list number) : number :=
  fold_left Z.max rest p.
Definition Math_min (p : number) (rest : list number) : number :=
  fold_left Z.min rest p.

(** Thirty days before [now] ([setDate(getDate() - 30)], days of 24 hours). *)
Definition thirtyDaysAgo (now : Millis) : Millis := now - 30 * 86400000.

(** The "Calculate market stats" block of [fetchReservation]: the state is
    only set when there is at least one sale. *)
Definition computeMarketStats (now : Millis) (formattedSales : list Sale.t)
    (previous : MarketStats.t) : MarketStats.t :=
  match map Sale.price formattedSales with
  | [] => previous
  | p0 :: rest =>
      let thirtyDayPrices :=
        map Sale.price
            (filter (fun sale => thirtyDaysAgo now <=? Sale.executed_at sale)
                    formattedSales) in
      {| MarketStats.lastSalePrice := Some p0;
         MarketStats.thirtyDayAvg :=
           match thirtyDayPrices with
           | [] => None
           | _ :: _ =>
               Some (inject_Z (sum_prices thirtyDayPrices)
                     / inject_Z (Z.of_nat (List.length thirtyDayPrices)))%Q
           end;
         MarketStats.highPrice := Some (Math_max p0 rest);
         MarketStats.lowPrice := Some (Math_min p0 rest);
         MarketStats.salesCount := List.length formattedSales |}
  end.

Inductive AuthAction := auth_bid | auth_buy | auth_sell.

Module Page.
Record t := mk {
  id : Uuid;
  isAuthenticated : bool;
  user : option User.t;
  reservation : option ReservationRow.t;
  bids : list Bid.t;
  salesHistory : list Sale.t;
  marketStats : MarketStats.t;
  error : option string;
  authAction : option AuthAction;
  navigatedTo : option string
}.

Definition setError (m : option string) (p : t) : t :=
  mk (id p) (isAuthenticated p) (user p) (reservation p) (bids p)
     (salesHistory p) (marketStats p) m (authAction p) (navigatedTo p).

Definition setAuthAction (a : AuthAction) (p : t) : t :=
  mk (id p) (isAuthenticated p) (user p) (reservation p) (bids p)
     (salesHistory p) (marketStats p) (error p) (Some a) (navigatedTo p).

Definition navigate (to : string) (p : t) : t :=
  mk (id p) (isAuthenticated p) (user p) (reservation p) (bids p)
     (salesHistory p) (marketStats p) (error p) (authAction p) (Some to).
End Page.

Definition error_message (e : ErrorCode) : string :=
  match e with
  | RATELIMIT => "Rate limit exceeded. Please wait before placing another bid."
  | PGRST116 => "JSON object requested, multiple (or no) rows returned"
  | NOT_NULL_VIOLATION => "null value violates not-null constraint"
  end.

(** The sales of [fetchReservation]: the history rows of the listing,
    newest first, each with the price of the joined reservation
    ([reservation:reservation_id(price)]), which for every selected row is
    the listing itself. *)
Definition formattedSales_of (reservationData : ReservationRow.t)
    (db : Store.t) : list Sale.t :=
  map (fun sale =>
         Sale.mk (History.id sale) (History.reservation_id sale)
                 (ReservationRow.price reservationData)
                 (History.created_at sale))
      (order_desc History.created_at
         (filter (fun h => Nat.eqb (History.reservation_id h)
                                   (ReservationRow.id reservationData))
                 (Store.reservation_history db))).

(** The open bids of a listing, highest first. *)
Definition open_bids_of (id : Uuid) (db : Store.t) : list Bid.t :=
  order_desc Bid.amount
    (filter (fun b => Nat.eqb (Bid.reservation_id b) id
                      && BidStatus_eqb (Bid.status b) bid_open)
            (Store.bids db)).

(** [fetchReservation], run on mount and on every change notification. *)
Definition fetchReservation (p : Page.t) (now : Millis) (db : Store.t)
    : Page.t :=
  match find (fun r => Nat.eqb (ReservationRow.id r) (Page.id p))
             (Store.reservations db) with
  | None => Page.setError (Some (error_message PGRST116)) p
  | Some reservationData =>
      let formattedSales := formattedSales_of reservationData db in
      Page.mk (Page.id p) (Page.isAuthenticated p) (Page.user p)
              (Some reservationData)
              (open_bids_of (Page.id p) db)
              formattedSales
              (computeMarketStats now formattedSales (Page.marketStats p))
              None (Page.authAction p) (Page.navigatedTo p)
  end.

Section Handlers.

Variable backend : Backend.t.

(** [handlePlaceBid]; [bidValue] is [parseFloat(bidAmount)] and
    [expiryDays] is [parseInt(bidExpiry)], [None] standing for [NaN]. *)
Definition handlePlaceBid (p : Page.t) (bidValue : option number)
    (expiryDays : option Z) (now : Millis) (db : Store.t)
    : Effect unit Page.t :=
  if negb (Page.isAuthenticated p)
  then mkEffect tt (Page.setAuthAction auth_bid p) []
  else
    match bidValue with
    | None =>
        mkEffect tt (Page.setError (Some "Please enter a valid bid amount") p) []
    | Some bidValue =>
        if bidValue <=? 0
        then mkEffect tt (Page.setError
                            (Some "Please enter a valid bid amount") p) []
        else
          let highestBid :=
            match Page.bids p with
            | b :: _ => Bid.amount b
            | [] => 0
            end in
          if bidValue <=? highestBid
          then mkEffect tt
                 (Page.setError
                    (Some "Bid must be greater than the current highest bid")
                    p) []
          else
            match expiryDays with
            | None =>
                mkEffect tt (Page.setError (Some "Invalid time value") p) []
            | Some expiryDays =>
                let expiryDate := now + expiryDays * 86400000 in
                let '(tr, err) :=
                  run backend now
                      [ InsertBid
                          (BidInsert.mk (Page.id p)
                                        (option_map User.id (Page.user p))
                                        bidValue (Some expiryDate)
                                        (Some bid_open)) ]
                      db in
                match err with
                | Some e =>
                    mkEffect tt (Page.setError (Some (error_message e)) p) tr
                | None => mkEffect tt p tr
                end
            end
    end.

(** [handleBuyNow]. *)
Definition handleBuyNow (p : Page.t) (now : Millis) (db : Store.t)
    : Effect unit Page.t :=
  if negb (Page.isAuthenticated p)
  then mkEffect tt (Page.setAuthAction auth_buy p) []
  else
    match Page.reservation p with
    | None => mkEffect tt p []
    | Some _ =>
        let '(tr, err) :=
          run backend now
              [ InsertHistory
                  (HistoryInsert.mk
                     (Page.id p)
                     (option_map User.id (Page.user p))
                     match Page.user p with
                     | Some u => User.name u
                     | None => None
                     end
                     None);
                UpdateReservation (Page.id p) None
                  (Patch.mk (Some sold) None None None None None) ]
              db in
        match err with
        | Some e => mkEffect tt (Page.setError (Some (error_message e)) p) tr
        | None => mkEffect tt (Page.navigate "/dashboard" p) tr
        end
    end.

(** [handleSellNow]: accepting the highest bid. *)
Definition handleSellNow (p : Page.t) (now : Millis) (db : Store.t)
    : Effect unit Page.t :=
  if negb (Page.isAuthenticated p)
  then mkEffect tt (Page.setAuthAction auth_sell p) []
  else
    match Page.reservation p, Page.bids p with
    | None, _ => mkEffect tt p []
    | Some _, [] => mkEffect tt p []
    | Some _, highestBid :: _ =>
        let '(tr, err) :=
          run backend now
              [ InsertHistory
                  (HistoryInsert.mk (Page.id p)
                                    (Some (Bid.user_id highestBid))
                                    (Some "Bid Accepted"%string) None);
                UpdateReservation (Page.id p)
                  (Some (option_map User.id (Page.user p)))
                  (Patch.mk (Some sold) (Some (Bid.amount highestBid))
                            None None None None);
                UpdateBidStatus (Bid.id highestBid) bid_accepted ]
              db in
        match err with
        | Some e =>
            mkEffect tt
              (Page.setError
                 (Some match e, tr with
                       | PGRST116, [_] =>
                           "You can only sell reservations you own"%string
                       | _, _ => error_message e
                       end)
                 p)
              tr
        | None => mkEffect tt (Page.navigate "/dashboard" p) tr
        end
    end.

(** [handlePlaceAsk]: the seller sets a new asking price; the page is
    reloaded on success. *)
Definition handlePlaceAsk (p : Page.t) (askValue : option number)
    (now : Millis) (db : Store.t) : Effect unit Page.t :=
  if negb (Page.isAuthenticated p)
  then mkEffect tt (Page.setAuthAction auth_sell p) []
  else
    match askValue with
    | None =>
        mkEffect tt
          (Page.setError (Some "Please enter a valid asking price") p) []
    | Some askValue =>
        if askValue <=? 0
        then mkEffect tt
               (Page.setError (Some "Please enter a valid asking price") p) []
        else
          let '(tr, err) :=
            run backend now
                [ UpdateReservation (Page.id p)
                    (Some (option_map User.id (Page.user p)))
                    (Patch.mk None (Some askValue) None None None None) ]
                db in
          match err with
          | Some PGRST116 =>
              mkEffect tt
                (Page.setError
                   (Some "You can only update reservations you own") p) tr
          | Some e =>
              mkEffect tt (Page.setError (Some (error_message e)) p) tr
          | None => mkEffect tt (fetchReservation p now (last tr db)) tr
          end
    end.

End Handlers.

(** * Predicates and sample data *)

Definition defined {A} (x : option A) : Prop := x <> None.

(** Every field that [formatReservationToDB] maps is defined. *)
Definition all_defined (r : Reservation.t) : Prop :=
  defined (Reservation.restaurantName r) /\ defined (Reservation.location r)
  /\ defined (Reservation.cuisine r) /\ defined (Reservation.date r)
  /\ defined (Reservation.time r) /\ defined (Reservation.partySize r)
  /\ defined (Reservation.price r) /\ defined (Reservation.originalPrice r)
  /\ defined (Reservation.sellerId r) /\ defined (Reservation.status r)
  /\ defined (Reservation.description r) /\ defined (Reservation.imageUrl r)
  /\ defined (Reservation.popularity r) /\ defined (Reservation.allowBidding r)
  /\ defined (Reservation.minimumBid r) /\ defined (Reservation.currentBid r)
  /\ defined (Reservation.bidEndTime r) /\ defined (Reservation.stockRemaining r)
  /\ defined (Reservation.lastSalePrice r) /\ defined (Reservation.lastSaleDate r)
  /\ defined (Reservation.latitude r) /\ defined (Reservation.longitude r).

(** The date fields that are set hold a time value. *)
Definition valid_dates (r : Reservation.t) : Prop :=
  Reservation.date r <> Some InvalidDate
  /\ Reservation.bidEndTime r <> Some InvalidDate
  /\ Reservation.lastSaleDate r <> Some InvalidDate.

(** Agreement on the twenty-two mapped fields. *)
Definition same_mapped_fields (a b : Reservation.t) : Prop :=
  Reservation.restaurantName a = Reservation.restaurantName b
  /\ Reservation.location a = Reservation.location b
  /\ Reservation.cuisine a = Reservation.cuisine b
  /\ Reservation.date a = Reservation.date b
  /\ Reservation.time a = Reservation.time b
  /\ Reservation.partySize a = Reservation.partySize b
  /\ Reservation.price a = Reservation.price b
  /\ Reservation.originalPrice a = Reservation.originalPrice b
  /\ Reservation.sellerId a = Reservation.sellerId b
  /\ Reservation.status a = Reservation.status b
  /\ Reservation.description a = Reservation.description b
  /\ Reservation.imageUrl a = Reservation.imageUrl b
  /\ Reservation.popularity a = Reservation.popularity b
  /\ Reservation.allowBidding a = Reservation.allowBidding b
  /\ Reservation.minimumBid a = Reservation.minimumBid b
  /\ Reservation.currentBid a = Reservation.currentBid b
  /\ Reservation.bidEndTime a = Reservation.bidEndTime b
  /\ Reservation.stockRemaining a = Reservation.stockRemaining b
  /\ Reservation.lastSalePrice a = Reservation.lastSalePrice b
  /\ Reservation.lastSaleDate a = Reservation.lastSaleDate b
  /\ Reservation.latitude a = Reservation.latitude b
  /\ Reservation.longitude a = Reservation.longitude b.

(** Converting to a row succeeds and converting back gives the mapped
    fields again. *)
Definition round_trip (r : Reservation.t) : Prop :=
  exists row,
    formatReservationToDB r = Some row
    /\ same_mapped_fields (formatReservationFromDB row) r.

Definition sample_reservation (d : JsDate) : Reservation.t :=
  Reservation.mk (Some 1%nat) (Some "Chez Nous") (Some "Leeds") (Some "French")
    (Some d) (Some "19:30") (Some 2) (Some 120) (Some 100) (Some 7%nat)
    (Some "Ada") (Some available) (Some "Window table") (Some "img.png")
    (Some 80) (Some true) (Some 100) (Some 150) (Some (Instant 5000))
    (Some 1) (Some 110) (Some (Instant 4000)) (Some 53) (Some (-1)).

Definition find_row (db : Store.t) (id : Uuid) : option ReservationRow.t :=
  find (fun r => Nat.eqb (ReservationRow.id r) id) (Store.reservations db).

(** The bid deadline of a listing that allows bidding has passed. *)
Definition bidding_ended (now : Millis) (r : ReservationRow.t) : bool :=
  match ReservationRow.bid_end_time r with
  | Some e => e <? now
  | None => false
  end
  && truthy (ReservationRow.allow_bidding r).

(** The status a listing ends with when an update writes [available]. *)
Definition swept_status (now : Millis) (r : ReservationRow.t)
    : ReservationStatus :=
  if bidding_ended now r
  then match ReservationRow.current_bid r with
       | Some _ => pending
       | None => expired
       end
  else available.

(** ** A sample marketplace *)

Definition ada : User.t := User.mk 7%nat (Some "Ada").
Definition bob : User.t := User.mk 8%nat (Some "Bob").
Definition cy : User.t := User.mk 9%nat (Some "Cy").

(** Listing 1, sold by Ada at 120 with a minimum bid of 100 and no bid
    yet. *)
Definition listing (stock : option number) (bid_end : option Millis)
    (allow : option bool) : ReservationRow.t :=
  ReservationRow.mk 1%nat "Chez Nous" "Leeds" "French" 9000 "19:30" 2 120 100
    7%nat (Some available) None None (Some 80) allow (Some 100) None bid_end
    stock None None None None.

Definition store_with (row : ReservationRow.t) : Store.t :=
  Store.mk [row] [] [] [] [ada; bob; cy] 100%nat.

(** The store that answers every request it can carry out, and the one
    that refuses an update matching no row. *)
Definition lenient : Backend.t := Backend.mk false false.
Definition strict_updates : Backend.t := Backend.mk true false.

(** The context of a signed-in user who has just fetched the listings. *)
Definition context_of (u : User.t) (db : Store.t) : Ctx.t :=
  Ctx.mk (Some u) (fetchReservations db).

(** The amount of the highest open bid on a listing, 0 when there is none
    (what the detail page compares a new bid with). *)
Definition highest_open_bid (db : Store.t) (id : Uuid) : number :=
  match open_bids_of id db with
  | b :: _ => Bid.amount b
  | [] => 0
  end.

Definition current_bid_of (db : Store.t) (id : Uuid) : option number :=
  match find_row db id with
  | Some r => ReservationRow.current_bid r
  | None => None
  end.

(** Scenario A, run through [placeBid]: on a listing with a minimum bid of
    100 and no bid, 90 is refused, 150 goes through, 150 again is refused,
    200 goes through. *)
Definition scenario_A (be : Backend.t) : Prop :=
  let db0 := store_with (listing (Some 1) None (Some true)) in
  let e1 := placeBid be (context_of bob db0) db0 1%nat 90 1000 in
  let db1 := store_after db0 e1 in
  let e2 := placeBid be (client e1) db1 1%nat 150 2000 in
  let db2 := store_after db1 e2 in
  let e3 := placeBid be (client e2) db2 1%nat 150 3000 in
  let db3 := store_after db2 e3 in
  let e4 := placeBid be (client e3) db3 1%nat 200 4000 in
  let db4 := store_after db3 e4 in
  result e1 = Returns false /\ db1 = db0
  /\ result e2 = Returns true /\ current_bid_of db2 1%nat = Some 150
  /\ result e3 = Returns false /\ db3 = db2
  /\ result e4 = Returns true /\ current_bid_of db4 1%nat = Some 200
  /\ map Bid.amount (Store.bids db4) = [150; 200].

Definition fresh_page (u : User.t) (id : Uuid) (now : Millis) (db : Store.t)
    : Page.t :=
  fetchReservation
    (Page.mk id true (Some u) None [] [] MarketStats.initial None None None)
    now db.

(** A burst of inserts by one bidder: which of them go through. *)
Fixpoint burst (be : Backend.t) (attempts : list (Millis * BidInsert.t))
    (db : Store.t) : list bool :=
  match attempts with
  | [] => []
  | (t, b) :: rest =>
      match exec be t (InsertBid b) db with
      | Ok db' => true :: burst be rest db'
      | Err _ => false :: burst be rest db
      end
  end.

(** Every "place_bid" row of the bidder outlives the window that starts at
    [t0]. *)
Definition outlive (t0 : Millis) (u : Uuid) (l : list RateLimit.t) : Prop :=
  forall r, In r l -> rate_limit_of u "place_bid" r = true ->
            t0 + window_seconds * 1000 <= RateLimit.expires_at r.

Definition rows_of (u : Uuid) (l : list RateLimit.t) : list RateLimit.t :=
  filter (rate_limit_of u "place_bid") l.

Definition sample_bid (u : User.t) (amount : number) : BidInsert.t :=
  BidInsert.mk 1%nat (Some (User.id u)) amount None None.

(** The first element of a list is at least as large as the others. *)
Definition head_first {A} (key : A -> Z) (l : list A) : Prop :=
  match l with
  | [] => True
  | x :: rest => forall y, In y rest -> key y <= key x
  end.

(** The store after Bob's first bid through [api.bids.create] at time 0. *)
Definition store_after_first_bid : Store.t :=
  let db0 := store_with (listing (Some 1) None (Some true)) in
  store_after db0 (api_bids_create lenient (sample_bid bob 150) 0 0 db0).

(** The claim's wording: the seconds until the oldest of the caller's
    blocking rows (the one created first) expires. *)
Definition seconds_until_oldest_expires (now later : Millis)
    (user_id : option Uuid) (db : Store.t) : option Z :=
  match rev (order_desc RateLimit.created_at
               (filter (blocks now user_id) (Store.rate_limits db))) with
  | oldest :: _ => Some (ceil_seconds (RateLimit.expires_at oldest - later))
  | [] => None
  end.

(** Listing 1 of Ada with one open bid, 300 by Bob, placed from the detail
    page at 1 s. *)
Definition store_with_bid : Store.t :=
  let db0 := store_with (listing (Some 1) None (Some true)) in
  store_after db0
    (handlePlaceBid lenient (fresh_page bob 1%nat 1000 db0) (Some 300) (Some 7)
                    1000 db0).

Definition history_prices (db : Store.t) : list (option number) :=
  map History.price (Store.reservation_history db).

Definition bid_statuses (db : Store.t) : list BidStatus :=
  map Bid.status (Store.bids db).

Definition listing_state (db : Store.t) (id : Uuid)
    : option (option ReservationStatus * number) :=
  option_map (fun r => (ReservationRow.status r, ReservationRow.price r))
             (find_row db id).

(** What a reader sees of listing [id]: its status and how many history
    records it has. *)
Definition observed (id : Uuid) (db : Store.t)
    : option (option ReservationStatus) * nat :=
  (option_map ReservationRow.status (find_row db id),
   List.length (filter (fun h => Nat.eqb (History.reservation_id h) id)
                       (Store.reservation_history db))).

(** The claim's wording: the prices of the history records of a listing. *)
Definition recorded_prices (id : Uuid) (db : Store.t) : list number :=
  flat_map (fun h => match History.price h with
                     | Some p => [p]
                     | None => []
                     end)
           (filter (fun h => Nat.eqb (History.reservation_id h) id)
                   (Store.reservation_history db)).

(** Two units of listing 1: Bob buys one at 120, Ada raises the ask to 150,
    Cy buys the other at 150.  The store after that, at 3 s. *)
Definition store_after_two_sales : Store.t :=
  let db0 := store_with (listing (Some 2) None (Some true)) in
  let db1 := store_after db0 (buyNow lenient (context_of bob db0) db0 1%nat 1000) in
  let db2 := store_after db1
               (handlePlaceAsk lenient (fresh_page ada 1%nat 2000 db1) (Some 150)
                               2000 db1) in
  store_after db2 (buyNow lenient (context_of cy db2) db2 1%nat 3000).

(** * Further operations *)

(** ** The rate-limit trigger *)

(** The store once [enforce_bid_rate_limit] has let an insert through: the
    purge of [check_rate_limit] and the row of
    [record_rate_limit_attempt]. *)
Definition attempt_recorded (now : Millis) (u : Uuid) (db : Store.t)
    : Store.t :=
  record_rate_limit_attempt now u "place_bid" window_seconds
    (snd (check_rate_limit now u "place_bid" max_bids_per_window
                           window_seconds db)).

(** The row that [record_rate_limit_attempt] adds for a bid. *)
Definition attempt_row (now : Millis) (u : Uuid) (db : Store.t)
    : RateLimit.t :=
  RateLimit.mk (Store.next_uuid db) u "place_bid" now
               (now + window_seconds * 1000).

(** ** The rate-limit hook and its notice *)

(** Truthiness of a number that may be null. *)
Definition num_truthy (x : option Z) : bool :=
  match x with
  | Some v => negb (v =? 0)
  | None => false
  end.

(** The state of [useRateLimit].  [timers] is not part of the React state:
    it counts the intervals that [setInterval] has started and
    [clearInterval] has not stopped. *)
Module RateLimitState.
Record t := mk {
  isBlocked : bool;
  remainingTime : option Z;
  timers : nat
}.

Definition initial : t := mk false None 0%nat.
End RateLimitState.

(** [handleRateLimit] on an [AppError]; an error of another class leaves
    the state alone, as an [AppError] that is no rate-limit error does. *)
Definition handleRateLimit (error : AppError.t) (s : RateLimitState.t)
    : RateLimitState.t :=
  if AppError.isRateLimit error
  then
    let remainingTime := getRateLimitRemainingTime error in
    RateLimitState.mk true remainingTime
      (if num_truthy remainingTime
       then S (RateLimitState.timers s)
       else RateLimitState.timers s)
  else s.

(** One firing of a running interval: the state update of the countdown,
    which stops its interval when the time is up.  Nothing fires when no
    interval runs. *)
Definition tick (prev : RateLimitState.t) : RateLimitState.t :=
  match RateLimitState.timers prev with
  | O => prev
  | S others =>
      let newTime :=
        if num_truthy (RateLimitState.remainingTime prev)
        then option_map (fun t => t - 1) (RateLimitState.remainingTime prev)
        else None in
      if negb (num_truthy newTime)
         || match newTime with
            | Some n => n <=? 0
            | None => false
            end
      then RateLimitState.mk false None others
      else RateLimitState.mk (RateLimitState.isBlocked prev) newTime (S others)
  end.

(** [wrapRateLimitedAction(action)] called in state [state]; the action
    works on a world [W] (the store, for the calls of the API layer) and
    rejects with an [AppError]. *)
Definition wrapRateLimitedAction {A W : Type} (action : W -> Promise A * W)
    (state : RateLimitState.t) (w : W)
    : Promise A * W * RateLimitState.t :=
  if RateLimitState.isBlocked state
  then (Rejected (AppError.mk "Please wait before trying again"
                              (Some RATELIMIT) (Some 429)
                              (RateLimitState.remainingTime state)),
        w, state)
  else
    match action w with
    | (Resolved a, w') => (Resolved a, w', state)
    | (Rejected error, w') => (Rejected error, w', handleRateLimit error state)
    end.

(** [api.bids.create] as an action on the store. *)
Definition bids_create_action (be : Backend.t) (bid : BidInsert.t)
    (now later : Millis) (db : Store.t) : Promise Bid.t * Store.t :=
  let e := api_bids_create be bid now later db in
  (result e, store_after db e).


(** ** The detail page: ownership *)

(** The rows an owner-checked update of the page can write: the listing
    of the page when its seller is the signed-in user
    ([.eq('id', id).eq('seller_id', user?.id)]). *)
Definition own_listing (p : Page.t) : ReservationRow.t -> bool :=
  reservation_matches (Page.id p) (Some (option_map User.id (Page.user p))).


(** ** The reservation context: listings *)

(** The two lists of the provider: the context of the bidding operations
    and the signed-in user's own listings. *)
Module Provider.
Record t := mk {
  ctx : Ctx.t;
  userReservations : list Reservation.t
}.
End Provider.

(** What an [async] function without a result settles to. *)
Inductive Exception :=
| JsError (message : string)
| RangeError
| PostgrestError (e : ErrorCode).

Inductive Settled :=
| Fulfilled
| Failed (x : Exception).

(** [fetchUserReservations]: the rows of the user, with the seller's name,
    newest first. *)
Definition fetchUserReservations (user : User.t) (db : Store.t)
    : list Reservation.t :=
  map (fun r =>
         formatReservationFromDB
           (ReservationRow.to_object (seller_name db r) r))
      (rev (filter (fun r => Nat.eqb (ReservationRow.seller_id r)
                                     (User.id user))
                   (Store.reservations db))).

(** [getReservation]: [.eq('id', id).single()] fails unless exactly one row
    is selected. *)
Definition getReservation (db : Store.t) (id : Uuid) : Result Reservation.t :=
  match filter (fun r => Nat.eqb (ReservationRow.id r) id)
               (Store.reservations db) with
  | [data] =>
      Ok (formatReservationFromDB
            (ReservationRow.to_object
               (Some (str_or (seller_name db data) "Unknown Seller")) data))
  | _ => Err PGRST116
  end.

(** The row an insert into [reservations] makes of an object without a
    key: the key is generated, the NOT NULL columns must be there, and a
    column the object leaves out is NULL. *)
Definition row_of_object (id : Uuid) (o : DbReservation.t)
    : option ReservationRow.t :=
  match DbReservation.restaurant_name o, DbReservation.location o,
        DbReservation.cuisine o, DbReservation.date o, DbReservation.time o,
        DbReservation.party_size o, DbReservation.price o,
        DbReservation.original_price o, DbReservation.seller_id o with
  | Some restaurant_name, Some location, Some cuisine, Some date, Some time,
    Some party_size, Some price, Some original_price, Some seller_id =>
      Some {| ReservationRow.id := id;
              ReservationRow.restaurant_name := restaurant_name;
              ReservationRow.location := location;
              ReservationRow.cuisine := cuisine;
              ReservationRow.date := date;
              ReservationRow.time := time;
              ReservationRow.party_size := party_size;
              ReservationRow.price := price;
              ReservationRow.original_price := original_price;
              ReservationRow.seller_id := seller_id;
              ReservationRow.status := DbReservation.status o;
              ReservationRow.description := DbReservation.description o;
              ReservationRow.image_url := DbReservation.image_url o;
              ReservationRow.popularity := DbReservation.popularity o;
              ReservationRow.allow_bidding := DbReservation.allow_bidding o;
              ReservationRow.minimum_bid := DbReservation.minimum_bid o;
              ReservationRow.current_bid := DbReservation.current_bid o;
              ReservationRow.bid_end_time := DbReservation.bid_end_time o;
              ReservationRow.stock_remaining :=
                DbReservation.stock_remaining o;
              ReservationRow.last_sale_price :=
                DbReservation.last_sale_price o;
              ReservationRow.last_sale_date := DbReservation.last_sale_date o;
              ReservationRow.latitude := DbReservation.latitude o;
              ReservationRow.longitude := DbReservation.longitude o |}
  | _, _, _, _, _, _, _, _, _ => None
  end.

(** [.insert([o]).select().single()] on [reservations]: the new row and
    the store with it.  No trigger of the migrations runs on an insert. *)
Definition insert_reservation (o : DbReservation.t) (db : Store.t)
    : Result (ReservationRow.t * Store.t) :=
  match row_of_object (Store.next_uuid db) o with
  | None => Err NOT_NULL_VIOLATION
  | Some row =>
      Ok (row,
          Store.mk (Store.reservations db ++ [row]) (Store.bids db)
                   (Store.reservation_history db) (Store.rate_limits db)
                   (Store.users db) (S (Store.next_uuid db)))
  end.

(** [{ ...newReservation, sellerId: user.id, status: 'available',
       popularity: ..., stockRemaining: 1 }]. *)
Definition new_listing (user : User.t) (popularity : number)
    (newReservation : Reservation.t) : Reservation.t :=
  {| Reservation.id := Reservation.id newReservation;
     Reservation.restaurantName := Reservation.restaurantName newReservation;
     Reservation.location := Reservation.location newReservation;
     Reservation.cuisine := Reservation.cuisine newReservation;
     Reservation.date := Reservation.date newReservation;
     Reservation.time := Reservation.time newReservation;
     Reservation.partySize := Reservation.partySize newReservation;
     Reservation.price := Reservation.price newReservation;
     Reservation.originalPrice := Reservation.originalPrice newReservation;
     Reservation.sellerId := Some (User.id user);
     Reservation.sellerName := Reservation.sellerName newReservation;
     Reservation.status := Some available;
     Reservation.description := Reservation.description newReservation;
     Reservation.imageUrl := Reservation.imageUrl newReservation;
     Reservation.popularity := Some popularity;
     Reservation.allowBidding := Reservation.allowBidding newReservation;
     Reservation.minimumBid := Reservation.minimumBid newReservation;
     Reservation.currentBid := Reservation.currentBid newReservation;
     Reservation.bidEndTime := Reservation.bidEndTime newReservation;
     Reservation.stockRemaining := Some 1;
     Reservation.lastSalePrice := Reservation.lastSalePrice newReservation;
     Reservation.lastSaleDate := Reservation.lastSaleDate newReservation;
     Reservation.latitude := Reservation.latitude newReservation;
     Reservation.longitude := Reservation.longitude newReservation |}.

(** [addReservation]; [roll] is [Math.floor(Math.random() * 40)], a whole
    number from 0 to 39. *)
Definition addReservation (roll : Z) (newReservation : Reservation.t)
    (s : Provider.t) (db : Store.t) : Effect Settled Provider.t :=
  match Ctx.user (Provider.ctx s) with
  | None =>
      mkEffect (Failed (JsError "You must be logged in to add a reservation"))
               s []
  | Some user =>
      match formatReservationToDB
              (new_listing user (roll + 60) newReservation) with
      | None => mkEffect (Failed RangeError) s []
      | Some dbReservation =>
          match insert_reservation dbReservation db with
          | Err e => mkEffect (Failed (PostgrestError e)) s []
          | Ok (data, db') =>
              let formattedReservation :=
                formatReservationFromDB
                  (ReservationRow.to_object (User.name user) data) in
              mkEffect Fulfilled
                (Provider.mk
                   (Ctx.mk (Ctx.user (Provider.ctx s))
                           (formattedReservation
                              :: Ctx.reservations (Provider.ctx s)))
                   (formattedReservation :: Provider.userReservations s))
                [db']
          end
      end
  end.


(** [b.popularity - a.popularity]: a popularity of null counts as 0. *)
Definition popularity_of (r : Reservation.t) : Z :=
  match Reservation.popularity r with
  | Some v => v
  | None => 0
  end.

(** [[...l].sort((a, b) => key(b) - key(a))]: descending, and stable, so
    entries with equal keys keep their order. *)
Fixpoint insert_sorted {A} (key : A -> Z) (x : A) (l : list A) : list A :=
  match l with
  | [] => [x]
  | y :: l' =>
      if key y <=? key x then x :: l else y :: insert_sorted key x l'
  end.

Definition sort_desc {A} (key : A -> Z) (l : list A) : list A :=
  fold_right (insert_sorted key) [] l.

(** [featuredReservations]: the three most popular entries. *)
Definition featuredReservations (reservations : list Reservation.t)
    : list Reservation.t :=
  firstn 3 (sort_desc popularity_of reservations).

(** A provider whose lists have just been fetched. *)
Definition fresh_provider (user : User.t) (db : Store.t) : Provider.t :=
  Provider.mk (Ctx.mk (Some user) (fetchReservations db))
              (fetchUserReservations user db).

(** The fields an insert into [reservations] cannot do without are
    entered. *)
Definition complete (r : Reservation.t) : Prop :=
  defined (Reservation.restaurantName r) /\ defined (Reservation.location r)
  /\ defined (Reservation.cuisine r) /\ defined (Reservation.date r)
  /\ defined (Reservation.time r) /\ defined (Reservation.partySize r)
  /\ defined (Reservation.price r) /\ defined (Reservation.originalPrice r).

(** A form as a seller fills it in, with a stock of 4 that
    [addReservation] does not keep. *)
Definition sample_form : Reservation.t :=
  Reservation.mk None (Some "Sakura") (Some "York") (Some "Japanese")
    (Some (Instant 9000)) (Some "20:00") (Some 4) (Some 200) (Some 180)
    None None (Some sold) None None (Some 5) (Some true) (Some 150) None
    (Some (Instant 5000)) (Some 4) None None None None.

(** ** The context's writes *)

(** The payload of [buyNow]'s update for a cached entry, and the history
    record of the purchase. *)
Definition purchase_patch (reservation : Reservation.t) (now : Millis)
    : Patch.t :=
  let newStock := num_or (Reservation.stockRemaining reservation) 0 - 1 in
  Patch.mk (Some (if newStock =? 0 then sold else available)) None
           (Some newStock) (Reservation.price reservation) (Some now) None.

Definition purchase_record (key id : Uuid) (user : User.t)
    (reservation : Reservation.t) (now : Millis) : History.t :=
  History.mk key id (Some (User.id user)) (User.name user)
             (Reservation.price reservation) now.

(** ** The analytics page *)

Module BidAnalytics.
Record t := mk {
  bidCount : nat;
  highestBid : option number
}.
End BidAnalytics.

(** The bids of a listing, whatever their status. *)
Definition bids_of (id : Uuid) (db : Store.t) : list Bid.t :=
  filter (fun b => Nat.eqb (Bid.reservation_id b) id) (Store.bids db).

(** The query function of the bid analytics: two requests, the count of
    the listing's bids and, when it is positive, the amount of the
    highest one ([.order('amount', { ascending: false }).limit(1).single()],
    whose error on an empty answer is passed over).  [db] is the store at
    the first request and [db'] at the second. *)
Definition fetchAnalytics (id : Uuid) (db db' : Store.t) : BidAnalytics.t :=
  let bidCount := List.length (bids_of id db) in
  let highestBid :=
    if Nat.ltb 0 bidCount
    then match firstn 1 (order_desc Bid.amount (bids_of id db')) with
         | [highestBidData] => Some (Bid.amount highestBidData)
         | _ => None
         end
    else None in
  BidAnalytics.mk bidCount highestBid.

(** ** The reservation context: updating a listing *)

(** The value of a NOT NULL column after an update. *)
Definition total {A} (new : option A) (old : A) : A :=
  match new with
  | Some v => v
  | None => old
  end.

(** The new version of a row under an update whose payload is the object
    [o]: each column the object has is written.  The payloads of
    [formatReservationToDB] carry no key. *)
Definition write_columns (o : DbReservation.t) (r : ReservationRow.t)
    : ReservationRow.t :=
  {| ReservationRow.id := ReservationRow.id r;
     ReservationRow.restaurant_name :=
       total (DbReservation.restaurant_name o) (ReservationRow.restaurant_name r);
     ReservationRow.location :=
       total (DbReservation.location o) (ReservationRow.location r);
     ReservationRow.cuisine :=
       total (DbReservation.cuisine o) (ReservationRow.cuisine r);
     ReservationRow.date :=
       total (DbReservation.date o) (ReservationRow.date r);
     ReservationRow.time :=
       total (DbReservation.time o) (ReservationRow.time r);
     ReservationRow.party_size :=
       total (DbReservation.party_size o) (ReservationRow.party_size r);
     ReservationRow.price :=
       total (DbReservation.price o) (ReservationRow.price r);
     ReservationRow.original_price :=
       total (DbReservation.original_price o)
             (ReservationRow.original_price r);
     ReservationRow.seller_id :=
       total (DbReservation.seller_id o) (ReservationRow.seller_id r);
     ReservationRow.status :=
       Patch.or_old (DbReservation.status o) (ReservationRow.status r);
     ReservationRow.description :=
       Patch.or_old (DbReservation.description o)
                    (ReservationRow.description r);
     ReservationRow.image_url :=
       Patch.or_old (DbReservation.image_url o) (ReservationRow.image_url r);
     ReservationRow.popularity :=
       Patch.or_old (DbReservation.popularity o) (ReservationRow.popularity r);
     ReservationRow.allow_bidding :=
       Patch.or_old (DbReservation.allow_bidding o)
                    (ReservationRow.allow_bidding r);
     ReservationRow.minimum_bid :=
       Patch.or_old (DbReservation.minimum_bid o)
                    (ReservationRow.minimum_bid r);
     ReservationRow.current_bid :=
       Patch.or_old (DbReservation.current_bid o)
                    (ReservationRow.current_bid r);
     ReservationRow.bid_end_time :=
       Patch.or_old (DbReservation.bid_end_time o)
                    (ReservationRow.bid_end_time r);
     ReservationRow.stock_remaining :=
       Patch.or_old (DbReservation.stock_remaining o)
                    (ReservationRow.stock_remaining r);
     ReservationRow.last_sale_price :=
       Patch.or_old (DbReservation.last_sale_price o)
                    (ReservationRow.last_sale_price r);
     ReservationRow.last_sale_date :=
       Patch.or_old (DbReservation.last_sale_date o)
                    (ReservationRow.last_sale_date r);
     ReservationRow.latitude :=
       Patch.or_old (DbReservation.latitude o) (ReservationRow.latitude r);
     ReservationRow.longitude :=
       Patch.or_old (DbReservation.longitude o) (ReservationRow.longitude r) |}.

Definition absent {A} (x : option A) : bool :=
  match x with
  | Some _ => false
  | None => true
  end.

(** The object has no column: [{}]. *)
Definition no_column (o : DbReservation.t) : bool :=
  absent (DbReservation.restaurant_name o) && absent (DbReservation.location o)
  && absent (DbReservation.cuisine o) && absent (DbReservation.date o)
  && absent (DbReservation.time o) && absent (DbReservation.party_size o)
  && absent (DbReservation.price o) && absent (DbReservation.original_price o)
  && absent (DbReservation.seller_id o) && absent (DbReservation.status o)
  && absent (DbReservation.description o) && absent (DbReservation.image_url o)
  && absent (DbReservation.popularity o)
  && absent (DbReservation.allow_bidding o)
  && absent (DbReservation.minimum_bid o) && absent (DbReservation.current_bid o)
  && absent (DbReservation.bid_end_time o)
  && absent (DbReservation.stock_remaining o)
  && absent (DbReservation.last_sale_price o)
  && absent (DbReservation.last_sale_date o)
  && absent (DbReservation.latitude o) && absent (DbReservation.longitude o).

Section ContextUpdate.

Variable backend : Backend.t.

(** What the sources leave open about an update whose payload has no
    column: whether the store carries it out on the rows it matches, so
    that the trigger runs on them, or skips it. *)
Variable empty_update_runs : bool.

(** [.update(o).eq('id', id)] on [reservations]. *)
Definition update_reservation (now : Millis) (id : Uuid)
    (o : DbReservation.t) (db : Store.t) : Result Store.t :=
  if no_column o && negb empty_update_runs then Ok db
  else if Backend.zero_row_update_raises backend
          && negb (existsb (reservation_matches id None)
                           (Store.reservations db))
  then Err PGRST116
  else
    Ok (Store.with_reservations
          (map (fun r =>
                  if reservation_matches id None r
                  then handle_bid_expiration now (write_columns o r)
                  else r)
               (Store.reservations db))
          db).

(** [updateReservation]: the update, then the list is fetched again. *)
Definition updateReservation (id : Uuid) (updates : Reservation.t)
    (c : Ctx.t) (now : Millis) (db : Store.t) : Effect Settled Ctx.t :=
  match formatReservationToDB updates with
  | None => mkEffect (Failed RangeError) c []
  | Some dbUpdates =>
      match update_reservation now id dbUpdates db with
      | Err e => mkEffect (Failed (PostgrestError e)) c []
      | Ok db' =>
          mkEffect Fulfilled
                   (Ctx.mk (Ctx.user c) (fetchReservations db')) [db']
      end
  end.

End ContextUpdate.

(** A field that was written is read with the value written. *)
Definition read_back {A} (written read : option A) : Prop :=
  written = None \/ read = written.

(** The entry shows every field the update set; a status of 'available'
    may have been replaced by the bid-expiration trigger. *)
Definition shows_update (updates entry : Reservation.t) : Prop :=
  read_back (Reservation.restaurantName updates)
            (Reservation.restaurantName entry)
  /\ read_back (Reservation.location updates) (Reservation.location entry)
  /\ read_back (Reservation.cuisine updates) (Reservation.cuisine entry)
  /\ read_back (Reservation.date updates) (Reservation.date entry)
  /\ read_back (Reservation.time updates) (Reservation.time entry)
  /\ read_back (Reservation.partySize updates) (Reservation.partySize entry)
  /\ read_back (Reservation.price updates) (Reservation.price entry)
  /\ read_back (Reservation.originalPrice updates)
               (Reservation.originalPrice entry)
  /\ read_back (Reservation.sellerId updates) (Reservation.sellerId entry)
  /\ read_back (Reservation.description updates)
               (Reservation.description entry)
  /\ read_back (Reservation.imageUrl updates) (Reservation.imageUrl entry)
  /\ read_back (Reservation.popularity updates) (Reservation.popularity entry)
  /\ read_back (Reservation.allowBidding updates)
               (Reservation.allowBidding entry)
  /\ read_back (Reservation.minimumBid updates) (Reservation.minimumBid entry)
  /\ read_back (Reservation.currentBid updates) (Reservation.currentBid entry)
  /\ read_back (Reservation.bidEndTime updates) (Reservation.bidEndTime entry)
  /\ read_back (Reservation.stockRemaining updates)
               (Reservation.stockRemaining entry)
  /\ read_back (Reservation.lastSalePrice updates)
               (Reservation.lastSalePrice entry)
  /\ read_back (Reservation.lastSaleDate updates)
               (Reservation.lastSaleDate entry)
  /\ read_back (Reservation.latitude updates) (Reservation.latitude entry)
  /\ read_back (Reservation.longitude updates) (Reservation.longitude entry)
  /\ (read_back (Reservation.status updates) (Reservation.status entry)
      \/ (Reservation.status updates = Some available
          /\ (Reservation.status entry = Some pending
              \/ Reservation.status entry = Some expired))).

(** An update that sets the price and the status only. *)
Definition relist_at (price : number) : Reservation.t :=
  Reservation.mk None None None None None None None (Some price) None None
    None (Some available) None None None None None None None None None None
    None None.

(** * Properties *)

(** ** The row conversions *)

(** The row conversions undo each other as soon as the date is set and no
    date field is an Invalid Date; the other fields may be undefined. *)
Lemma round_trip_of_valid_dates (r : Reservation.t) :
  defined (Reservation.date r) -> valid_dates r -> round_trip r.
Proof.
  unfold defined, valid_dates, round_trip, formatReservationToDB.
  destruct r as [? ? ? ? d ? ? ? ? ? ? ? ? ? ? ? ? ? b ? ? l ? ?]; simpl.
  intros Hd (H1 & H2 & H3).
  destruct d as [[?|]|]; try congruence;
    destruct b as [[?|]|]; try congruence;
    destruct l as [[?|]|]; try congruence;
    simpl; (eexists; split; [reflexivity|]);
    unfold same_mapped_fields; simpl; repeat split.
Qed.

(** C10, as amended: for every Reservation whose optional fields are all
    defined and whose date fields are valid dates, [formatReservationToDB]
    followed by [formatReservationFromDB] gives back each of the twenty-two
    mapped fields. *)
Theorem format_round_trip (r : Reservation.t) :
  all_defined r -> valid_dates r -> round_trip r.
Proof.
  intros Hall Hv.
  apply round_trip_of_valid_dates; [|exact Hv].
  destruct Hall as (_ & _ & _ & Hd & _); exact Hd.
Qed.

Lemma sample_reservation_all_defined (d : JsDate) :
  all_defined (sample_reservation d).
Proof. unfold all_defined, defined; simpl; repeat split; discriminate. Defined.

Lemma format_round_trip_witness :
  all_defined (sample_reservation (Instant 9000))
  /\ valid_dates (sample_reservation (Instant 9000))
  /\ round_trip (sample_reservation (Instant 9000)).
Proof.
  split; [apply sample_reservation_all_defined|].
  assert (Hv : valid_dates (sample_reservation (Instant 9000))).
  { unfold valid_dates; simpl; repeat split; discriminate. }
  split; [exact Hv|].
  apply (@format_round_trip (sample_reservation (Instant 9000))).
  - apply sample_reservation_all_defined.
  - exact Hv.
Defined.

(** C10 as stated fails on a Reservation whose [date] is an Invalid Date:
    every optional field is defined, and [toISOString] raises. *)
Lemma format_round_trip_invalid_date :
  all_defined (sample_reservation InvalidDate)
  /\ formatReservationToDB (sample_reservation InvalidDate) = None
  /\ ~ round_trip (sample_reservation InvalidDate).
Proof.
  split; [apply sample_reservation_all_defined|].
  split; [reflexivity|].
  intros (row & H & _); discriminate H.
Qed.

(** ** The bid-expiration trigger *)

Lemma Patch_apply_status (s : ReservationStatus) (r : ReservationRow.t) :
  ReservationRow.status
    (Patch.apply (Patch.mk (Some s) None None None None None) r) = Some s.
Proof. reflexivity. Qed.

(** Once the trigger has changed a row, it leaves it alone at any time. *)
Lemma handle_bid_expiration_settled (now later : Millis)
    (r : ReservationRow.t) :
  handle_bid_expiration now r = r
  \/ handle_bid_expiration later (handle_bid_expiration now r)
     = handle_bid_expiration now r.
Proof.
  unfold handle_bid_expiration at 1 3 4.
  destruct (_ && _ && _) eqn:E; [right|left; reflexivity].
  destruct (ReservationRow.current_bid r);
    unfold handle_bid_expiration; rewrite Patch_apply_status; simpl;
    rewrite andb_false_r; reflexivity.
Qed.

Lemma handle_bid_expiration_twice (now later : Millis)
    (r : ReservationRow.t) :
  handle_bid_expiration later (handle_bid_expiration now r)
  = handle_bid_expiration (Z.max now later) r.
Proof.
  unfold handle_bid_expiration.
  destruct r as [? ? ? ? ? ? ? ? ? ? st ? ? ? ab ? cb be ? ? ? ? ?]; simpl.
  destruct be as [e|], st as [[]|], ab as [[]|], cb as [?|];
    simpl; try reflexivity;
    repeat match goal with
           | |- context [Z.ltb ?a ?b] => destruct (Z.ltb_spec a b); simpl
           end;
    try reflexivity; lia.
Qed.

(** C8: for every listing, running the expiry sweep twice in succession
    gives the listing the single run gives: at one instant the second run is
    the identity on the result of the first; at two instants the pair is the
    one run at the later of them; and once a run has changed the listing, no
    later run changes it again. *)
Theorem expiry_sweep_idempotent (now later : Millis) (r : ReservationRow.t) :
  handle_bid_expiration now (handle_bid_expiration now r)
  = handle_bid_expiration now r
  /\ handle_bid_expiration later (handle_bid_expiration now r)
     = handle_bid_expiration (Z.max now later) r
  /\ (handle_bid_expiration now r = r
      \/ handle_bid_expiration later (handle_bid_expiration now r)
         = handle_bid_expiration now r).
Proof.
  split; [|split].
  - rewrite handle_bid_expiration_twice, Z.max_id; reflexivity.
  - apply handle_bid_expiration_twice.
  - apply handle_bid_expiration_settled.
Qed.

(** The two outcomes of the sweep on a listing that is due. *)
Example sweep_with_bid_goes_pending :
  forall r now,
    ReservationRow.bid_end_time r = Some (now - 1) ->
    ReservationRow.status r = Some available ->
    ReservationRow.allow_bidding r = Some true ->
    ReservationRow.status (handle_bid_expiration now r)
    = Some match ReservationRow.current_bid r with
           | Some _ => pending
           | None => expired
           end.
Proof.
  intros r now Hb Hs Ha. unfold handle_bid_expiration.
  rewrite Hb, Hs, Ha; simpl.
  replace (now - 1 <? now) with true by (symmetry; apply Z.ltb_lt; lia).
  destruct (ReservationRow.current_bid r); reflexivity.
Qed.

Lemma Patch_apply_empty (r : ReservationRow.t) : Patch.apply Patch.empty r = r.
Proof. destruct r; reflexivity. Qed.

Lemma Patch_apply_id (p : Patch.t) (r : ReservationRow.t) :
  ReservationRow.id (Patch.apply p r) = ReservationRow.id r.
Proof. reflexivity. Qed.

Lemma handle_bid_expiration_id (now : Millis) (r : ReservationRow.t) :
  ReservationRow.id (handle_bid_expiration now r) = ReservationRow.id r.
Proof.
  unfold handle_bid_expiration.
  destruct (_ && _ && _); [|reflexivity].
  destruct (ReservationRow.current_bid r); reflexivity.
Qed.

Lemma handle_bid_expiration_seller (now : Millis) (r : ReservationRow.t) :
  ReservationRow.seller_id (handle_bid_expiration now r)
  = ReservationRow.seller_id r.
Proof.
  unfold handle_bid_expiration.
  destruct (_ && _ && _); [|reflexivity].
  destruct (ReservationRow.current_bid r); reflexivity.
Qed.

Lemma update_row_matches now id seller p id' seller' (r : ReservationRow.t) :
  reservation_matches id' seller' (update_row now id seller p r)
  = reservation_matches id' seller' r.
Proof.
  unfold update_row.
  destruct (reservation_matches id seller r); [|reflexivity].
  unfold reservation_matches.
  rewrite handle_bid_expiration_id, handle_bid_expiration_seller.
  reflexivity.
Qed.

Lemma existsb_update_rows now id seller p id' seller'
    (l : list ReservationRow.t) :
  existsb (reservation_matches id' seller') (map (update_row now id seller p) l)
  = existsb (reservation_matches id' seller') l.
Proof.
  induction l as [|r l IH]; [reflexivity|].
  simpl. rewrite IH, update_row_matches. reflexivity.
Qed.

(** On the store: an update that writes nothing runs the sweep on the rows
    it touches, and a second such update changes nothing more. *)
Lemma sweep_update_twice (be : Backend.t) (now : Millis) (id : Uuid)
    (db db1 : Store.t) :
  exec be now (UpdateReservation id None Patch.empty) db = Ok db1 ->
  exec be now (UpdateReservation id None Patch.empty) db1 = Ok db1.
Proof.
  unfold exec. intros H.
  destruct (_ && negb _) eqn:E; [discriminate|].
  injection H as <-. simpl.
  rewrite existsb_update_rows, E, map_map.
  unfold Store.with_reservations; simpl.
  do 2 f_equal. apply map_ext. intros r.
  unfold update_row at 2.
  destruct (reservation_matches id None r) eqn:M.
  - unfold update_row.
    unfold reservation_matches in *.
    rewrite handle_bid_expiration_id, Patch_apply_id, M.
    rewrite !Patch_apply_empty, handle_bid_expiration_twice, Z.max_id.
    reflexivity.
  - unfold update_row. rewrite M. reflexivity.
Qed.

(** ** Lookups and updates on the [reservations] table *)

Lemma update_row_id now id seller p (r : ReservationRow.t) :
  ReservationRow.id (update_row now id seller p r) = ReservationRow.id r.
Proof.
  unfold update_row.
  destruct (reservation_matches id seller r); [|reflexivity].
  rewrite handle_bid_expiration_id. reflexivity.
Qed.

Lemma find_update_rows now id seller p id' (l : list ReservationRow.t) :
  find (fun r => Nat.eqb (ReservationRow.id r) id')
       (map (update_row now id seller p) l)
  = option_map (update_row now id seller p)
               (find (fun r => Nat.eqb (ReservationRow.id r) id') l).
Proof.
  induction l as [|r l IH]; [reflexivity|].
  simpl. rewrite update_row_id.
  destruct (Nat.eqb (ReservationRow.id r) id'); [reflexivity|exact IH].
Qed.

Lemma find_row_matches (db : Store.t) (id : Uuid) (row : ReservationRow.t) :
  find_row db id = Some row ->
  reservation_matches id None row = true
  /\ existsb (reservation_matches id None) (Store.reservations db) = true.
Proof.
  unfold find_row. intros H.
  destruct (find_some _ _ H) as [Hin Hid].
  assert (Hm : reservation_matches id None row = true).
  { unfold reservation_matches. rewrite Hid. reflexivity. }
  split; [exact Hm|].
  apply existsb_exists. exists row. split; assumption.
Qed.

(** The trigger only ever writes [status]. *)
Lemma handle_bid_expiration_keeps now (r : ReservationRow.t) :
  ReservationRow.stock_remaining (handle_bid_expiration now r)
  = ReservationRow.stock_remaining r
  /\ ReservationRow.last_sale_price (handle_bid_expiration now r)
     = ReservationRow.last_sale_price r
  /\ ReservationRow.last_sale_date (handle_bid_expiration now r)
     = ReservationRow.last_sale_date r
  /\ ReservationRow.current_bid (handle_bid_expiration now r)
     = ReservationRow.current_bid r
  /\ ReservationRow.price (handle_bid_expiration now r)
     = ReservationRow.price r.
Proof.
  unfold handle_bid_expiration.
  destruct (_ && _ && _); [|repeat split].
  destruct (ReservationRow.current_bid r) eqn:E; simpl; rewrite ?E;
    repeat split.
Qed.

Lemma status_after_update now (s : ReservationStatus) p2 p3 p4 p5
    (r : ReservationRow.t) :
  ReservationRow.status
    (handle_bid_expiration now
       (Patch.apply (Patch.mk (Some s) p2 p3 p4 p5 None) r))
  = Some match s with
         | available => swept_status now r
         | _ => s
         end.
Proof.
  unfold handle_bid_expiration, swept_status, bidding_ended; simpl.
  destruct s; simpl; rewrite ?andb_false_r; try reflexivity.
  rewrite andb_true_r.
  destruct (_ && _); [|reflexivity].
  destruct (ReservationRow.current_bid r); reflexivity.
Qed.

(** ** Buy-now *)

(** C3, as amended: for every listing whose cached copy is current,
    [buyNow] rejects when [stockRemaining <= 0] and writes nothing;
    otherwise it lowers [stockRemaining] by exactly 1, leaves the status
    [sold] if and only if the new stock is 0, records
    [lastSalePrice = price] and [lastSaleDate = now], and appends exactly
    one history record for the purchase.  When units remain it writes
    [available], and the listing ends [available] unless it allows bidding
    and its bid deadline has passed: the bid-expiration trigger then runs on
    this very update and leaves [pending] (a current bid) or [expired]. *)
Theorem buyNow_contract :
  forall be c db id now user row users,
    Ctx.user c = Some user ->
    find_row db id = Some row ->
    getReservationById c id
    = Some (formatReservationFromDB (ReservationRow.to_object users row)) ->
    let stock := num_or (ReservationRow.stock_remaining row) 0 in
    let e := buyNow be c db id now in
    (stock <= 0 -> result e = Returns false /\ commits e = [] /\ client e = c)
    /\ (0 < stock ->
        result e = Returns true
        /\ exists row',
            find_row (store_after db e) id = Some row'
            /\ ReservationRow.stock_remaining row' = Some (stock - 1)
            /\ ReservationRow.status row'
               = Some (if stock - 1 =? 0 then sold else swept_status now row)
            /\ (ReservationRow.status row' = Some sold <-> stock - 1 = 0)
            /\ ReservationRow.last_sale_price row'
               = Some (ReservationRow.price row)
            /\ ReservationRow.last_sale_date row' = Some now
            /\ Store.reservation_history (store_after db e)
               = Store.reservation_history db
                 ++ [History.mk (Store.next_uuid db) id (Some (User.id user))
                                (User.name user)
                                (Some (ReservationRow.price row)) now]).
Proof.
  intros be c db id now user row users Hu Hrow Hc stock e.
  subst e. unfold buyNow. rewrite Hu, Hc.
  cbn [formatReservationFromDB ReservationRow.to_object
       Reservation.stockRemaining Reservation.price
       DbReservation.stock_remaining DbReservation.price].
  fold stock.
  destruct (find_row_matches _ _ Hrow) as [Hm Hex].
  destruct (Z.ltb_spec (stock - 1) 0) as [Hneg|Hpos].
  - split; [intros _; repeat split | intros; lia].
  - split; [intros; lia | intros _].
    cbn [run exec HistoryInsert.price]. rewrite Hex, !andb_false_r.
    split; [reflexivity|].
    unfold store_after. cbn [commits last result client].
    set (p := Patch.mk _ _ _ _ _ _).
    exists (update_row now id None p row).
    assert (Hk := handle_bid_expiration_keeps now (Patch.apply p row)).
    destruct Hk as (K1 & K2 & K3 & _ & _).
    assert (Hst : ReservationRow.status (update_row now id None p row)
                  = Some (if stock - 1 =? 0 then sold
                          else swept_status now row)).
    { unfold update_row. rewrite Hm. subst p. rewrite status_after_update.
      destruct (stock - 1 =? 0); reflexivity. }
    split.
    { unfold find_row in *. cbn. rewrite find_update_rows, Hrow. reflexivity. }
    split.
    { unfold update_row. rewrite Hm, K1. reflexivity. }
    split; [exact Hst|].
    split.
    { rewrite Hst. destruct (Z.eqb_spec (stock - 1) 0) as [E|E].
      - split; [intros _; exact E | reflexivity].
      - split; [|intros; contradiction].
        unfold swept_status. destruct (bidding_ended now row);
          [destruct (ReservationRow.current_bid row)|]; discriminate. }
    split.
    { unfold update_row. rewrite Hm, K2. reflexivity. }
    split.
    { unfold update_row. rewrite Hm, K3. reflexivity. }
    reflexivity.
Qed.

Lemma buyNow_contract_witness :
  let row := listing (Some 1) None (Some true) in
  let db := store_with row in
  let c := context_of bob db in
  let e := buyNow lenient c db 1%nat 1000 in
  Ctx.user c = Some bob
  /\ find_row db 1%nat = Some row
  /\ getReservationById c 1%nat
     = Some (formatReservationFromDB
               (ReservationRow.to_object (Some "Ada") row))
  /\ 0 < num_or (ReservationRow.stock_remaining row) 0
  /\ result e = Returns true
  /\ option_map ReservationRow.status (find_row (store_after db e) 1%nat)
     = Some (Some sold).
Proof.
  intros row db c e.
  assert (Hu : Ctx.user c = Some bob) by reflexivity.
  assert (Hf : find_row db 1%nat = Some row) by reflexivity.
  assert (Hc : getReservationById c 1%nat
               = Some (formatReservationFromDB
                         (ReservationRow.to_object (Some "Ada") row)))
    by reflexivity.
  assert (Hs : 0 < num_or (ReservationRow.stock_remaining row) 0)
    by reflexivity.
  repeat (split; [assumption|]).
  destruct (@buyNow_contract lenient c db 1%nat 1000 bob row (Some "Ada")
              Hu Hf Hc) as [_ H].
  destruct (H Hs) as (Hr & row' & Hf' & _ & Hst & _).
  split; [exact Hr|].
  fold e in Hf'. rewrite Hf'. simpl. rewrite Hst. reflexivity.
Defined.

(** C3 as stated fails on a listing with two units that allows bidding and
    whose bid deadline (10) has passed at the purchase (20): one unit
    remains, and the listing is left [expired], not [available]. *)
Lemma buyNow_leaves_expired :
  let row := listing (Some 2) (Some 10) (Some true) in
  let db := store_with row in
  let e := buyNow lenient (context_of bob db) db 1%nat 20 in
  find_row db 1%nat = Some row
  /\ result e = Returns true
  /\ option_map ReservationRow.stock_remaining
       (find_row (store_after db e) 1%nat) = Some (Some 1)
  /\ option_map ReservationRow.status (find_row (store_after db e) 1%nat)
     = Some (Some expired)
  /\ option_map ReservationRow.status (find_row (store_after db e) 1%nat)
     <> Some (Some available).
Proof.
  cbv zeta. split; [reflexivity|]. split; [reflexivity|].
  split; [reflexivity|]. split; [reflexivity|]. discriminate.
Qed.

(** [handleBuyNow], the page's own purchase, neither looks at the stock nor
    lowers it: on a listing with no unit left it still records a sale. *)
Example handleBuyNow_ignores_stock :
  let row := listing (Some 0) None (Some true) in
  let db := store_with row in
  let page :=
    fetchReservation
      (Page.mk 1%nat true (Some bob) None [] [] MarketStats.initial None None
               None) 1000 db in
  let e := handleBuyNow lenient page 1000 db in
  Page.navigatedTo (client e) = Some "/dashboard"
  /\ List.length (Store.reservation_history (store_after db e)) = 1%nat
  /\ option_map ReservationRow.stock_remaining
       (find_row (store_after db e) 1%nat) = Some (Some 0).
Proof. cbv zeta. repeat split. Qed.

(** ** Placing a bid *)

Lemma scenario_A_holds (be : Backend.t) : scenario_A be.
Proof. destruct be as [[] []]; vm_compute; repeat split. Qed.

(** C4, as amended: a [placeBid] call is refused, and nothing is written,
    when the amount is less than the listing's configured [minimumBid] or
    less than or equal to the listing's [currentBid] field, both read from
    the copy of the listing the caller holds (ties refused, strict increase
    required); the bids table is not consulted.  Scenario A holds as
    stated. *)
Theorem placeBid_refuses_low_and_tied_bids :
  forall be c db id amount now user reservation,
    Ctx.user c = Some user ->
    getReservationById c id = Some reservation ->
    amount < num_or (Reservation.minimumBid reservation) 0
    \/ amount <= num_or (Reservation.currentBid reservation) 0 ->
    (result (placeBid be c db id amount now) = Returns false
     /\ commits (placeBid be c db id amount now) = []
     /\ client (placeBid be c db id amount now) = c)
    /\ scenario_A be.
Proof.
  intros be c db id amount now user reservation Hu Hc Hlow.
  split; [|apply scenario_A_holds].
  unfold placeBid. rewrite Hu, Hc.
  destruct (negb (truthy (Reservation.allowBidding reservation)));
    [repeat split|].
  assert ((amount <? num_or (Reservation.minimumBid reservation) 0)
          || (amount <=? num_or (Reservation.currentBid reservation) 0)
          = true) as ->.
  { apply orb_true_iff. destruct Hlow as [H|H].
    - left. apply Z.ltb_lt. exact H.
    - right. apply Z.leb_le. exact H. }
  repeat split.
Qed.

Lemma placeBid_refuses_low_and_tied_bids_witness :
  let db := store_with (listing (Some 1) None (Some true)) in
  let c := context_of bob db in
  let reservation :=
    formatReservationFromDB
      (ReservationRow.to_object (Some "Ada")
                                (listing (Some 1) None (Some true))) in
  Ctx.user c = Some bob
  /\ getReservationById c 1%nat = Some reservation
  /\ (90 < num_or (Reservation.minimumBid reservation) 0
      \/ 90 <= num_or (Reservation.currentBid reservation) 0)
  /\ result (placeBid lenient c db 1%nat 90 1000) = Returns false.
Proof.
  intros db c reservation.
  assert (Hu : Ctx.user c = Some bob) by reflexivity.
  assert (Hc : getReservationById c 1%nat = Some reservation) by reflexivity.
  assert (Hl : 90 < num_or (Reservation.minimumBid reservation) 0
               \/ 90 <= num_or (Reservation.currentBid reservation) 0)
    by (left; reflexivity).
  repeat (split; [assumption|]).
  destruct (@placeBid_refuses_low_and_tied_bids lenient c db 1%nat 90 1000 bob
              reservation Hu Hc Hl) as [[Hr _] _].
  exact Hr.
Defined.

(** When the cached [currentBid] does mirror the highest open bid, the
    refusal is the one of the bid rule. *)
Lemma placeBid_refuses_under_highest_open :
  forall be c db id amount now user reservation,
    Ctx.user c = Some user ->
    getReservationById c id = Some reservation ->
    num_or (Reservation.currentBid reservation) 0 = highest_open_bid db id ->
    amount <= highest_open_bid db id ->
    result (placeBid be c db id amount now) = Returns false.
Proof.
  intros be c db id amount now user reservation Hu Hc Hm Hle.
  unfold placeBid. rewrite Hu, Hc.
  destruct (negb (truthy (Reservation.allowBidding reservation)));
    [reflexivity|].
  rewrite Hm.
  replace (amount <=? highest_open_bid db id) with true
    by (symmetry; apply Z.leb_le; exact Hle).
  rewrite orb_true_r. reflexivity.
Qed.

(** C4 as stated fails in two ways, each with an open bid of 300 on the
    listing and [placeBid] letting 150 through.  Either the copy the caller
    holds is behind the store: Bob fetched the listings before Cy's bid,
    and his bid also sets [current_bid] back to 150.  Or the open bid has
    come in through the detail page, which leaves [current_bid] alone, and
    even a caller who has just fetched the listings is let through. *)
Lemma placeBid_below_highest_open_bid :
  let db0 := store_with (listing (Some 1) None (Some true)) in
  (let e1 := placeBid lenient (context_of cy db0) db0 1%nat 300 1000 in
   let db1 := store_after db0 e1 in
   let e2 := placeBid lenient (context_of bob db0) db1 1%nat 150 2000 in
   let db2 := store_after db1 e2 in
   result e1 = Returns true
   /\ highest_open_bid db1 1%nat = 300
   /\ 150 <= highest_open_bid db1 1%nat
   /\ result e2 = Returns true
   /\ map Bid.amount (Store.bids db2) = [300; 150]
   /\ current_bid_of db2 1%nat = Some 150)
  /\ (let e1 := handlePlaceBid lenient (fresh_page bob 1%nat 1000 db0)
                               (Some 300) (Some 7) 1000 db0 in
      let db1 := store_after db0 e1 in
      let e2 := placeBid lenient (context_of cy db1) db1 1%nat 150 2000 in
      map Bid.status (Store.bids db1) = [bid_open]
      /\ highest_open_bid db1 1%nat = 300
      /\ 150 <= highest_open_bid db1 1%nat
      /\ result e2 = Returns true
      /\ map Bid.amount (Store.bids (store_after db1 e2)) = [300; 150]).
Proof. vm_compute. repeat split; discriminate. Qed.

(** And [handlePlaceBid] has no minimum-bid check: 90 goes through on a
    listing whose minimum bid is 100. *)
Example handlePlaceBid_below_minimum :
  let db0 := store_with (listing (Some 1) None (Some true)) in
  let e := handlePlaceBid lenient (fresh_page bob 1%nat 1000 db0)
                          (Some 90) (Some 7) 1000 db0 in
  option_map ReservationRow.minimum_bid (find_row db0 1%nat) = Some (Some 100)
  /\ Page.error (client e) = None
  /\ map Bid.amount (Store.bids (store_after db0 e)) = [90].
Proof. vm_compute. repeat split. Qed.

(** C5: neither way of placing a bid does all of it.  [placeBid] updates
    [current_bid] but inserts a bid with no [expires_at] (it takes no
    expiry at all); [handlePlaceBid] inserts an open bid expiring in the
    chosen number of days but leaves [current_bid] as it was. *)
Theorem placeBid_inserts_no_expiry :
  let db0 := store_with (listing (Some 1) None (Some true)) in
  let e := placeBid lenient (context_of bob db0) db0 1%nat 150 1000 in
  let e' := handlePlaceBid lenient (fresh_page bob 1%nat 1000 db0)
                           (Some 150) (Some 7) 1000 db0 in
  (result e = Returns true
   /\ map Bid.expires_at (Store.bids (store_after db0 e)) = [None]
   /\ current_bid_of (store_after db0 e) 1%nat = Some 150)
  /\ (map Bid.status (Store.bids (store_after db0 e')) = [bid_open]
      /\ map Bid.expires_at (Store.bids (store_after db0 e'))
         = [Some (1000 + 7 * 86400000)]
      /\ current_bid_of (store_after db0 e') 1%nat = None).
Proof. vm_compute. repeat split. Qed.

(** ** The rate limiter *)

(** The purge of [check_rate_limit] removes none of the rows it then
    counts. *)
Lemma recent_attempts_purged now u a (l : list RateLimit.t) :
  recent_attempts now u a
    (filter (fun r => negb (rate_limit_of u a r
                            && (RateLimit.expires_at r <? now))) l)
  = recent_attempts now u a l.
Proof.
  unfold recent_attempts.
  induction l as [|r l IH]; [reflexivity|].
  simpl.
  destruct (rate_limit_of u a r) eqn:Eu; simpl.
  - destruct (Z.ltb_spec (RateLimit.expires_at r) now) as [Hx|Hx]; simpl.
    + replace (now <? RateLimit.expires_at r) with false
        by (symmetry; apply Z.ltb_ge; lia).
      exact IH.
    + rewrite Eu. simpl.
      destruct (now <? RateLimit.expires_at r); [f_equal|]; exact IH.
  - rewrite Eu. simpl. exact IH.
Qed.

(** The trigger lets an insert through exactly when the bidder has fewer
    than five unexpired "place_bid" rows. *)
Lemma enforce_bid_rate_limit_iff now u (db : Store.t) :
  (exists db', enforce_bid_rate_limit now u db = Ok db')
  <-> Z.of_nat (List.length
                  (recent_attempts now u "place_bid" (Store.rate_limits db)))
      < max_bids_per_window.
Proof.
  unfold enforce_bid_rate_limit, check_rate_limit.
  cbn [Store.rate_limits Store.with_rate_limits].
  rewrite recent_attempts_purged.
  destruct (Z.ltb_spec
              (Z.of_nat (List.length
                 (recent_attempts now u "place_bid" (Store.rate_limits db))))
              max_bids_per_window) as [H|H]; simpl.
  - split; [intros _; exact H | intros _; eexists; reflexivity].
  - split; [intros [db' E]; discriminate | intros; lia].
Qed.

(** A refused insert leaves the store as it was. *)
Lemma exec_InsertBid_refused be now b (db : Store.t) e :
  exec be now (InsertBid b) db = Err e ->
  run be now [InsertBid b] db = ([], Some e).
Proof. intros H. simpl. unfold exec in H. rewrite H. reflexivity. Qed.

Lemma recent_attempts_outlive t0 t u (l : list RateLimit.t) :
  outlive t0 u l -> t < t0 + window_seconds * 1000 ->
  recent_attempts t u "place_bid" l = rows_of u l.
Proof.
  unfold recent_attempts, rows_of. intros Ho Ht.
  induction l as [|r l IH]; [reflexivity|].
  assert (Ho' : outlive t0 u l).
  { intros r' Hin. apply Ho. right. exact Hin. }
  simpl. destruct (rate_limit_of u "place_bid" r) eqn:Eu; simpl.
  - assert (Hr := Ho r (or_introl eq_refl) Eu).
    replace (t <? RateLimit.expires_at r) with true
      by (symmetry; apply Z.ltb_lt; lia).
    f_equal. apply IH. exact Ho'.
  - apply IH. exact Ho'.
Qed.

Lemma purge_outlive t0 t u (l : list RateLimit.t) :
  outlive t0 u l -> t < t0 + window_seconds * 1000 ->
  filter (fun r => negb (rate_limit_of u "place_bid" r
                         && (RateLimit.expires_at r <? t))) l = l.
Proof.
  intros Ho Ht.
  induction l as [|r l IH]; [reflexivity|].
  assert (Ho' : outlive t0 u l).
  { intros r' Hin. apply Ho. right. exact Hin. }
  simpl. destruct (rate_limit_of u "place_bid" r) eqn:Eu; simpl.
  - assert (Hr := Ho r (or_introl eq_refl) Eu).
    replace (RateLimit.expires_at r <? t) with false
      by (symmetry; apply Z.ltb_ge; lia).
    simpl. f_equal. apply IH. exact Ho'.
  - f_equal. apply IH. exact Ho'.
Qed.

(** Rate-limit ceiling at the trigger: in a burst of inserts by one bidder
    within one window, with [k] of the bidder's rows already counting, the
    [i]-th insert goes through exactly when [k + i < 5]. *)
Lemma burst_ceiling be t0 u :
  forall attempts db,
    outlive t0 u (Store.rate_limits db) ->
    (forall t b, In (t, b) attempts ->
                 BidInsert.user_id b = Some u
                 /\ t0 <= t < t0 + window_seconds * 1000) ->
    burst be attempts db
    = map (fun i => Z.of_nat (List.length (rows_of u (Store.rate_limits db)))
                    + Z.of_nat i <? max_bids_per_window)
          (seq 0 (List.length attempts)).
Proof.
  induction attempts as [|[t b] rest IH]; intros db Ho Hall; [reflexivity|].
  destruct (Hall t b (or_introl eq_refl)) as [Hu Ht].
  assert (Hrest : forall t' b', In (t', b') rest ->
                    BidInsert.user_id b' = Some u
                    /\ t0 <= t' < t0 + window_seconds * 1000).
  { intros t' b' Hin. apply Hall. right. exact Hin. }
  cbn [burst List.length seq map].
  unfold exec. rewrite Hu.
  unfold enforce_bid_rate_limit, check_rate_limit.
  cbn [Store.rate_limits Store.with_rate_limits].
  rewrite recent_attempts_purged.
  rewrite (@recent_attempts_outlive t0 t u _ Ho) by lia.
  rewrite (@purge_outlive t0 t u _ Ho) by lia.
  rewrite Z.add_0_r.
  destruct (Z.ltb_spec
              (Z.of_nat (List.length (rows_of u (Store.rate_limits db))))
              max_bids_per_window) as [Hk|Hk]; cbn [negb].
  - f_equal. rewrite IH; [|..|exact Hrest].
    + rewrite <- seq_shift, map_map.
      apply map_ext. intros i.
      cbn [Store.add_bid Store.rate_limits record_rate_limit_attempt
           Store.add_rate_limit Store.with_rate_limits].
      unfold rows_of. rewrite filter_app, length_app. cbn [filter].
      unfold rate_limit_of at 2. cbn [RateLimit.user_id RateLimit.action_type].
      rewrite Nat.eqb_refl. cbn. f_equal. lia.
    + cbn [Store.add_bid Store.rate_limits record_rate_limit_attempt
           Store.add_rate_limit Store.with_rate_limits].
      intros r Hin Hr. apply in_app_or in Hin. destruct Hin as [Hin|[<-|[]]].
      * apply Ho; assumption.
      * cbn [RateLimit.expires_at]. lia.
  - f_equal. rewrite IH; [|exact Ho|exact Hrest].
    rewrite <- seq_shift, map_map.
    apply map_ext. intros i.
    destruct (Z.ltb_spec
                (Z.of_nat (List.length (rows_of u (Store.rate_limits db)))
                 + Z.of_nat i) max_bids_per_window);
      destruct (Z.ltb_spec
                  (Z.of_nat (List.length (rows_of u (Store.rate_limits db)))
                   + Z.of_nat (S i)) max_bids_per_window);
      try reflexivity; lia.
Qed.

(** Scenario C at the trigger: five bids by Bob on five listings within a
    minute all go through, a sixth in the same window is refused. *)
Example six_rapid_inserts :
  forall be,
    burst be
      (map (fun n => (Z.of_nat n * 10000,
                      BidInsert.mk (S n) (Some 8%nat) 150 None (Some bid_open)))
           (seq 0 6))
      (store_with (listing (Some 1) None (Some true)))
    = [true; true; true; true; true; false].
Proof. destruct be as [[] []]; vm_compute; reflexivity. Qed.

(** A bidder with fewer than five counted rows is never refused by the
    trigger. *)
Lemma under_limit_goes_through be now b u (db : Store.t) :
  BidInsert.user_id b = Some u ->
  Z.of_nat (List.length
              (recent_attempts now u "place_bid" (Store.rate_limits db)))
  < max_bids_per_window ->
  exists db', exec be now (InsertBid b) db = Ok db'.
Proof.
  intros Hu Hk. unfold exec. rewrite Hu.
  destruct (proj2 (enforce_bid_rate_limit_iff now u db) Hk) as [db1 E].
  rewrite E. eexists; reflexivity.
Qed.

(** C1: [api.bids.create] refuses a second bid one second after the first.
    Its own check treats any unexpired "place_bid" row as a block, while
    the trigger behind it, with one row counted out of five, would let the
    insert through. *)
Theorem api_bids_create_blocks_second_bid :
  let db0 := store_with (listing (Some 1) None (Some true)) in
  let e1 := api_bids_create lenient (sample_bid bob 150) 0 0 db0 in
  let db1 := store_after db0 e1 in
  let e2 := api_bids_create lenient (sample_bid bob 200) 1000 1000 db1 in
  (exists b, result e1 = Resolved b)
  /\ Z.of_nat (List.length
                 (recent_attempts 1000 8%nat "place_bid"
                                  (Store.rate_limits db1))) = 1
  /\ 1 < max_bids_per_window
  /\ result e2
     = Rejected (AppError.mk "Too many bids. Please wait before trying again."
                             (Some RATELIMIT) (Some 429) (Some 299))
  /\ store_after db1 e2 = db1
  /\ (exists db2, exec lenient 1000 (InsertBid (sample_bid bob 200)) db1
                  = Ok db2).
Proof.
  cbv zeta.
  split; [eexists; vm_compute; reflexivity|].
  split; [reflexivity|]. split; [reflexivity|].
  split; [vm_compute; reflexivity|]. split; [reflexivity|].
  eexists; vm_compute; reflexivity.
Qed.

(** ** Ordering *)

Lemma insert_desc_In {A} (key : A -> Z) (x y : A) (l : list A) :
  In y (insert_desc key x l) <-> y = x \/ In y l.
Proof.
  induction l as [|z l IH]; simpl.
  - intuition congruence.
  - destruct (key z <? key x); simpl; [intuition congruence|].
    rewrite IH. intuition congruence.
Qed.

Lemma order_desc_In {A} (key : A -> Z) (y : A) (l : list A) :
  In y (order_desc key l) <-> In y l.
Proof.
  induction l as [|x l IH]; simpl; [reflexivity|].
  rewrite insert_desc_In, IH. intuition congruence.
Qed.

Lemma order_desc_length {A} (key : A -> Z) (l : list A) :
  List.length (order_desc key l) = List.length l.
Proof.
  induction l as [|x l IH]; [reflexivity|].
  simpl. rewrite <- IH. generalize (order_desc key l). intros s.
  induction s as [|z s IHs]; [reflexivity|].
  simpl. destruct (key z <? key x); simpl; [reflexivity|].
  rewrite IHs. reflexivity.
Qed.

Lemma insert_desc_head_first {A} (key : A -> Z) (x : A) (l : list A) :
  head_first key l -> head_first key (insert_desc key x l).
Proof.
  destruct l as [|z l]; simpl; [intros _ y []|].
  intros H. destruct (Z.ltb_spec (key z) (key x)) as [Hlt|Hge]; simpl.
  - intros y [<-|Hin]; [lia|]. specialize (H y Hin). lia.
  - intros y Hin. apply insert_desc_In in Hin.
    destruct Hin as [->|Hin]; [lia|]. apply H. exact Hin.
Qed.

Lemma order_desc_head_first {A} (key : A -> Z) (l : list A) :
  head_first key (order_desc key l).
Proof.
  induction l as [|x l IH]; simpl; [exact I|].
  apply insert_desc_head_first. exact IH.
Qed.

(** [.order(key, { ascending: false }).limit(1)] is a row of greatest
    key. *)
Lemma order_desc_first {A} (key : A -> Z) (l : list A) (x : A) rest :
  order_desc key l = x :: rest ->
  In x l /\ forall y, In y l -> key y <= key x.
Proof.
  intros E. split.
  - apply (order_desc_In key). rewrite E. left. reflexivity.
  - intros y Hin. apply (order_desc_In key) in Hin.
    assert (H := order_desc_head_first key l). rewrite E in *.
    destruct Hin as [<-|Hin]; [lia|]. apply H. exact Hin.
Qed.

Lemma order_desc_nil {A} (key : A -> Z) (l : list A) :
  order_desc key l = [] -> l = [].
Proof.
  intros E. destruct l as [|x l]; [reflexivity|].
  assert (H : In x (order_desc key (x :: l))).
  { apply order_desc_In. left. reflexivity. }
  rewrite E in H. destruct H.
Qed.

(** ** The rate-limited outcome *)

Lemma ceil_seconds_bounds (ms : Z) :
  ms <= 1000 * ceil_seconds ms < ms + 1000.
Proof.
  unfold ceil_seconds.
  assert (H := Z.div_mod (- ms) 1000 ltac:(lia)).
  assert (H' := Z.mod_pos_bound (- ms) 1000 ltac:(lia)).
  lia.
Qed.

Lemma ceil_seconds_pos (ms : Z) : 0 < ms -> 0 < ceil_seconds ms.
Proof. intros H. assert (B := ceil_seconds_bounds ms). lia. Qed.

(** When some row blocks the caller, the query returns the expiry of a
    blocking row that expires last. *)
Lemma active_rate_limits_blocked now user_id (db : Store.t) r :
  In r (Store.rate_limits db) ->
  blocks now user_id r = true ->
  exists latest,
    In latest (Store.rate_limits db)
    /\ blocks now user_id latest = true
    /\ (forall r', In r' (Store.rate_limits db) ->
                   blocks now user_id r' = true ->
                   RateLimit.expires_at r' <= RateLimit.expires_at latest)
    /\ active_rate_limits now user_id db = [RateLimit.expires_at latest].
Proof.
  intros Hin Hb. unfold active_rate_limits.
  destruct (order_desc (fun e => e)
              (map RateLimit.expires_at
                   (filter (blocks now user_id) (Store.rate_limits db))))
    as [|E rest] eqn:Eo.
  { apply order_desc_nil in Eo. apply map_eq_nil in Eo.
    assert (H : In r (filter (blocks now user_id) (Store.rate_limits db))).
    { apply filter_In. split; assumption. }
    rewrite Eo in H. destruct H. }
  destruct (order_desc_first _ _ Eo) as [HE Hmax].
  apply in_map_iff in HE. destruct HE as (latest & <- & Hl).
  apply filter_In in Hl. destruct Hl as [Hl1 Hl2].
  exists latest. split; [exact Hl1|]. split; [exact Hl2|].
  split; [|reflexivity].
  intros r' Hin' Hb'. apply (Hmax (RateLimit.expires_at r')).
  apply in_map. apply filter_In. split; assumption.
Qed.

(** C7, as amended: whenever [api.bids.create] finds the caller blocked, it
    writes nothing and rejects with an error that [AppError.isRateLimit]
    recognises (code RATELIMIT, status 429), whose [retryAfter] is the
    number of seconds, rounded up, from the second reading of the clock to
    the expiry of the latest-expiring unexpired "place_bid" row of the
    caller; [api.bids.getRateLimit] gives the same number.  The value is
    positive as long as that row has not expired at the second reading, in
    particular when both readings coincide. *)
Theorem rate_limited_retry_after :
  forall be bid now later db r,
    In r (Store.rate_limits db) ->
    blocks now (BidInsert.user_id bid) r = true ->
    exists latest,
      In latest (Store.rate_limits db)
      /\ blocks now (BidInsert.user_id bid) latest = true
      /\ (forall r', In r' (Store.rate_limits db) ->
                     blocks now (BidInsert.user_id bid) r' = true ->
                     RateLimit.expires_at r' <= RateLimit.expires_at latest)
      /\ let retryAfter :=
           ceil_seconds (RateLimit.expires_at latest - later) in
         let err :=
           AppError.mk "Too many bids. Please wait before trying again."
                       (Some RATELIMIT) (Some 429) (Some retryAfter) in
         result (api_bids_create be bid now later db) = Rejected err
         /\ commits (api_bids_create be bid now later db) = []
         /\ AppError.isRateLimit err = true
         /\ (forall u, BidInsert.user_id bid = Some u ->
                       api_bids_getRateLimit u now later db = Some retryAfter)
         /\ RateLimit.expires_at latest - later <= 1000 * retryAfter
            < RateLimit.expires_at latest - later + 1000
         /\ (later < RateLimit.expires_at latest -> 0 < retryAfter)
         /\ (later = now -> 0 < retryAfter).
Proof.
  intros be bid now later db r Hin Hb.
  destruct (active_rate_limits_blocked _ _ _ _ Hin Hb)
    as (latest & Hl1 & Hl2 & Hmax & Eq).
  exists latest. split; [exact Hl1|]. split; [exact Hl2|].
  split; [exact Hmax|].
  unfold api_bids_create, api_bids_getRateLimit. rewrite Eq.
  cbn [result commits].
  split; [reflexivity|]. split; [reflexivity|]. split; [reflexivity|].
  split.
  { intros u Hu. rewrite Hu in Eq. rewrite Eq. reflexivity. }
  split; [apply ceil_seconds_bounds|].
  assert (Hlater : later < RateLimit.expires_at latest ->
                   0 < ceil_seconds (RateLimit.expires_at latest - later)).
  { intros H. apply ceil_seconds_pos. lia. }
  split; [exact Hlater|].
  intros ->. apply Hlater.
  unfold blocks in Hl2. apply andb_true_iff in Hl2. destruct Hl2 as [_ Hl2].
  apply Z.ltb_lt. exact Hl2.
Qed.

Lemma rate_limited_retry_after_witness :
  let r := RateLimit.mk 100%nat 8%nat "place_bid" 0 300000 in
  let bid := sample_bid bob 200 in
  In r (Store.rate_limits store_after_first_bid)
  /\ blocks 1000 (BidInsert.user_id bid) r = true
  /\ exists latest,
       In latest (Store.rate_limits store_after_first_bid)
       /\ result (api_bids_create lenient bid 1000 1000 store_after_first_bid)
          = Rejected
              (AppError.mk "Too many bids. Please wait before trying again."
                 (Some RATELIMIT) (Some 429)
                 (Some (ceil_seconds (RateLimit.expires_at latest - 1000)))).
Proof.
  intros r bid.
  assert (Hin : In r (Store.rate_limits store_after_first_bid))
    by (left; reflexivity).
  assert (Hb : blocks 1000 (BidInsert.user_id bid) r = true) by reflexivity.
  split; [exact Hin|]. split; [exact Hb|].
  destruct (@rate_limited_retry_after lenient bid 1000 1000
              store_after_first_bid r Hin Hb)
    as (latest & Hl & _ & _ & Hres & _).
  exists latest. split; [exact Hl | exact Hres].
Defined.

(** C7 as stated fails when the caller has two unexpired rows, here left
    by two bids through [placeBid] at 0 s and 200 s: at 250 s the oldest
    row expires in 50 seconds, and [retryAfter] is 250. *)
Lemma retry_after_is_not_the_oldest :
  let db0 := store_with (listing (Some 1) None (Some true)) in
  let e1 := placeBid lenient (context_of bob db0) db0 1%nat 150 0 in
  let db1 := store_after db0 e1 in
  let e2 := placeBid lenient (client e1) db1 1%nat 200 200000 in
  let db2 := store_after db1 e2 in
  let e := api_bids_create lenient (sample_bid bob 250) 250000 250000 db2 in
  map RateLimit.created_at (Store.rate_limits db2) = [0; 200000]
  /\ map RateLimit.expires_at (Store.rate_limits db2) = [300000; 500000]
  /\ seconds_until_oldest_expires 250000 250000 (Some 8%nat) db2 = Some 50
  /\ result e
     = Rejected (AppError.mk "Too many bids. Please wait before trying again."
                             (Some RATELIMIT) (Some 429) (Some 250))
  /\ api_bids_getRateLimit 8%nat 250000 250000 db2 = Some 250.
Proof. vm_compute. repeat split. Qed.

(** Blocked at the trigger, the two ways of placing a bid that the pages
    use carry no number of seconds: the page shows the message of the
    exception, and [placeBid] answers [false] as it does for a bid that is
    too low. *)
Example blocked_at_the_trigger :
  let db0 := store_with (listing (Some 1) None (Some true)) in
  let db5 :=
    fold_left (fun db t =>
                 last (fst (run lenient t
                              [InsertBid (BidInsert.mk 1%nat (Some 8%nat) 50
                                                       None None)] db)) db)
              [0; 1000; 2000; 3000; 4000] db0 in
  let c := context_of bob db5 in
  result (placeBid lenient c db5 1%nat 150 5000) = Returns false
  /\ store_after db5 (placeBid lenient c db5 1%nat 150 5000) = db5
  /\ result (placeBid lenient c db5 1%nat 90 5000) = Returns false
  /\ Page.error
       (client (handlePlaceBid lenient (fresh_page bob 1%nat 5000 db5)
                               (Some 150) (Some 7) 5000 db5))
     = Some (error_message RATELIMIT).
Proof. vm_compute. repeat split. Qed.

(** ** Accepting a bid *)

(** C2: [handleSellNow] called by Cy, who does not own the listing.  The
    history record is inserted before the request that carries the
    ownership filter.  Where the record may be inserted without a price:
    if the store answers an update that matches no row with success, the
    call goes on, marks Bob's bid accepted and navigates to the dashboard;
    if it answers with PGRST116, the call stops with "You can only sell
    reservations you own"; either way the sale record stays.  Called by
    Ada, the owner, it leaves the listing sold at 300 and the bid accepted,
    and the record it appends has no price.  Where the price is required,
    the insert is refused and the call writes nothing, for Ada as for
    Cy. *)
Theorem handleSellNow_by_non_owner :
  let db := store_with_bid in
  let by_ who be := handleSellNow be (fresh_page who 1%nat 2000 db) 3000 db in
  let record :=
    History.mk 102%nat 1%nat (Some 8%nat) (Some "Bid Accepted") None 3000 in
  option_map ReservationRow.seller_id (find_row db 1%nat) = Some 7%nat
  /\ User.id cy <> 7%nat
  /\ Store.reservation_history db = []
  /\ (Page.navigatedTo (client (by_ cy lenient)) = Some "/dashboard"
      /\ Page.error (client (by_ cy lenient)) = None
      /\ Store.reservation_history (store_after db (by_ cy lenient)) = [record]
      /\ bid_statuses (store_after db (by_ cy lenient)) = [bid_accepted]
      /\ listing_state (store_after db (by_ cy lenient)) 1%nat
         = Some (Some available, 120))
  /\ (Page.error (client (by_ cy strict_updates))
      = Some "You can only sell reservations you own"
      /\ Store.reservation_history (store_after db (by_ cy strict_updates))
         = [record]
      /\ bid_statuses (store_after db (by_ cy strict_updates)) = [bid_open])
  /\ (forall z,
        Page.navigatedTo (client (by_ ada (Backend.mk z false)))
        = Some "/dashboard"
        /\ listing_state (store_after db (by_ ada (Backend.mk z false))) 1%nat
           = Some (Some sold, 300)
        /\ bid_statuses (store_after db (by_ ada (Backend.mk z false)))
           = [bid_accepted]
        /\ history_prices (store_after db (by_ ada (Backend.mk z false)))
           = [None])
  /\ (forall z who,
        Page.error (client (by_ who (Backend.mk z true)))
        = Some (error_message NOT_NULL_VIOLATION)
        /\ store_after db (by_ who (Backend.mk z true)) = db).
Proof.
  cbv zeta.
  split; [reflexivity|]. split; [discriminate|]. split; [reflexivity|].
  split; [vm_compute; repeat split|].
  split; [vm_compute; repeat split|].
  split; [intros []; vm_compute; repeat split|].
  intros z who. unfold handleSellNow, store_after.
  cbn [fresh_page fetchReservation Page.isAuthenticated negb].
  destruct z; split; reflexivity.
Qed.

(** ** Atomicity of a purchase *)

(** C6: the two writes of a purchase are two requests, committed one after
    the other.  After the first request of [buyNow] the listing is sold and
    has no history record; after the first request of [handleBuyNow] (and
    of [handleSellNow]) the history record is there and the listing is
    still available. *)
Theorem purchase_writes_are_separate_commits :
  let db := store_with (listing (Some 1) None (Some true)) in
  (forall be,
     map (observed 1%nat) (commits (buyNow be (context_of bob db) db 1%nat 1000))
     = [(Some (Some sold), 0%nat); (Some (Some sold), 1%nat)])
  /\ map (observed 1%nat)
         (commits (handleBuyNow lenient (fresh_page bob 1%nat 1000 db) 1000 db))
     = [(Some (Some available), 1%nat); (Some (Some sold), 1%nat)]
  /\ map (observed 1%nat)
         (commits (handleSellNow lenient
                     (fresh_page ada 1%nat 2000 store_with_bid)
                     3000 store_with_bid))
     = [(Some (Some available), 1%nat); (Some (Some sold), 1%nat);
        (Some (Some sold), 1%nat)].
Proof.
  cbv zeta. split; [intros [[] []]; vm_compute; reflexivity|].
  split; vm_compute; reflexivity.
Qed.

(** ** Market statistics *)

Lemma Math_max_spec (p : number) (rest : list number) :
  In (Math_max p rest) (p :: rest)
  /\ forall x, In x (p :: rest) -> x <= Math_max p rest.
Proof.
  unfold Math_max. revert p.
  induction rest as [|y rest IH]; intros p; simpl.
  - split; [left; reflexivity|]. intros x [<-|[]]. lia.
  - destruct (IH (Z.max p y)) as [Hin Hle]. split.
    + destruct Hin as [E|Hin]; [|right; right; exact Hin].
      rewrite <- E. destruct (Z.max_spec p y) as [[_ ->]|[_ ->]];
        [right; left|left]; reflexivity.
    + intros x [E|[E|Hx]].
      * subst x. specialize (Hle (Z.max p y) (or_introl eq_refl)). lia.
      * subst x. specialize (Hle (Z.max p y) (or_introl eq_refl)). lia.
      * apply Hle. right. exact Hx.
Qed.

Lemma Math_min_spec (p : number) (rest : list number) :
  In (Math_min p rest) (p :: rest)
  /\ forall x, In x (p :: rest) -> Math_min p rest <= x.
Proof.
  unfold Math_min. revert p.
  induction rest as [|y rest IH]; intros p; simpl.
  - split; [left; reflexivity|]. intros x [<-|[]]. lia.
  - destruct (IH (Z.min p y)) as [Hin Hle]. split.
    + destruct Hin as [E|Hin]; [|right; right; exact Hin].
      rewrite <- E. destruct (Z.min_spec p y) as [[_ ->]|[_ ->]];
        [left|right; left]; reflexivity.
    + intros x [E|[E|Hx]].
      * subst x. specialize (Hle (Z.min p y) (or_introl eq_refl)). lia.
      * subst x. specialize (Hle (Z.min p y) (or_introl eq_refl)). lia.
      * apply Hle. right. exact Hx.
Qed.

(** The statistics as computed from the sales the page has formatted
    (newest first): the price of the first, the mean of those of the last
    thirty days, the greatest and least price, and the count. *)
Lemma computeMarketStats_of_sales (now : Millis) (first : Sale.t) (others : list Sale.t)
    previous :
  let sales := first :: others in
  let prices := map Sale.price sales in
  let recent :=
    map Sale.price
        (filter (fun s => now - 30 * 86400000 <=? Sale.executed_at s) sales) in
  let stats := computeMarketStats now sales previous in
  MarketStats.lastSalePrice stats = Some (Sale.price first)
  /\ (exists hi, MarketStats.highPrice stats = Some hi /\ In hi prices
                 /\ forall x, In x prices -> x <= hi)
  /\ (exists lo, MarketStats.lowPrice stats = Some lo /\ In lo prices
                 /\ forall x, In x prices -> lo <= x)
  /\ MarketStats.salesCount stats = List.length sales
  /\ match MarketStats.thirtyDayAvg stats with
     | None => recent = []
     | Some avg =>
         recent <> []
         /\ (avg * inject_Z (Z.of_nat (List.length recent))
             == inject_Z (sum_prices recent))%Q
     end.
Proof.
  intros sales prices recent stats.
  subst stats. unfold computeMarketStats. fold (thirtyDaysAgo now) in recent.
  cbn [map sales].
  cbn [MarketStats.lastSalePrice MarketStats.highPrice MarketStats.lowPrice
       MarketStats.salesCount MarketStats.thirtyDayAvg].
  split; [reflexivity|].
  split.
  { eexists. split; [reflexivity|]. apply Math_max_spec. }
  split.
  { eexists. split; [reflexivity|]. apply Math_min_spec. }
  split; [reflexivity|].
  fold sales. fold recent.
  destruct recent as [|x l] eqn:E; [reflexivity|].
  split; [discriminate|].
  field. unfold Qeq. simpl. lia.
Qed.

(** Every formatted sale carries the listing's present price, whatever was
    recorded at the sale. *)
Lemma formattedSales_prices (row : ReservationRow.t) (db : Store.t) :
  forall s, In s (formattedSales_of row db) ->
            Sale.price s = ReservationRow.price row.
Proof.
  unfold formattedSales_of. intros s Hin.
  apply in_map_iff in Hin. destruct Hin as (h & <- & _). reflexivity.
Qed.

(** X22: whenever the listing has a sale, the last, highest and lowest
    price the page shows are all the listing's present price, and the count is the number of history records
    of the listing. *)
Lemma market_stats_follow_listing_price (now : Millis)
    (row : ReservationRow.t) (db : Store.t) previous :
  formattedSales_of row db <> [] ->
  let stats := computeMarketStats now (formattedSales_of row db) previous in
  MarketStats.lastSalePrice stats = Some (ReservationRow.price row)
  /\ MarketStats.highPrice stats = Some (ReservationRow.price row)
  /\ MarketStats.lowPrice stats = Some (ReservationRow.price row)
  /\ MarketStats.salesCount stats
     = List.length
         (filter (fun h => Nat.eqb (History.reservation_id h)
                                   (ReservationRow.id row))
                 (Store.reservation_history db)).
Proof.
  intros Hne stats.
  assert (Hp := formattedSales_prices row db).
  assert (Hlen : List.length (formattedSales_of row db)
                 = List.length
                     (filter (fun h => Nat.eqb (History.reservation_id h)
                                               (ReservationRow.id row))
                             (Store.reservation_history db))).
  { unfold formattedSales_of. rewrite length_map, order_desc_length.
    reflexivity. }
  subst stats. rewrite <- Hlen. clear Hlen.
  destruct (formattedSales_of row db) as [|first others]; [congruence|].
  destruct (computeMarketStats_of_sales now first others previous)
    as (Hl & (hi & Hhi & Hin_hi & _) & (lo & Hlo & Hin_lo & _) & Hc & _).
  assert (Hall : forall x, In x (map Sale.price (first :: others)) ->
                           x = ReservationRow.price row).
  { intros x Hx. apply in_map_iff in Hx. destruct Hx as (s & <- & Hs).
    apply Hp. exact Hs. }
  split.
  { rewrite Hl. f_equal. apply Hp. left. reflexivity. }
  split.
  { rewrite Hhi. f_equal. apply Hall. exact Hin_hi. }
  split.
  { rewrite Hlo. f_equal. apply Hall. exact Hin_lo. }
  exact Hc.
Qed.

(** C9: the statistics of the detail page are not a function of the
    recorded sales.  With sales recorded at 120 and at 150, the page shows a
    low of 150 and a thirty-day average of 150, the price the listing has
    now, where the records give a low of 120 and a mean of 135. *)
Theorem market_stats_ignore_recorded_prices :
  let stats :=
    Page.marketStats (fresh_page bob 1%nat 4000 store_after_two_sales) in
  recorded_prices 1%nat store_after_two_sales = [120; 150]
  /\ option_map ReservationRow.price (find_row store_after_two_sales 1%nat)
     = Some 150
  /\ MarketStats.lastSalePrice stats = Some 150
  /\ MarketStats.highPrice stats = Some 150
  /\ MarketStats.lowPrice stats = Some 150
  /\ MarketStats.lowPrice stats <> Some 120
  /\ MarketStats.salesCount stats = 2%nat
  /\ (exists avg, MarketStats.thirtyDayAvg stats = Some avg
                  /\ (avg == 150)%Q /\ ~ (avg == 135)%Q).
Proof.
  cbv zeta.
  split; [reflexivity|]. split; [reflexivity|]. split; [reflexivity|].
  split; [reflexivity|]. split; [reflexivity|]. split; [discriminate|].
  split; [reflexivity|].
  eexists. split; [vm_compute; reflexivity|].
  split; [reflexivity|]. discriminate.
Qed.

(** ** The two gates in general *)

(** X7: through [api.bids.create] one bid goes through per window: once a call
    has resolved, every call of the same bidder whose first clock reading is
    within the next 300 seconds is rejected as rate-limited and writes
    nothing. *)
Lemma api_bids_create_once_per_window :
  forall be bid now later db u b,
    BidInsert.user_id bid = Some u ->
    result (api_bids_create be bid now later db) = Resolved b ->
    forall bid' now' later',
      BidInsert.user_id bid' = Some u ->
      now' < later + window_seconds * 1000 ->
      let db' := store_after db (api_bids_create be bid now later db) in
      exists err,
        result (api_bids_create be bid' now' later' db') = Rejected err
        /\ AppError.isRateLimit err = true
        /\ commits (api_bids_create be bid' now' later' db') = [].
Proof.
  intros be bid now later db u b Hu Hres bid' now' later' Hu' Hnow db'.
  set (r := RateLimit.mk
              (Store.next_uuid db) u "place_bid" later
              (later + window_seconds * 1000)).
  assert (Hin : In r (Store.rate_limits db')
                /\ blocks now' (BidInsert.user_id bid') r = true).
  { subst db'. revert Hres. unfold api_bids_create, store_after.
    destruct (active_rate_limits now (BidInsert.user_id bid) db);
      [|discriminate].
    unfold exec. rewrite Hu.
    unfold enforce_bid_rate_limit, check_rate_limit.
    destruct (_ <? max_bids_per_window); cbn [negb]; [|discriminate].
    intros _. cbn. split.
    - apply in_or_app. right. left. reflexivity.
    - unfold blocks. rewrite Hu'. cbn. rewrite Nat.eqb_refl. cbn.
      apply Z.ltb_lt. exact Hnow. }
  destruct Hin as [Hin Hb].
  destruct (active_rate_limits_blocked _ _ _ _ Hin Hb)
    as (latest & _ & _ & _ & Eq).
  unfold api_bids_create. rewrite Eq.
  eexists. split; [reflexivity|]. split; reflexivity.
Qed.

(** X21: [handleSellNow] writes the sale record whoever calls it: for every
    signed-in caller looking at a listing with an open bid, the first
    commit is the insert of the history record, with no price.  Where the
    price is required, the call commits nothing, whoever calls it. *)
Lemma handleSellNow_records_first :
  forall be p now db r highestBid others,
    Page.isAuthenticated p = true ->
    Page.reservation p = Some r ->
    Page.bids p = highestBid :: others ->
    if Backend.history_price_required be
    then commits (handleSellNow be p now db) = []
    else exists rest,
        commits (handleSellNow be p now db)
        = Store.add_history
            (History.mk (Store.next_uuid db) (Page.id p)
                        (Some (Bid.user_id highestBid)) (Some "Bid Accepted")
                        None now)
            db :: rest.
Proof.
  intros be p now db r highestBid others Ha Hr Hb.
  unfold handleSellNow. rewrite Ha, Hr, Hb.
  cbn [negb run exec HistoryInsert.price].
  destruct (Backend.history_price_required be); cbn [andb]; [reflexivity|].
  repeat match goal with
         | |- context [if ?c then _ else _] => destruct c
         end;
    cbn [commits]; eexists; reflexivity.
Qed.

(** X13: under the hypotheses of the buy-now contract, with a unit left, the two
    writes are two commits: the first has the listing updated and the
    history as it was, the second adds the record. *)
Lemma buyNow_two_commits :
  forall be c db id now user row users,
    Ctx.user c = Some user ->
    find_row db id = Some row ->
    getReservationById c id
    = Some (formatReservationFromDB (ReservationRow.to_object users row)) ->
    0 < num_or (ReservationRow.stock_remaining row) 0 ->
    exists db1 db2,
      commits (buyNow be c db id now) = [db1; db2]
      /\ Store.reservation_history db1 = Store.reservation_history db
      /\ Store.reservations db2 = Store.reservations db1
      /\ List.length (Store.reservation_history db2)
         = S (List.length (Store.reservation_history db))
      /\ option_map ReservationRow.status (find_row db1 id)
         = Some (Some (if num_or (ReservationRow.stock_remaining row) 0 - 1 =? 0
                       then sold else swept_status now row)).
Proof.
  intros be c db id now user row users Hu Hrow Hc Hs.
  unfold buyNow. rewrite Hu, Hc.
  cbn [formatReservationFromDB ReservationRow.to_object
       Reservation.stockRemaining Reservation.price
       DbReservation.stock_remaining DbReservation.price].
  destruct (find_row_matches _ _ Hrow) as [Hm Hex].
  replace (num_or (ReservationRow.stock_remaining row) 0 - 1 <? 0) with false
    by (symmetry; apply Z.ltb_ge; lia).
  cbn [run exec HistoryInsert.price]. rewrite Hex, !andb_false_r.
  cbn [commits].
  eexists. eexists. split; [reflexivity|].
  split; [reflexivity|]. split; [reflexivity|].
  split.
  { cbn. rewrite length_app. cbn. lia. }
  unfold find_row in *. cbn [Store.with_reservations Store.reservations].
  rewrite find_update_rows, Hrow. cbn [option_map].
  unfold update_row. rewrite Hm, status_after_update.
  destruct (_ =? 0); reflexivity.
Qed.

(** Every bid that [placeBid] inserts is without an expiry, and every
    successful [placeBid] sets [current_bid] on whatever rows it touches;
    [handlePlaceBid] never writes to [reservations]. *)
Lemma placeBid_bid_without_expiry :
  forall be c db id amount now,
    result (placeBid be c db id amount now) = Returns true ->
    exists b,
      Store.bids (store_after db (placeBid be c db id amount now))
      = Store.bids db ++ [b]
      /\ Bid.reservation_id b = id
      /\ Bid.amount b = amount
      /\ Bid.expires_at b = None
      /\ Bid.status b = bids_status_default.
Proof.
  intros be c db id amount now.
  unfold placeBid, store_after.
  destruct (Ctx.user c) as [user|]; [|discriminate].
  destruct (getReservationById c id) as [reservation|]; [|discriminate].
  destruct (negb _); [discriminate|].
  destruct (_ || _); [discriminate|].
  cbn [run exec BidInsert.user_id].
  destruct (enforce_bid_rate_limit now (User.id user) db) as [db1|e] eqn:E;
    [|discriminate].
  assert (Hb : Store.bids db1 = Store.bids db).
  { revert E. unfold enforce_bid_rate_limit, check_rate_limit.
    destruct (_ <? _); cbn [negb]; [|discriminate].
    intros [= <-]. reflexivity. }
  destruct (_ && negb _); [discriminate|].
  intros _. cbn. rewrite Hb. eexists. split; [reflexivity|].
  repeat split.
Qed.

Lemma handlePlaceBid_keeps_listings :
  forall be p bidValue expiryDays now db,
    Store.reservations
      (store_after db (handlePlaceBid be p bidValue expiryDays now db))
    = Store.reservations db.
Proof.
  intros be p bidValue expiryDays now db.
  unfold handlePlaceBid, store_after.
  destruct (negb _); [reflexivity|].
  destruct bidValue as [v|]; [|reflexivity].
  destruct (v <=? 0); [reflexivity|].
  destruct (v <=? _); [reflexivity|].
  destruct expiryDays as [d|]; [|reflexivity].
  cbn [run]. unfold exec.
  cbn [BidInsert.user_id].
  destruct (option_map User.id (Page.user p)) as [u|]; [|reflexivity].
  unfold enforce_bid_rate_limit, check_rate_limit.
  destruct (_ <? _); reflexivity.
Qed.

(** * Further properties *)

(** ** The rate-limit procedures *)

Lemma recent_attempts_app now u a (l1 l2 : list RateLimit.t) :
  recent_attempts now u a (l1 ++ l2)
  = recent_attempts now u a l1 ++ recent_attempts now u a l2.
Proof. unfold recent_attempts. apply filter_app. Qed.


Lemma enforce_bid_rate_limit_under now u (db : Store.t) :
  Z.of_nat (List.length
              (recent_attempts now u "place_bid" (Store.rate_limits db)))
  < max_bids_per_window ->
  enforce_bid_rate_limit now u db = Ok (attempt_recorded now u db).
Proof.
  intros H. unfold enforce_bid_rate_limit, attempt_recorded, check_rate_limit.
  cbn [snd Store.rate_limits Store.with_rate_limits].
  rewrite recent_attempts_purged.
  apply Z.ltb_lt in H. rewrite H. reflexivity.
Qed.

Lemma enforce_bid_rate_limit_over now u (db : Store.t) :
  max_bids_per_window
  <= Z.of_nat (List.length
                 (recent_attempts now u "place_bid" (Store.rate_limits db))) ->
  enforce_bid_rate_limit now u db = Err RATELIMIT.
Proof.
  intros H. unfold enforce_bid_rate_limit, check_rate_limit.
  cbn [Store.rate_limits Store.with_rate_limits].
  rewrite recent_attempts_purged.
  apply Z.ltb_ge in H. rewrite H. reflexivity.
Qed.

Lemma attempt_recorded_recent now u (db : Store.t) :
  recent_attempts now u "place_bid" (Store.rate_limits (attempt_recorded now u db))
  = recent_attempts now u "place_bid" (Store.rate_limits db)
    ++ [attempt_row now u db].
Proof.
  unfold attempt_recorded, check_rate_limit, record_rate_limit_attempt.
  cbn [snd Store.add_rate_limit Store.rate_limits Store.with_rate_limits
       Store.next_uuid].
  rewrite recent_attempts_app, recent_attempts_purged. f_equal.
  unfold recent_attempts, attempt_row. cbn [filter]. unfold rate_limit_of.
  cbn [RateLimit.user_id RateLimit.action_type RateLimit.expires_at].
  rewrite Nat.eqb_refl. cbn [andb String.eqb].
  change (window_seconds * 1000) with 300000.
  replace (now <? now + 300000) with true
    by (symmetry; apply Z.ltb_lt; lia).
  reflexivity.
Qed.


Lemma attempt_recorded_tables now u (db : Store.t) :
  Store.bids (attempt_recorded now u db) = Store.bids db
  /\ Store.reservations (attempt_recorded now u db) = Store.reservations db
  /\ Store.reservation_history (attempt_recorded now u db)
     = Store.reservation_history db
  /\ Store.users (attempt_recorded now u db) = Store.users db
  /\ Store.next_uuid (attempt_recorded now u db) = S (Store.next_uuid db).
Proof. repeat split. Qed.


(** X2: the ceiling of the trigger.  In any burst of inserts by one bidder
    whose times lie within one window of 300 seconds, and with no
    "place_bid" row of the bidder in the table before, the first five
    inserts go through and every later one is refused. *)
Theorem rapid_inserts_ceiling :
  forall be t0 u attempts db,
    rows_of u (Store.rate_limits db) = [] ->
    (forall t b, In (t, b) attempts ->
                 BidInsert.user_id b = Some u /\ t0 <= t < t0 + 300000) ->
    burst be attempts db
    = map (fun i => Nat.ltb i 5) (seq 0 (List.length attempts)).
Proof.
  intros be t0 u attempts db Hnone Hall.
  rewrite (@burst_ceiling be t0 u attempts db).
  - rewrite Hnone. apply map_ext. intros i. cbn [List.length].
    change max_bids_per_window with 5.
    destruct (Nat.ltb_spec i 5), (Z.ltb_spec (Z.of_nat 0 + Z.of_nat i) 5);
      try reflexivity; lia.
  - intros r Hin Hr.
    assert (In r (rows_of u (Store.rate_limits db))).
    { apply filter_In. split; assumption. }
    rewrite Hnone in H. destruct H.
  - exact Hall.
Qed.

Lemma rapid_inserts_ceiling_witness :
  let db := store_with (listing (Some 1) None (Some true)) in
  let attempts :=
    map (fun n => (Z.of_nat n * 10000,
                   BidInsert.mk (S n) (Some 8%nat) 150 None (Some bid_open)))
        (seq 0 7) in
  rows_of 8%nat (Store.rate_limits db) = []
  /\ (forall t b, In (t, b) attempts ->
                  BidInsert.user_id b = Some 8%nat /\ 0 <= t < 0 + 300000)
  /\ burst lenient attempts db
     = [true; true; true; true; true; false; false].
Proof.
  intros db attempts.
  assert (H1 : rows_of 8%nat (Store.rate_limits db) = []) by reflexivity.
  assert (H2 : forall t b, In (t, b) attempts ->
                 BidInsert.user_id b = Some 8%nat /\ 0 <= t < 0 + 300000).
  { intros t b Hin. subst attempts. cbn in Hin.
    repeat (destruct Hin as [Hin|Hin];
            [injection Hin as <- <-; cbn; split; [reflexivity|lia]|]).
    destruct Hin. }
  split; [exact H1|]. split; [exact H2|].
  exact (@rapid_inserts_ceiling lenient 0 8%nat attempts db H1 H2).
Defined.

Lemma recent_attempts_none_left now u (l : list RateLimit.t) :
  (forall r, In r l -> rate_limit_of u "place_bid" r = true ->
             RateLimit.expires_at r <= now) ->
  recent_attempts now u "place_bid" l = [].
Proof.
  intros Hall. unfold recent_attempts.
  induction l as [|r l IH]; [reflexivity|].
  cbn [filter].
  destruct (rate_limit_of u "place_bid" r) eqn:E; cbn [andb].
  - assert (Hr := Hall r (or_introl eq_refl) E).
    replace (now <? RateLimit.expires_at r) with false
      by (symmetry; apply Z.ltb_ge; lia).
    apply IH. intros r' Hin. apply Hall. right. exact Hin.
  - apply IH. intros r' Hin. apply Hall. right. exact Hin.
Qed.

(** X3: the limit lifts by itself.  Once none of the bidder's rows expires
    after [now] (a row expiring exactly at [now] no longer counts), the
    next insert goes through, and the only row of the bidder that counts
    afterwards is the new one. *)
Theorem rate_limit_lifts :
  forall now u db,
    (forall r, In r (Store.rate_limits db) ->
               rate_limit_of u "place_bid" r = true ->
               RateLimit.expires_at r <= now) ->
    exists db',
      enforce_bid_rate_limit now u db = Ok db'
      /\ recent_attempts now u "place_bid" (Store.rate_limits db')
         = [RateLimit.mk (Store.next_uuid db) u "place_bid" now
                         (now + 300000)].
Proof.
  intros now u db Hall.
  assert (Hlive := @recent_attempts_none_left now u _ Hall).
  exists (attempt_recorded now u db). split.
  - apply enforce_bid_rate_limit_under. rewrite Hlive. reflexivity.
  - rewrite attempt_recorded_recent, Hlive. reflexivity.
Qed.

Lemma rate_limit_lifts_witness :
  (forall r, In r (Store.rate_limits store_after_first_bid) ->
             rate_limit_of 8%nat "place_bid" r = true ->
             RateLimit.expires_at r <= 300000)
  /\ exists db',
       enforce_bid_rate_limit 300000 8%nat store_after_first_bid = Ok db'
       /\ recent_attempts 300000 8%nat "place_bid" (Store.rate_limits db')
          = [RateLimit.mk (Store.next_uuid store_after_first_bid) 8%nat
                          "place_bid" 300000 (300000 + 300000)].
Proof.
  assert (H : forall r, In r (Store.rate_limits store_after_first_bid) ->
                        rate_limit_of 8%nat "place_bid" r = true ->
                        RateLimit.expires_at r <= 300000).
  { intros r [<-|[]] _. cbn. lia. }
  split; [exact H|].
  exact (@rate_limit_lifts 300000 8%nat store_after_first_bid H).
Defined.

(** ** The rate-limit hook *)

Lemma tick_counts_down (b : bool) (n : Z) (others : nat) :
  1 < n ->
  tick (RateLimitState.mk b (Some n) (S others))
  = RateLimitState.mk b (Some (n - 1)) (S others).
Proof.
  intros Hn. unfold tick. cbn.
  destruct (Z.eqb_spec n 0) as [E|_]; [lia|]. cbn.
  destruct (Z.eqb_spec (n - 1) 0) as [E|_]; [lia|]. cbn.
  destruct (Z.leb_spec (n - 1) 0) as [E|_]; [lia|]. reflexivity.
Qed.

Lemma tick_unblocks (b : bool) (others : nat) :
  tick (RateLimitState.mk b (Some 1) (S others))
  = RateLimitState.mk false None others.
Proof. reflexivity. Qed.


Lemma ticks_count_down (n : Z) (k : nat) :
  Z.of_nat k < n ->
  Nat.iter k tick (RateLimitState.mk true (Some n) 1)
  = RateLimitState.mk true (Some (n - Z.of_nat k)) 1.
Proof.
  induction k as [|k IH]; intros Hk.
  - cbn [Nat.iter nat_rect]. do 2 f_equal. cbn. lia.
  - rewrite Nat.iter_succ, IH by lia. rewrite tick_counts_down by lia.
    do 2 f_equal. lia.
Qed.

Lemma ticks_run_out (n : Z) (k : nat) :
  0 < n -> n <= Z.of_nat k ->
  Nat.iter k tick (RateLimitState.mk true (Some n) 1)
  = RateLimitState.initial.
Proof.
  intros Hn. induction k as [|k IH]; intros Hk; [cbn in Hk; lia|].
  rewrite Nat.iter_succ.
  destruct (Z.eq_dec n (Z.of_nat (S k))) as [E|E].
  - rewrite ticks_count_down by lia.
    replace (n - Z.of_nat k) with 1 by lia. reflexivity.
  - rewrite IH by lia. reflexivity.
Qed.

(** X8: the countdown of [useRateLimit].  A rate-limit error that carries
    a retry time of [n] seconds, [n] positive, blocks the hook and starts
    one timer; after [k] firings of it, [k < n], the hook is still blocked
    with [n - k] seconds left, and from the [n]-th firing on it is unblocked
    with no time left and no timer running. *)
Theorem useRateLimit_counts_down :
  forall error n s,
    AppError.isRateLimit error = true ->
    AppError.retryAfter error = Some n ->
    0 < n ->
    RateLimitState.timers s = 0%nat ->
    forall k : nat,
      Nat.iter k tick (handleRateLimit error s)
      = if Z.of_nat k <? n
        then RateLimitState.mk true (Some (n - Z.of_nat k)) 1
        else RateLimitState.mk false None 0.
Proof.
  intros error n s Hrl Hra Hn Hs k.
  unfold handleRateLimit, getRateLimitRemainingTime.
  rewrite Hrl, Hra, Hs. cbn [negb].
  destruct (Z.eqb_spec n 0) as [E|_]; [lia|].
  cbn [num_truthy]. destruct (Z.eqb_spec n 0) as [E|_]; [lia|]. cbn [negb].
  destruct (Z.ltb_spec (Z.of_nat k) n) as [Hk|Hk].
  - apply ticks_count_down. exact Hk.
  - apply ticks_run_out; assumption.
Qed.

Lemma useRateLimit_counts_down_witness :
  let error :=
    AppError.mk "Too many bids. Please wait before trying again."
                (Some RATELIMIT) (Some 429) (Some 3) in
  AppError.isRateLimit error = true
  /\ AppError.retryAfter error = Some 3
  /\ 0 < 3
  /\ RateLimitState.timers RateLimitState.initial = 0%nat
  /\ Nat.iter 2 tick (handleRateLimit error RateLimitState.initial)
     = RateLimitState.mk true (Some 1) 1
  /\ Nat.iter 3 tick (handleRateLimit error RateLimitState.initial)
     = RateLimitState.mk false None 0.
Proof.
  intros error.
  assert (H1 : AppError.isRateLimit error = true) by reflexivity.
  assert (H2 : AppError.retryAfter error = Some 3) by reflexivity.
  assert (H3 : 0 < 3) by lia.
  assert (H4 : RateLimitState.timers RateLimitState.initial = 0%nat)
    by reflexivity.
  split; [exact H1|]. split; [exact H2|]. split; [exact H3|].
  split; [exact H4|]. split.
  - exact (@useRateLimit_counts_down error 3 RateLimitState.initial
             H1 H2 H3 H4 2%nat).
  - exact (@useRateLimit_counts_down error 3 RateLimitState.initial
             H1 H2 H3 H4 3%nat).
Defined.



(** ** The bid-expiration trigger on updates *)

Lemma handle_bid_expiration_status (now : Millis) (r : ReservationRow.t) :
  ReservationRow.status (handle_bid_expiration now r)
  = match ReservationRow.status r with
    | Some available => Some (swept_status now r)
    | other => other
    end.
Proof.
  unfold handle_bid_expiration, swept_status, bidding_ended.
  destruct r as [i rn lo cu da ti ps pr op se st de im po al mb cb be sr
                 lp ld la lg].
  cbn [ReservationRow.bid_end_time ReservationRow.status
       ReservationRow.allow_bidding ReservationRow.current_bid].
  destruct st as [[| | |]|]; cbn [opt_eqb ReservationStatus_eqb];
    rewrite ?andb_false_r, ?andb_true_r; try reflexivity.
  destruct (match be with Some e => e <? now | None => false end && truthy al);
    [|reflexivity].
  destruct cb; reflexivity.
Qed.

Lemma handle_bid_expiration_not_overdue (now : Millis) (r : ReservationRow.t) :
  bidding_ended now (handle_bid_expiration now r)
  && opt_eqb ReservationStatus_eqb
       (ReservationRow.status (handle_bid_expiration now r)) available
  = false.
Proof.
  unfold handle_bid_expiration, bidding_ended.
  destruct r as [i rn lo cu da ti ps pr op se st de im po al mb cb be sr
                 lp ld la lg].
  cbn [ReservationRow.bid_end_time ReservationRow.status
       ReservationRow.allow_bidding ReservationRow.current_bid].
  destruct (match be with Some e => e <? now | None => false end) eqn:Eb;
    cbn [andb].
  2:{ cbn. rewrite Eb. reflexivity. }
  destruct (opt_eqb ReservationStatus_eqb st available) eqn:Es; cbn [andb].
  2:{ cbn. rewrite Es. apply andb_false_r. }
  destruct (truthy al) eqn:Ea.
  2:{ cbn. rewrite Ea. rewrite andb_false_r. reflexivity. }
  destruct cb; cbn; apply andb_false_r.
Qed.

Lemma handle_bid_expiration_only_status (now : Millis)
    (r : ReservationRow.t) :
  handle_bid_expiration now r
  = Patch.apply
      (Patch.mk (ReservationRow.status (handle_bid_expiration now r))
                None None None None None)
      r.
Proof.
  unfold handle_bid_expiration.
  destruct r as [i rn lo cu da ti ps pr op se st de im po al mb cb be sr
                 lp ld la lg].
  cbn [ReservationRow.bid_end_time ReservationRow.status
       ReservationRow.allow_bidding ReservationRow.current_bid].
  destruct (_ && _ && _); [destruct cb; reflexivity|].
  destruct st; reflexivity.
Qed.

(** X4: what [handle_bid_expiration] does to the new version of a row.  It
    changes no column but [status]; it changes [status] only when it is
    'available', to 'pending' or 'expired' when bidding is allowed and the
    deadline has passed (pending when there is a current bid); and the row
    it returns is never 'available' with bidding allowed and the deadline
    passed. *)
Theorem handle_bid_expiration_outcome (now : Millis) (r : ReservationRow.t) :
  handle_bid_expiration now r
  = Patch.apply
      (Patch.mk (ReservationRow.status (handle_bid_expiration now r))
                None None None None None)
      r
  /\ ReservationRow.status (handle_bid_expiration now r)
     = match ReservationRow.status r with
       | Some available => Some (swept_status now r)
       | other => other
       end
  /\ bidding_ended now (handle_bid_expiration now r)
     && opt_eqb ReservationStatus_eqb
          (ReservationRow.status (handle_bid_expiration now r)) available
     = false.
Proof.
  split; [|split].
  - apply handle_bid_expiration_only_status.
  - apply handle_bid_expiration_status.
  - apply handle_bid_expiration_not_overdue.
Qed.

Lemma filter_unmatched_update_rows now id seller p
    (l : list ReservationRow.t) :
  filter (fun r => negb (reservation_matches id seller r))
         (map (update_row now id seller p) l)
  = filter (fun r => negb (reservation_matches id seller r)) l.
Proof.
  induction l as [|r l IH]; [reflexivity|].
  cbn [map filter]. rewrite update_row_matches, IH.
  unfold update_row.
  destruct (reservation_matches id seller r); reflexivity.
Qed.

Lemma map_id_update_rows now id seller p (l : list ReservationRow.t) :
  map ReservationRow.id (map (update_row now id seller p) l)
  = map ReservationRow.id l.
Proof.
  rewrite map_map. apply map_ext. intros r. apply update_row_id.
Qed.

(** X5: an update of [reservations] that the store carries out keeps the
    rows, their keys and their order; the rows its filters do not match
    are as they were; no row it matches is left 'available' with bidding
    allowed and the deadline passed, whatever the payload wrote; and the
    other tables are untouched. *)
Theorem update_leaves_no_overdue_listing :
  forall be now id seller p db db',
    exec be now (UpdateReservation id seller p) db = Ok db' ->
    map ReservationRow.id (Store.reservations db')
    = map ReservationRow.id (Store.reservations db)
    /\ filter (fun r => negb (reservation_matches id seller r))
              (Store.reservations db')
       = filter (fun r => negb (reservation_matches id seller r))
                (Store.reservations db)
    /\ (forall r', In r' (Store.reservations db') ->
                   reservation_matches id seller r' = true ->
                   bidding_ended now r'
                   && opt_eqb ReservationStatus_eqb
                        (ReservationRow.status r') available = false)
    /\ Store.bids db' = Store.bids db
    /\ Store.reservation_history db' = Store.reservation_history db
    /\ Store.rate_limits db' = Store.rate_limits db.
Proof.
  intros be now id seller p db db'. cbn [exec].
  destruct (_ && _); [discriminate|].
  intros [= <-]. cbn [Store.with_reservations Store.reservations Store.bids
                      Store.reservation_history Store.rate_limits].
  split; [apply map_id_update_rows|].
  split; [apply filter_unmatched_update_rows|].
  split; [|repeat split].
  intros r' Hin Hm.
  apply in_map_iff in Hin. destruct Hin as (r & <- & _).
  rewrite update_row_matches in Hm. unfold update_row. rewrite Hm.
  apply handle_bid_expiration_not_overdue.
Qed.

Lemma update_leaves_no_overdue_listing_witness :
  let db := store_with (listing (Some 1) (Some 10) (Some true)) in
  let p := Patch.mk (Some available) (Some 150) None None None None in
  exists db',
    exec strict_updates 20 (UpdateReservation 1%nat (Some (Some 7%nat)) p) db
    = Ok db'
    /\ map ReservationRow.id (Store.reservations db') = [1%nat]
    /\ option_map ReservationRow.status (find_row db' 1%nat)
       = Some (Some expired).
Proof.
  intros db p. eexists. split; [reflexivity|].
  split; [|reflexivity].
  exact (proj1 (@update_leaves_no_overdue_listing strict_updates 20 1%nat
                  (Some (Some 7%nat)) p db _ eq_refl)).
Defined.
(** ** The API layer over the trigger *)

Lemma active_rate_limits_none now user_id (db : Store.t) :
  active_rate_limits now user_id db = [] ->
  forall r, In r (Store.rate_limits db) -> blocks now user_id r = false.
Proof.
  unfold active_rate_limits. intros H r Hin.
  destruct (blocks now user_id r) eqn:Hb; [|reflexivity].
  assert (Hf : In (RateLimit.expires_at r)
                  (order_desc (fun e => e)
                     (map RateLimit.expires_at
                          (filter (blocks now user_id)
                                  (Store.rate_limits db))))).
  { apply order_desc_In. apply in_map. apply filter_In. split; assumption. }
  destruct (order_desc _ _); [destruct Hf | discriminate].
Qed.

Lemma no_active_rate_limit_no_attempt now later u (db : Store.t) :
  active_rate_limits now (Some u) db = [] ->
  now <= later ->
  recent_attempts later u "place_bid" (Store.rate_limits db) = [].
Proof.
  intros H Hle. apply recent_attempts_none_left. intros r Hin Hr.
  assert (Hb := @active_rate_limits_none now (Some u) db H r Hin).
  unfold blocks in Hb. unfold rate_limit_of in Hr.
  apply andb_true_iff in Hr. destruct Hr as [Hu Ha].
  cbn [opt_eqb] in Hb. rewrite Nat.eqb_sym, Hu, Ha in Hb. cbn [andb] in Hb.
  apply Z.ltb_ge in Hb. lia.
Qed.

(** X6: the two outcomes of [api.bids.create] for a signed-in bidder,
    when the clock does not run backwards between its two readings.
    Whenever [api.bids.getRateLimit] reports a waiting time, the call is
    rejected with that time and writes nothing; otherwise the bid is
    inserted as given, created at the second reading, and the bidder's only
    counting attempt afterwards is the new one.  So the store's own refusal
    at five attempts never reaches the caller of [api.bids.create]. *)
Theorem api_bids_create_outcome :
  forall be bid now later db u,
    BidInsert.user_id bid = Some u ->
    now <= later ->
    let e := api_bids_create be bid now later db in
    match api_bids_getRateLimit u now later db with
    | Some retryAfter =>
        result e
        = Rejected (AppError.mk
                      "Too many bids. Please wait before trying again."
                      (Some RATELIMIT) (Some 429) (Some retryAfter))
        /\ commits e = []
    | None =>
        let created :=
          Bid.mk (S (Store.next_uuid db)) (BidInsert.reservation_id bid) u
                 (BidInsert.amount bid) later (BidInsert.expires_at bid)
                 match BidInsert.status bid with
                 | Some s => s
                 | None => bids_status_default
                 end in
        result e = Resolved created
        /\ exists db',
            commits e = [db']
            /\ Store.bids db' = Store.bids db ++ [created]
            /\ Store.reservations db' = Store.reservations db
            /\ recent_attempts later u "place_bid" (Store.rate_limits db')
               = [RateLimit.mk (Store.next_uuid db) u "place_bid" later
                               (later + 300000)]
    end.
Proof.
  intros be bid now later db u Hu Hle e. subst e.
  unfold api_bids_getRateLimit, api_bids_create. rewrite Hu.
  destruct (active_rate_limits now (Some u) db) as [|expiresAt rest] eqn:Ea.
  2:{ split; reflexivity. }
  assert (Hnone := @no_active_rate_limit_no_attempt now later u db Ea Hle).
  cbn [exec]. rewrite Hu.
  rewrite enforce_bid_rate_limit_under by (rewrite Hnone; reflexivity).
  cbn [result commits Store.add_bid Store.bids].
  destruct (attempt_recorded_tables later u db) as (Hb & Hr & _ & _ & Hn).
  rewrite Hb, Hn, rev_app_distr. cbn [rev app].
  split; [reflexivity|].
  eexists. split; [reflexivity|].
  cbn [Store.add_bid Store.bids Store.reservations Store.rate_limits].
  rewrite Hb, Hr.
  split; [reflexivity|]. split; [reflexivity|].
  rewrite attempt_recorded_recent, Hnone. reflexivity.
Qed.

Lemma api_bids_create_outcome_witness :
  let db := store_with (listing (Some 1) None (Some true)) in
  let bid := BidInsert.mk 1%nat (Some 8%nat) 150 (Some 900000) (Some bid_open) in
  BidInsert.user_id bid = Some 8%nat
  /\ 1000 <= 1200
  /\ api_bids_getRateLimit 8%nat 1000 1200 db = None
  /\ result (api_bids_create lenient bid 1000 1200 db)
     = Resolved (Bid.mk 101%nat 1%nat 8%nat 150 1200 (Some 900000) bid_open).
Proof.
  intros db bid.
  assert (H1 : BidInsert.user_id bid = Some 8%nat) by reflexivity.
  assert (H2 : 1000 <= 1200) by lia.
  split; [exact H1|]. split; [exact H2|]. split; [reflexivity|].
  exact (proj1 (@api_bids_create_outcome lenient bid 1000 1200 db 8%nat
                  H1 H2)).
Defined.

(** ** The hook around [api.bids.create] *)

Lemma api_bids_create_resolved_row be bid now later (db : Store.t) u b :
  BidInsert.user_id bid = Some u ->
  result (api_bids_create be bid now later db) = Resolved b ->
  In (attempt_row later u db)
     (Store.rate_limits (store_after db (api_bids_create be bid now later db))).
Proof.
  intros Hu. unfold api_bids_create, store_after.
  destruct (active_rate_limits now (BidInsert.user_id bid) db);
    [|discriminate].
  unfold exec. rewrite Hu.
  unfold enforce_bid_rate_limit, check_rate_limit.
  destruct (_ <? max_bids_per_window); cbn [negb]; [|discriminate].
  intros _. cbn. apply in_or_app. right. left. reflexivity.
Qed.

(** X10: the hook around [api.bids.create].  When a bidder's call through
    the wrapper has resolved, the hook is still open; the bidder's next
    call, with both clock readings within 300 seconds of the insert, is
    rejected by the API layer without a write, and blocks the hook with a
    positive number of seconds to count down; from then on a wrapped call
    is rejected by the hook itself and never reaches the store. *)
Theorem wrapped_bid_locks_out :
  forall be bid now later db u b db1 s1 bid' now' later',
    BidInsert.user_id bid = Some u ->
    wrapRateLimitedAction (bids_create_action be bid now later)
                          RateLimitState.initial db
    = (Resolved b, db1, s1) ->
    BidInsert.user_id bid' = Some u ->
    now' < later + 300000 ->
    later' < later + 300000 ->
    s1 = RateLimitState.initial
    /\ exists err n,
        wrapRateLimitedAction (bids_create_action be bid' now' later') s1 db1
        = (Rejected err, db1, RateLimitState.mk true (Some n) 1)
        /\ AppError.retryAfter err = Some n
        /\ 0 < n
        /\ forall bid'' now'' later'',
            exists err',
              wrapRateLimitedAction
                (bids_create_action be bid'' now'' later'')
                (RateLimitState.mk true (Some n) 1) db1
              = (Rejected err', db1, RateLimitState.mk true (Some n) 1).
Proof.
  intros be bid now later db u b db1 s1 bid' now' later' Hu Hw Hu' Hn Hl.
  unfold wrapRateLimitedAction in Hw. cbn [RateLimitState.isBlocked
    RateLimitState.initial] in Hw.
  unfold bids_create_action in Hw.
  destruct (result (api_bids_create be bid now later db)) as [b0|e0] eqn:Hres;
    [|discriminate].
  injection Hw as _ Hdb Hs. subst s1. split; [reflexivity|].
  assert (Hin := api_bids_create_resolved_row be bid now later db Hu Hres).
  rewrite Hdb in Hin.
  assert (Hb : blocks now' (BidInsert.user_id bid') (attempt_row later u db)
               = true).
  { unfold blocks, attempt_row. rewrite Hu'. cbn. rewrite Nat.eqb_refl. cbn.
    apply Z.ltb_lt. exact Hn. }
  destruct (active_rate_limits_blocked _ _ _ _ Hin Hb)
    as (latest & _ & _ & Hmax & Eq).
  assert (Hlatest : later + 300000 <= RateLimit.expires_at latest).
  { apply (Hmax _ Hin Hb). }
  set (n := ceil_seconds (RateLimit.expires_at latest - later')).
  assert (Hpos : 0 < n) by (apply ceil_seconds_pos; lia).
  eexists. exists n.
  unfold wrapRateLimitedAction, bids_create_action, api_bids_create.
  cbn [RateLimitState.isBlocked RateLimitState.initial].
  rewrite Eq. cbn [result store_after commits last].
  unfold handleRateLimit, getRateLimitRemainingTime.
  cbn [AppError.isRateLimit AppError.code AppError.retryAfter negb orb].
  fold n. destruct (Z.eqb_spec n 0) as [E|_]; [lia|].
  cbn [num_truthy]. destruct (Z.eqb_spec n 0) as [E|_]; [lia|].
  cbn [negb RateLimitState.timers].
  split; [reflexivity|]. split; [reflexivity|]. split; [exact Hpos|].
  intros bid'' now'' later''. eexists. reflexivity.
Qed.

Lemma wrapped_bid_locks_out_witness :
  let db := store_with (listing (Some 1) None (Some true)) in
  let first :=
    wrapRateLimitedAction (bids_create_action lenient (sample_bid bob 150) 0 0)
                          RateLimitState.initial db in
  exists b db1,
    first = (Resolved b, db1, RateLimitState.initial)
    /\ BidInsert.user_id (sample_bid bob 150) = Some 8%nat
    /\ 1000 < 0 + 300000
    /\ exists err n,
        wrapRateLimitedAction
          (bids_create_action lenient (sample_bid bob 200) 1000 1000)
          RateLimitState.initial db1
        = (Rejected err, db1, RateLimitState.mk true (Some n) 1)
        /\ 0 < n.
Proof.
  intros db first.
  eexists. eexists. split; [reflexivity|].
  split; [reflexivity|]. split; [lia|].
  destruct (@wrapped_bid_locks_out lenient (sample_bid bob 150) 0 0 db 8%nat
              _ _ _ (sample_bid bob 200) 1000 1000
              eq_refl eq_refl eq_refl ltac:(lia) ltac:(lia))
    as (_ & err & n & Hw & _ & Hpos & _).
  exists err, n. split; [exact Hw | exact Hpos].
Defined.

(** ** The detail page *)



(** X16: [handlePlaceAsk] writes to nothing but the caller's own listing.
    Whoever calls it and whatever the ask, the rows of [reservations] keep
    their keys and order, every row that is not the page's listing with the
    caller as its seller is as it was, and the bids, the sale history and
    the rate-limit rows are untouched. *)
Theorem handlePlaceAsk_writes_own_listing_only :
  forall be p askValue now db,
    let db' := store_after db (handlePlaceAsk be p askValue now db) in
    map ReservationRow.id (Store.reservations db')
    = map ReservationRow.id (Store.reservations db)
    /\ filter (fun r => negb (own_listing p r)) (Store.reservations db')
       = filter (fun r => negb (own_listing p r)) (Store.reservations db)
    /\ Store.bids db' = Store.bids db
    /\ Store.reservation_history db' = Store.reservation_history db
    /\ Store.rate_limits db' = Store.rate_limits db.
Proof.
  intros be p askValue now db db'. subst db'.
  unfold handlePlaceAsk, store_after, own_listing.
  destruct (negb _); [repeat split|].
  destruct askValue as [v|]; [|repeat split].
  destruct (v <=? 0); [repeat split|].
  cbn [run exec].
  destruct (_ && _); [repeat split|].
  cbn [commits last Store.with_reservations Store.reservations Store.bids
       Store.reservation_history Store.rate_limits].
  split; [apply map_id_update_rows|].
  split; [apply filter_unmatched_update_rows|].
  repeat split.
Qed.



Lemma find_row_own (db : Store.t) (id : Uuid) (row : ReservationRow.t) :
  find_row db id = Some row ->
  reservation_matches id (Some (Some (ReservationRow.seller_id row))) row
  = true
  /\ existsb (reservation_matches id
                (Some (Some (ReservationRow.seller_id row))))
             (Store.reservations db) = true.
Proof.
  intros H. unfold find_row in H. apply find_some in H. destruct H as [Hin Hid].
  assert (Hm : reservation_matches id
                 (Some (Some (ReservationRow.seller_id row))) row = true).
  { unfold reservation_matches. rewrite Hid, Nat.eqb_refl. reflexivity. }
  split; [exact Hm|].
  apply existsb_exists. exists row. split; assumption.
Qed.

Lemma swept_status_patch now p (r : ReservationRow.t) :
  Patch.current_bid p = None ->
  swept_status now (Patch.apply p r) = swept_status now r.
Proof.
  intros H. unfold swept_status, bidding_ended.
  destruct r; cbn. rewrite H. reflexivity.
Qed.

Lemma fetchReservation_found (p : Page.t) (now : Millis) (db : Store.t)
    (row : ReservationRow.t) :
  find_row db (Page.id p) = Some row ->
  Page.reservation (fetchReservation p now db) = Some row
  /\ Page.error (fetchReservation p now db) = None
  /\ Page.bids (fetchReservation p now db) = open_bids_of (Page.id p) db
  /\ Page.isAuthenticated (fetchReservation p now db) = Page.isAuthenticated p
  /\ Page.user (fetchReservation p now db) = Page.user p
  /\ Page.id (fetchReservation p now db) = Page.id p.
Proof.
  unfold find_row, fetchReservation. intros H. rewrite H. repeat split.
Qed.

(** X18: an ask by the seller is read back.  When the signed-in user is
    the seller of the page's listing and enters a positive ask, the listing
    in the store has that price afterwards, the reloaded page shows that
    row without an error, and the update has gone through the
    bid-expiration trigger: a listing that was 'available' past its bid
    deadline is 'pending' or 'expired' afterwards. *)
Theorem handlePlaceAsk_sets_the_price :
  forall be p askValue now db row,
    Page.isAuthenticated p = true ->
    0 < askValue ->
    find_row db (Page.id p) = Some row ->
    option_map User.id (Page.user p) = Some (ReservationRow.seller_id row) ->
    let e := handlePlaceAsk be p (Some askValue) now db in
    exists row',
      find_row (store_after db e) (Page.id p) = Some row'
      /\ ReservationRow.price row' = askValue
      /\ ReservationRow.status row'
         = match ReservationRow.status row with
           | Some available => Some (swept_status now row)
           | other => other
           end
      /\ Page.reservation (client e) = Some row'
      /\ Page.error (client e) = None.
Proof.
  intros be p askValue now db row Ha Hv Hrow Hu e. subst e.
  destruct (find_row_own _ _ Hrow) as [Hm Hex].
  unfold handlePlaceAsk, store_after. rewrite Ha. cbn [negb].
  replace (askValue <=? 0) with false by (symmetry; apply Z.leb_gt; exact Hv).
  cbn [run exec]. rewrite Hu, Hex. cbn [negb]. rewrite andb_false_r.
  cbn [commits client last].
  set (p1 := Patch.mk None (Some askValue) None None None None).
  set (seller := Some (Some (ReservationRow.seller_id row))).
  assert (Hfind : find_row
                    (Store.with_reservations
                       (map (update_row now (Page.id p) seller p1)
                            (Store.reservations db)) db)
                    (Page.id p)
                  = Some (handle_bid_expiration now (Patch.apply p1 row))).
  { unfold find_row in *. cbn [Store.with_reservations Store.reservations].
    rewrite find_update_rows, Hrow. cbn [option_map].
    unfold update_row. subst seller. rewrite Hm. reflexivity. }
  exists (handle_bid_expiration now (Patch.apply p1 row)).
  split; [exact Hfind|].
  split.
  { destruct (handle_bid_expiration_keeps now (Patch.apply p1 row))
      as (_ & _ & _ & _ & Hp).
    rewrite Hp. reflexivity. }
  split.
  { rewrite handle_bid_expiration_status, swept_status_patch by reflexivity.
    destruct row; reflexivity. }
  destruct (fetchReservation_found p now _ Hfind) as (H1 & H2 & _).
  split; assumption.
Qed.

Lemma handlePlaceAsk_sets_the_price_witness :
  let row := listing (Some 1) (Some 10) (Some true) in
  let db := store_with row in
  let p := fresh_page ada 1%nat 1000 db in
  Page.isAuthenticated p = true
  /\ 0 < 150
  /\ find_row db (Page.id p) = Some row
  /\ option_map User.id (Page.user p) = Some (ReservationRow.seller_id row)
  /\ exists row',
       find_row (store_after db (handlePlaceAsk lenient p (Some 150) 2000 db))
                1%nat = Some row'
       /\ ReservationRow.price row' = 150
       /\ ReservationRow.status row' = Some expired.
Proof.
  intros row db p.
  assert (H1 : Page.isAuthenticated p = true) by reflexivity.
  assert (H2 : 0 < 150) by lia.
  assert (H3 : find_row db (Page.id p) = Some row) by reflexivity.
  assert (H4 : option_map User.id (Page.user p)
               = Some (ReservationRow.seller_id row)) by reflexivity.
  split; [exact H1|]. split; [exact H2|]. split; [exact H3|].
  split; [exact H4|].
  destruct (@handlePlaceAsk_sets_the_price lenient p 150 2000 db row
              H1 H2 H3 H4) as (row' & Hf & Hp & Hs & _).
  exists row'. split; [exact Hf|]. split; [exact Hp|]. exact Hs.
Defined.

(** X19: [handleBuyNow] sells the page's listing whatever its state.  For
    a signed-in user on a loaded page, where the store takes a history
    record without a price, the call records the purchase without a price,
    marks the listing 'sold' whatever its status and stock were, leaves
    its stock, its price and its last-sale columns as they were, and goes to
    the dashboard. *)
Theorem handleBuyNow_sells_regardless :
  forall be p now db r row,
    Page.isAuthenticated p = true ->
    Page.reservation p = Some r ->
    Backend.history_price_required be = false ->
    find_row db (Page.id p) = Some row ->
    let e := handleBuyNow be p now db in
    Page.navigatedTo (client e) = Some "/dashboard"
    /\ Store.reservation_history (store_after db e)
       = Store.reservation_history db
         ++ [History.mk (Store.next_uuid db) (Page.id p)
                        (option_map User.id (Page.user p))
                        match Page.user p with
                        | Some u => User.name u
                        | None => None
                        end
                        None now]
    /\ exists row',
        find_row (store_after db e) (Page.id p) = Some row'
        /\ ReservationRow.status row' = Some sold
        /\ ReservationRow.stock_remaining row'
           = ReservationRow.stock_remaining row
        /\ ReservationRow.price row' = ReservationRow.price row
        /\ ReservationRow.last_sale_price row'
           = ReservationRow.last_sale_price row
        /\ ReservationRow.last_sale_date row'
           = ReservationRow.last_sale_date row.
Proof.
  intros be p now db r row Ha Hr Hprice Hrow e. subst e.
  destruct (find_row_matches _ _ Hrow) as [Hm Hex].
  unfold handleBuyNow, store_after. rewrite Ha, Hr. cbn [negb].
  cbn [run exec HistoryInsert.price]. rewrite Hprice. cbn [andb].
  cbn [Store.add_history Store.reservations]. rewrite Hex. cbn [negb].
  rewrite andb_false_r. cbn [commits client last].
  split; [reflexivity|]. split; [reflexivity|].
  set (p1 := Patch.mk (Some sold) None None None None None).
  exists (handle_bid_expiration now (Patch.apply p1 row)).
  split.
  { unfold find_row in *. cbn [Store.with_reservations Store.reservations].
    rewrite find_update_rows, Hrow. cbn [option_map].
    unfold update_row. rewrite Hm. reflexivity. }
  split; [apply (status_after_update now sold None None None None row)|].
  destruct (handle_bid_expiration_keeps now (Patch.apply p1 row))
    as (H1 & H2 & H3 & _ & H5).
  rewrite H1, H2, H3, H5. destruct row; repeat split.
Qed.

Lemma handleBuyNow_sells_regardless_witness :
  let row :=
    ReservationRow.mk 1%nat "Chez Nous" "Leeds" "French" 9000 "19:30" 2 120
      100 7%nat (Some expired) None None (Some 80) (Some true) (Some 100)
      None (Some 10) (Some 0) None None None None in
  let db := store_with row in
  let p := fresh_page bob 1%nat 1000 db in
  Page.isAuthenticated p = true
  /\ Page.reservation p = Some row
  /\ Backend.history_price_required lenient = false
  /\ find_row db (Page.id p) = Some row
  /\ exists row',
       find_row (store_after db (handleBuyNow lenient p 2000 db)) 1%nat
       = Some row'
       /\ ReservationRow.status row' = Some sold
       /\ ReservationRow.stock_remaining row' = Some 0.
Proof.
  intros row db p.
  assert (H1 : Page.isAuthenticated p = true) by reflexivity.
  assert (H2 : Page.reservation p = Some row) by reflexivity.
  assert (H3 : Backend.history_price_required lenient = false) by reflexivity.
  assert (H4 : find_row db (Page.id p) = Some row) by reflexivity.
  split; [exact H1|]. split; [exact H2|]. split; [exact H3|].
  split; [exact H4|].
  destruct (@handleBuyNow_sells_regardless lenient p 2000 db row row
              H1 H2 H3 H4) as (_ & _ & row' & Hf & Hs & Hk & _).
  exists row'. split; [exact Hf|]. split; [exact Hs|]. exact Hk.
Defined.

Lemma existsb_bid_id (b : Bid.t) (l : list Bid.t) :
  In b l -> existsb (fun b' => Nat.eqb (Bid.id b') (Bid.id b)) l = true.
Proof.
  intros H. apply existsb_exists. exists b. split; [exact H|].
  apply Nat.eqb_refl.
Qed.

(** X20: [handleSellNow] by the seller.  When the signed-in user is the
    seller of the page's listing, the first bid on the page is a bid of the
    store, and the store takes a history record without a price, the call
    goes through to the dashboard: the record names the bidder and has no
    price, the listing is 'sold' at the amount of that bid, the bid is
    'accepted', and every other bid keeps its status, so competing
    open bids stay open. *)
Theorem handleSellNow_by_owner :
  forall be p now db r highestBid others row,
    Page.isAuthenticated p = true ->
    Page.reservation p = Some r ->
    Page.bids p = highestBid :: others ->
    Backend.history_price_required be = false ->
    find_row db (Page.id p) = Some row ->
    option_map User.id (Page.user p) = Some (ReservationRow.seller_id row) ->
    In highestBid (Store.bids db) ->
    let e := handleSellNow be p now db in
    let db' := store_after db e in
    Page.navigatedTo (client e) = Some "/dashboard"
    /\ Store.reservation_history db'
       = Store.reservation_history db
         ++ [History.mk (Store.next_uuid db) (Page.id p)
                        (Some (Bid.user_id highestBid)) (Some "Bid Accepted")
                        None now]
    /\ (exists row',
          find_row db' (Page.id p) = Some row'
          /\ ReservationRow.status row' = Some sold
          /\ ReservationRow.price row' = Bid.amount highestBid)
    /\ map Bid.id (Store.bids db') = map Bid.id (Store.bids db)
    /\ (forall b', In b' (Store.bids db') ->
                   Bid.id b' = Bid.id highestBid ->
                   Bid.status b' = bid_accepted)
    /\ (forall b, In b (Store.bids db) ->
                  Bid.id b <> Bid.id highestBid ->
                  In b (Store.bids db')).
Proof.
  intros be p now db r highestBid others row Ha Hr Hb Hprice Hrow Hu Hin e db'.
  subst db' e.
  destruct (find_row_own _ _ Hrow) as [Hm Hex].
  unfold handleSellNow, store_after. rewrite Ha, Hr, Hb. cbn [negb].
  cbn [run exec HistoryInsert.price]. rewrite Hprice, Hu. cbn [andb].
  cbn [Store.add_history Store.reservations Store.with_reservations
       Store.bids]. rewrite Hex. cbn [negb]. rewrite !andb_false_r. cbn [andb].
  cbn [Store.bids Store.with_reservations Store.add_history
       HistoryInsert.reservation_id HistoryInsert.buyer_id
       HistoryInsert.buyer_name].
  rewrite (existsb_bid_id _ _ Hin). cbn [negb].
  rewrite !andb_false_r. cbn [commits client last].
  cbn [Store.with_bids Store.reservation_history Store.reservations
       Store.bids].
  split; [reflexivity|]. split; [reflexivity|].
  set (p1 := Patch.mk (Some sold) (Some (Bid.amount highestBid))
                      None None None None).
  split.
  { exists (handle_bid_expiration now (Patch.apply p1 row)).
    split.
    { unfold find_row in *.
      cbn [Store.reservations Store.with_bids Store.with_reservations
           Store.add_history].
      rewrite find_update_rows, Hrow. cbn [option_map].
      unfold update_row. rewrite Hm. reflexivity. }
    split.
    { apply (status_after_update now sold (Some (Bid.amount highestBid))
               None None None row). }
    destruct (handle_bid_expiration_keeps now (Patch.apply p1 row))
      as (_ & _ & _ & _ & H5).
    rewrite H5. reflexivity. }
  split.
  { rewrite map_map. apply map_ext. intros b.
    destruct (Nat.eqb _ _); reflexivity. }
  split.
  { intros b' Hb' Hid. apply in_map_iff in Hb'. destruct Hb' as (b & <- & _).
    destruct (Nat.eqb (Bid.id b) (Bid.id highestBid)) eqn:E; [reflexivity|].
    apply Nat.eqb_neq in E. contradiction. }
  intros b Hb' Hid. apply in_map_iff. exists b. split; [|exact Hb'].
  apply Nat.eqb_neq in Hid. rewrite Hid. reflexivity.
Qed.

Lemma handleSellNow_by_owner_witness :
  let db := store_with_bid in
  let p := fresh_page ada 1%nat 2000 db in
  let row := listing (Some 1) None (Some true) in
  let bid :=
    Bid.mk 101%nat 1%nat 8%nat 300 1000 (Some (1000 + 7 * 86400000)) bid_open in
  Page.isAuthenticated p = true
  /\ Page.reservation p = Some row
  /\ Page.bids p = [bid]
  /\ Backend.history_price_required lenient = false
  /\ find_row db (Page.id p) = Some row
  /\ option_map User.id (Page.user p) = Some (ReservationRow.seller_id row)
  /\ In bid (Store.bids db)
  /\ exists row',
       find_row (store_after db (handleSellNow lenient p 3000 db)) 1%nat
       = Some row'
       /\ ReservationRow.status row' = Some sold
       /\ ReservationRow.price row' = 300.
Proof.
  intros db p row bid.
  assert (H1 : Page.isAuthenticated p = true) by reflexivity.
  assert (H2 : Page.reservation p = Some row) by reflexivity.
  assert (H3 : Page.bids p = [bid]) by reflexivity.
  assert (H4 : Backend.history_price_required lenient = false) by reflexivity.
  assert (H5 : find_row db (Page.id p) = Some row) by reflexivity.
  assert (H6 : option_map User.id (Page.user p)
               = Some (ReservationRow.seller_id row)) by reflexivity.
  assert (H7 : In bid (Store.bids db)) by (left; reflexivity).
  split; [exact H1|]. split; [exact H2|]. split; [exact H3|].
  split; [exact H4|]. split; [exact H5|]. split; [exact H6|].
  split; [exact H7|].
  destruct (@handleSellNow_by_owner lenient p 3000 db row bid [] row
              H1 H2 H3 H4 H5 H6 H7) as (_ & _ & Hrow' & _).
  exact Hrow'.
Defined.





Lemma open_bids_of_In (id : Uuid) (db : Store.t) (b : Bid.t) :
  In b (open_bids_of id db)
  <-> In b (Store.bids db) /\ Bid.reservation_id b = id
      /\ Bid.status b = bid_open.
Proof.
  unfold open_bids_of. rewrite order_desc_In, filter_In, andb_true_iff.
  rewrite Nat.eqb_eq.
  assert (Hs : BidStatus_eqb (Bid.status b) bid_open = true
               <-> Bid.status b = bid_open).
  { destruct (Bid.status b); cbn; split; congruence. }
  rewrite Hs. tauto.
Qed.




Lemma handleSellNow_records_first_witness :
  let db := store_with_bid in
  let p := fresh_page cy 1%nat 2000 db in
  let bid :=
    Bid.mk 101%nat 1%nat 8%nat 300 1000 (Some (1000 + 7 * 86400000)) bid_open in
  Page.isAuthenticated p = true
  /\ Page.reservation p = Some (listing (Some 1) None (Some true))
  /\ Page.bids p = [bid]
  /\ exists rest,
       commits (handleSellNow lenient p 3000 db)
       = Store.add_history
           (History.mk (Store.next_uuid db) 1%nat (Some 8%nat)
                       (Some "Bid Accepted") None 3000)
           db :: rest.
Proof.
  intros db p bid.
  assert (H1 : Page.isAuthenticated p = true) by reflexivity.
  assert (H2 : Page.reservation p = Some (listing (Some 1) None (Some true)))
    by reflexivity.
  assert (H3 : Page.bids p = [bid]) by reflexivity.
  split; [exact H1|]. split; [exact H2|]. split; [exact H3|].
  exact (@handleSellNow_records_first lenient p 3000 db _ bid [] H1 H2 H3).
Defined.

(** ** The reservation context: lookups *)

Lemma find_app_first {A} (f : A -> bool) (l1 l2 : list A) :
  find f (l1 ++ l2)
  = match find f l1 with
    | Some x => Some x
    | None => find f l2
    end.
Proof.
  induction l1 as [|a l1 IH]; [reflexivity|].
  cbn [app find]. destruct (f a); [reflexivity | exact IH].
Qed.

Lemma find_none_fresh_id (id : Uuid) (l : list ReservationRow.t) :
  ~ In id (map ReservationRow.id l) ->
  find (fun r => Nat.eqb (ReservationRow.id r) id) l = None.
Proof.
  intros H. destruct (find _ l) as [r|] eqn:E; [|reflexivity].
  apply find_some in E. destruct E as [Hin Hid].
  apply Nat.eqb_eq in Hid. exfalso. apply H. rewrite <- Hid.
  apply in_map. exact Hin.
Qed.

Lemma filter_none_fresh_id (id : Uuid) (l : list ReservationRow.t) :
  ~ In id (map ReservationRow.id l) ->
  filter (fun r => Nat.eqb (ReservationRow.id r) id) l = [].
Proof.
  intros H. induction l as [|r l IH]; [reflexivity|].
  cbn [filter]. destruct (Nat.eqb_spec (ReservationRow.id r) id) as [E|_].
  - exfalso. apply H. left. exact E.
  - apply IH. intros Hin. apply H. right. exact Hin.
Qed.

Lemma find_rev_unique (id : Uuid) (l : list ReservationRow.t) :
  NoDup (map ReservationRow.id l) ->
  find (fun r => Nat.eqb (ReservationRow.id r) id) (rev l)
  = find (fun r => Nat.eqb (ReservationRow.id r) id) l.
Proof.
  induction l as [|r l IH]; [reflexivity|].
  cbn [map]. intros Hnd. inversion Hnd as [|x xs Hnotin Hnd']; subst.
  cbn [rev find]. rewrite find_app_first, (IH Hnd'). cbn [find].
  destruct (Nat.eqb_spec (ReservationRow.id r) id) as [E|_].
  - rewrite find_none_fresh_id by (rewrite <- E; exact Hnotin). reflexivity.
  - destruct (find _ l); reflexivity.
Qed.

Lemma filter_unique (id : Uuid) (l : list ReservationRow.t) :
  NoDup (map ReservationRow.id l) ->
  filter (fun r => Nat.eqb (ReservationRow.id r) id) l
  = match find (fun r => Nat.eqb (ReservationRow.id r) id) l with
    | Some r => [r]
    | None => []
    end.
Proof.
  induction l as [|r l IH]; [reflexivity|].
  cbn [map]. intros Hnd. inversion Hnd as [|x xs Hnotin Hnd']; subst.
  cbn [filter find].
  destruct (Nat.eqb_spec (ReservationRow.id r) id) as [E|_].
  - rewrite filter_none_fresh_id by (rewrite <- E; exact Hnotin). reflexivity.
  - apply IH. exact Hnd'.
Qed.

Lemma find_formatted (id : Uuid) (name : ReservationRow.t -> option string)
    (l : list ReservationRow.t) :
  find (fun r => opt_eqb Nat.eqb (Reservation.id r) id)
       (map (fun r => formatReservationFromDB
                        (ReservationRow.to_object (name r) r)) l)
  = option_map (fun r => formatReservationFromDB
                           (ReservationRow.to_object (name r) r))
               (find (fun r => Nat.eqb (ReservationRow.id r) id) l).
Proof.
  induction l as [|r l IH]; [reflexivity|].
  cbn [map find]. cbn [formatReservationFromDB ReservationRow.to_object
                       Reservation.id DbReservation.id opt_eqb].
  destruct (Nat.eqb (ReservationRow.id r) id); [reflexivity | exact IH].
Qed.

Lemma str_or_twice (x : option string) (d : string) :
  str_or (Some (str_or x d)) d = str_or x d.
Proof.
  destruct x as [[|c s]|]; cbn; destruct d; reflexivity.
Qed.

Lemma getReservationById_fresh (u : option User.t) (db : Store.t) (id : Uuid) :
  NoDup (map ReservationRow.id (Store.reservations db)) ->
  getReservationById (Ctx.mk u (fetchReservations db)) id
  = option_map (fun r => formatReservationFromDB
                           (ReservationRow.to_object (seller_name db r) r))
               (find_row db id).
Proof.
  intros Hnd. unfold getReservationById, fetchReservations, find_row.
  cbn [Ctx.reservations].
  rewrite (find_formatted id (seller_name db)), (@find_rev_unique id _ Hnd).
  reflexivity.
Qed.

(** X23: [getReservation] agrees with the list.  When the keys of
    [reservations] are distinct, asking the store for a listing gives the
    entry that [getReservationById] finds in a list just fetched, and fails
    exactly when the list has no such entry. *)
Theorem getReservation_agrees_with_fresh_list :
  forall u db id,
    NoDup (map ReservationRow.id (Store.reservations db)) ->
    getReservation db id
    = match getReservationById (context_of u db) id with
      | Some r => Ok r
      | None => Err PGRST116
      end.
Proof.
  intros u db id Hnd. unfold context_of.
  rewrite (@getReservationById_fresh (Some u) db id Hnd).
  unfold getReservation, find_row. rewrite (@filter_unique id _ Hnd).
  destruct (find _ (Store.reservations db)) as [r|]; [|reflexivity].
  cbn [option_map]. f_equal.
  unfold formatReservationFromDB, ReservationRow.to_object.
  cbn [DbReservation.users_name]. rewrite str_or_twice. reflexivity.
Qed.

Lemma getReservation_agrees_with_fresh_list_witness :
  let db := store_with (listing (Some 1) None (Some true)) in
  NoDup (map ReservationRow.id (Store.reservations db))
  /\ getReservation db 1%nat
     = Ok (formatReservationFromDB
             (ReservationRow.to_object (Some "Ada")
                                       (listing (Some 1) None (Some true))))
  /\ getReservation db 2%nat = Err PGRST116.
Proof.
  intros db.
  assert (H : NoDup (map ReservationRow.id (Store.reservations db))).
  { cbn. constructor; [intros []|constructor]. }
  split; [exact H|]. split.
  - rewrite (@getReservation_agrees_with_fresh_list bob db 1%nat H).
    reflexivity.
  - rewrite (@getReservation_agrees_with_fresh_list bob db 2%nat H).
    reflexivity.
Defined.

(** ** The reservation context: adding and deleting listings *)

Lemma row_of_object_Some (id : Uuid) (o : DbReservation.t)
    (row : ReservationRow.t) (n : option string) :
  row_of_object id o = Some row ->
  ReservationRow.id row = id
  /\ DbReservation.seller_id o = Some (ReservationRow.seller_id row)
  /\ ReservationRow.status row = DbReservation.status o
  /\ ReservationRow.stock_remaining row = DbReservation.stock_remaining o
  /\ ReservationRow.popularity row = DbReservation.popularity o
  /\ formatReservationFromDB (ReservationRow.to_object n row)
     = formatReservationFromDB
         (DbReservation.mk (Some id)
            (DbReservation.restaurant_name o) (DbReservation.location o)
            (DbReservation.cuisine o) (DbReservation.date o)
            (DbReservation.time o) (DbReservation.party_size o)
            (DbReservation.price o) (DbReservation.original_price o)
            (DbReservation.seller_id o) (DbReservation.status o)
            (DbReservation.description o) (DbReservation.image_url o)
            (DbReservation.popularity o) (DbReservation.allow_bidding o)
            (DbReservation.minimum_bid o) (DbReservation.current_bid o)
            (DbReservation.bid_end_time o) (DbReservation.stock_remaining o)
            (DbReservation.last_sale_price o) (DbReservation.last_sale_date o)
            (DbReservation.latitude o) (DbReservation.longitude o) n).
Proof.
  unfold row_of_object.
  destruct o as [i rn lo cu da ti ps pr op se st de im po al mb cb be sr
                 lp ld la lg un].
  cbn. destruct rn, lo, cu, da, ti, ps, pr, op, se; try discriminate.
  intros [= <-]. repeat split.
Qed.

Lemma row_of_object_complete (id : Uuid) (o : DbReservation.t) :
  (exists row, row_of_object id o = Some row)
  <-> defined (DbReservation.restaurant_name o)
      /\ defined (DbReservation.location o)
      /\ defined (DbReservation.cuisine o) /\ defined (DbReservation.date o)
      /\ defined (DbReservation.time o) /\ defined (DbReservation.party_size o)
      /\ defined (DbReservation.price o)
      /\ defined (DbReservation.original_price o)
      /\ defined (DbReservation.seller_id o).
Proof.
  unfold row_of_object, defined.
  destruct o as [i rn lo cu da ti ps pr op se st de im po al mb cb be sr
                 lp ld la lg un].
  cbn. split.
  - intros [row H].
    destruct rn, lo, cu, da, ti, ps, pr, op, se; try discriminate.
    repeat split; discriminate.
  - intros (H1 & H2 & H3 & H4 & H5 & H6 & H7 & H8 & H9).
    destruct rn, lo, cu, da, ti, ps, pr, op, se; try congruence.
    eexists. reflexivity.
Qed.

Lemma formatReservationToDB_Some (r : Reservation.t) :
  (exists o, formatReservationToDB r = Some o) <-> valid_dates r.
Proof.
  unfold formatReservationToDB, valid_dates, iso_field.
  destruct (Reservation.date r) as [[d|]|],
           (Reservation.bidEndTime r) as [[b|]|],
           (Reservation.lastSaleDate r) as [[l|]|]; cbn;
    split;
    try (intros [o H]; discriminate);
    try (intros _; repeat split; discriminate);
    try (intros _; eexists; reflexivity);
    try (intros (H1 & H2 & H3); congruence).
Qed.

Lemma addReservation_inserted roll newReservation (s : Provider.t)
    (db : Store.t) user o row :
  Ctx.user (Provider.ctx s) = Some user ->
  formatReservationToDB (new_listing user (roll + 60) newReservation)
  = Some o ->
  row_of_object (Store.next_uuid db) o = Some row ->
  addReservation roll newReservation s db
  = mkEffect Fulfilled
      (Provider.mk
         (Ctx.mk (Some user)
                 (formatReservationFromDB
                    (ReservationRow.to_object (User.name user) row)
                  :: Ctx.reservations (Provider.ctx s)))
         (formatReservationFromDB
            (ReservationRow.to_object (User.name user) row)
          :: Provider.userReservations s))
      [Store.mk (Store.reservations db ++ [row]) (Store.bids db)
                (Store.reservation_history db) (Store.rate_limits db)
                (Store.users db) (S (Store.next_uuid db))].
Proof.
  intros Hu Ho Hrow. unfold addReservation, insert_reservation.
  rewrite Hu, Ho, Hrow. reflexivity.
Qed.

Lemma new_listing_to_row roll newReservation user o :
  formatReservationToDB (new_listing user (roll + 60) newReservation)
  = Some o ->
  DbReservation.seller_id o = Some (User.id user)
  /\ DbReservation.status o = Some available
  /\ DbReservation.stock_remaining o = Some 1
  /\ DbReservation.popularity o = Some (roll + 60)
  /\ DbReservation.restaurant_name o = Reservation.restaurantName newReservation
  /\ DbReservation.location o = Reservation.location newReservation
  /\ DbReservation.cuisine o = Reservation.cuisine newReservation
  /\ DbReservation.time o = Reservation.time newReservation
  /\ DbReservation.party_size o = Reservation.partySize newReservation
  /\ DbReservation.price o = Reservation.price newReservation
  /\ DbReservation.original_price o = Reservation.originalPrice newReservation
  /\ (defined (Reservation.date newReservation) ->
      defined (DbReservation.date o)).
Proof.
  unfold formatReservationToDB, new_listing, iso_field, defined.
  cbn [Reservation.date Reservation.bidEndTime Reservation.lastSaleDate].
  destruct (Reservation.date newReservation) as [[d|]|],
           (Reservation.bidEndTime newReservation) as [[b|]|],
           (Reservation.lastSaleDate newReservation) as [[l|]|]; cbn;
    try discriminate; intros [= <-]; cbn; repeat split;
    try discriminate; intros H; exfalso; apply H; reflexivity.
Qed.

(** X24: what [addReservation] lists.  For a signed-in seller who has
    entered the required fields with valid dates, the call adds one row to
    [reservations] under a new key; whatever the form said, the row has the
    caller as seller, status 'available', a stock of 1 and a popularity
    from 60 to 99; the entry put at the head of both lists agrees with the
    form on every other field. *)
Theorem addReservation_lists_one_unit :
  forall roll newReservation s db user,
    Ctx.user (Provider.ctx s) = Some user ->
    complete newReservation ->
    valid_dates newReservation ->
    0 <= roll < 40 ->
    let e := addReservation roll newReservation s db in
    exists row entry,
      result e = Fulfilled
      /\ Store.reservations (store_after db e)
         = Store.reservations db ++ [row]
      /\ ReservationRow.id row = Store.next_uuid db
      /\ ReservationRow.seller_id row = User.id user
      /\ ReservationRow.status row = Some available
      /\ ReservationRow.stock_remaining row = Some 1
      /\ (exists popularity,
            ReservationRow.popularity row = Some popularity
            /\ 60 <= popularity <= 99)
      /\ entry = formatReservationFromDB
                   (ReservationRow.to_object (User.name user) row)
      /\ Ctx.reservations (Provider.ctx (client e))
         = entry :: Ctx.reservations (Provider.ctx s)
      /\ Provider.userReservations (client e)
         = entry :: Provider.userReservations s
      /\ same_mapped_fields entry
           (new_listing user (roll + 60) newReservation).
Proof.
  intros roll newReservation s db user Hu Hc Hv Hroll e. subst e.
  assert (Hv' : valid_dates (new_listing user (roll + 60) newReservation))
    by exact Hv.
  apply formatReservationToDB_Some in Hv'. destruct Hv' as [o Ho].
  destruct (new_listing_to_row _ _ _ Ho)
    as (Hs & Hst & Hsr & Hp & Hrn & Hlo & Hcu & Hti & Hps & Hpr & Hop & Hda).
  destruct Hc as (C1 & C2 & C3 & C4 & C5 & C6 & C7 & C8).
  assert (Hrow : exists row, row_of_object (Store.next_uuid db) o = Some row).
  { apply row_of_object_complete.
    rewrite Hrn, Hlo, Hcu, Hti, Hps, Hpr, Hop, Hs.
    repeat split; try assumption; [apply Hda; exact C4 | discriminate]. }
  destruct Hrow as [row Hrow].
  destruct (row_of_object_Some _ _ (User.name user) Hrow)
    as (Hid & Hse & Hrst & Hrsr & Hrp & Hfmt).
  rewrite (addReservation_inserted _ _ _ _ Hu Ho Hrow).
  exists row. eexists.
  cbn [result client commits store_after last Store.reservations
       Provider.ctx Provider.userReservations Ctx.reservations].
  split; [reflexivity|]. split; [reflexivity|]. split; [exact Hid|].
  split; [congruence|]. split; [congruence|]. split; [congruence|].
  split.
  { exists (roll + 60). split; [rewrite Hrp; exact Hp | lia]. }
  split; [reflexivity|]. split; [reflexivity|]. split; [reflexivity|].
  rewrite Hfmt. clear Hfmt Hrow.
  revert Ho. unfold formatReservationToDB, new_listing, iso_field.
  cbn [Reservation.date Reservation.bidEndTime Reservation.lastSaleDate].
  destruct Hv as (V1 & V2 & V3).
  destruct (Reservation.date newReservation) as [[d|]|],
           (Reservation.bidEndTime newReservation) as [[b|]|],
           (Reservation.lastSaleDate newReservation) as [[l|]|];
    try congruence; try (exfalso; apply C4; reflexivity);
    cbn; intros [= <-]; cbn; repeat split.
Qed.

Lemma addReservation_lists_one_unit_witness :
  let db := store_with (listing (Some 1) None (Some true)) in
  let s := fresh_provider ada db in
  Ctx.user (Provider.ctx s) = Some ada
  /\ complete sample_form
  /\ valid_dates sample_form
  /\ 0 <= 17 < 40
  /\ exists row entry,
       Store.reservations (store_after db (addReservation 17 sample_form s db))
       = Store.reservations db ++ [row]
       /\ ReservationRow.stock_remaining row = Some 1
       /\ ReservationRow.status row = Some available
       /\ entry = formatReservationFromDB
                    (ReservationRow.to_object (User.name ada) row).
Proof.
  intros db s.
  assert (H1 : Ctx.user (Provider.ctx s) = Some ada) by reflexivity.
  assert (H2 : complete sample_form) by (repeat split; discriminate).
  assert (H3 : valid_dates sample_form) by (repeat split; discriminate).
  assert (H4 : 0 <= 17 < 40) by lia.
  split; [exact H1|]. split; [exact H2|]. split; [exact H3|].
  split; [exact H4|].
  destruct (@addReservation_lists_one_unit 17 sample_form s db ada
              H1 H2 H3 H4)
    as (row & entry & _ & Hr & _ & _ & Hst & Hsr & _ & He & _).
  exists row, entry. repeat split; assumption.
Defined.

(** X25: when [addReservation] fails.  The call succeeds exactly when the
    caller is signed in, every date of the form is a valid date and the
    required fields are entered; when it fails it has written nothing and
    both lists are as they were. *)
Theorem addReservation_fails_cleanly :
  forall roll newReservation s db,
    let e := addReservation roll newReservation s db in
    (result e = Fulfilled
     <-> Ctx.user (Provider.ctx s) <> None
         /\ valid_dates newReservation /\ complete newReservation)
    /\ (result e <> Fulfilled -> commits e = [] /\ client e = s).
Proof.
  intros roll newReservation s db e. subst e.
  unfold addReservation, insert_reservation.
  destruct (Ctx.user (Provider.ctx s)) as [user|].
  2:{ split; [|split; reflexivity].
      split; [discriminate | intros [H _]; congruence]. }
  destruct (formatReservationToDB
              (new_listing user (roll + 60) newReservation)) as [o|] eqn:Ho.
  2:{ split; [|split; reflexivity].
      split; [discriminate|]. intros (_ & Hv & _). exfalso.
      assert (Hv' : valid_dates (new_listing user (roll + 60) newReservation))
        by exact Hv.
      apply formatReservationToDB_Some in Hv'. destruct Hv' as [o Ho'].
      congruence. }
  assert (Hv : valid_dates newReservation).
  { change (valid_dates (new_listing user (roll + 60) newReservation)).
    apply formatReservationToDB_Some. exists o. exact Ho. }
  destruct (new_listing_to_row _ _ _ Ho)
    as (Hs & Hst & Hsr & Hp & Hrn & Hlo & Hcu & Hti & Hps & Hpr & Hop & Hda).
  assert (Hdate : defined (DbReservation.date o)
                  -> defined (Reservation.date newReservation)).
  { revert Ho. unfold formatReservationToDB, new_listing, iso_field, defined.
    cbn [Reservation.date Reservation.bidEndTime Reservation.lastSaleDate].
    destruct (Reservation.date newReservation) as [[d|]|],
             (Reservation.bidEndTime newReservation) as [[b|]|],
             (Reservation.lastSaleDate newReservation) as [[l|]|];
      try discriminate; intros [= <-]; cbn; intros H; try discriminate;
      exfalso; apply H; reflexivity. }
  destruct (row_of_object (Store.next_uuid db) o) as [row|] eqn:Hrow.
  - split; [|intros H; exfalso; apply H; reflexivity].
    split; [intros _|reflexivity].
    split; [discriminate|]. split; [exact Hv|].
    assert (Hc : exists row, row_of_object (Store.next_uuid db) o = Some row)
      by (exists row; exact Hrow).
    apply row_of_object_complete in Hc.
    rewrite Hrn, Hlo, Hcu, Hti, Hps, Hpr, Hop in Hc.
    destruct Hc as (C1 & C2 & C3 & C4 & C5 & C6 & C7 & C8 & _).
    repeat split; try assumption. apply Hdate. exact C4.
  - split; [|split; reflexivity].
    split; [discriminate|]. intros (_ & _ & Hc). exfalso.
    destruct Hc as (C1 & C2 & C3 & C4 & C5 & C6 & C7 & C8).
    assert (Hex : exists row, row_of_object (Store.next_uuid db) o = Some row).
    { apply row_of_object_complete.
      rewrite Hrn, Hlo, Hcu, Hti, Hps, Hpr, Hop, Hs.
      repeat split; try assumption; [apply Hda; exact C4 | discriminate]. }
    destruct Hex as [row Hrow']. congruence.
Qed.

Lemma seller_name_after_insert (db : Store.t) rows bids history limits n r :
  seller_name (Store.mk rows bids history limits (Store.users db) n) r
  = seller_name db r.
Proof. reflexivity. Qed.

(** X26: [addReservation] keeps fetched lists up to date.  When both
    lists are as just fetched and the signed-in user is the user row of
    that key, the lists after a successful call are what fetching them
    again would give. *)
Theorem addReservation_keeps_lists_fresh :
  forall roll newReservation user db,
    find (fun u => Nat.eqb (User.id u) (User.id user)) (Store.users db)
    = Some user ->
    let e := addReservation roll newReservation (fresh_provider user db) db in
    result e = Fulfilled ->
    client e = fresh_provider user (store_after db e).
Proof.
  intros roll newReservation user db Huser e. subst e.
  unfold addReservation, insert_reservation.
  cbn [fresh_provider Provider.ctx Ctx.user].
  destruct (formatReservationToDB
              (new_listing user (roll + 60) newReservation)) as [o|] eqn:Ho;
    [|discriminate].
  destruct (row_of_object (Store.next_uuid db) o) as [row|] eqn:Hrow;
    [|discriminate].
  intros _. cbn [client commits store_after last].
  destruct (new_listing_to_row _ _ _ Ho) as (Hs & _).
  destruct (row_of_object_Some _ _ (User.name user) Hrow)
    as (_ & Hse & _).
  assert (Hseller : ReservationRow.seller_id row = User.id user)
    by congruence.
  unfold fresh_provider, fetchReservations, fetchUserReservations.
  cbn [Store.reservations Provider.ctx Provider.userReservations
       Ctx.reservations Ctx.user].
  rewrite filter_app, !rev_app_distr. cbn [filter].
  rewrite Hseller, Nat.eqb_refl. cbn [rev app map].
  unfold seller_name. cbn [Store.users]. rewrite Hseller, Huser.
  reflexivity.
Qed.

Lemma addReservation_keeps_lists_fresh_witness :
  let db := store_with (listing (Some 1) None (Some true)) in
  let e := addReservation 17 sample_form (fresh_provider ada db) db in
  find (fun u => Nat.eqb (User.id u) (User.id ada)) (Store.users db)
  = Some ada
  /\ result e = Fulfilled
  /\ client e = fresh_provider ada (store_after db e)
  /\ List.length (Ctx.reservations (Provider.ctx (client e))) = 2%nat.
Proof.
  intros db e.
  assert (H1 : find (fun u => Nat.eqb (User.id u) (User.id ada))
                    (Store.users db) = Some ada) by reflexivity.
  assert (H2 : result e = Fulfilled) by reflexivity.
  split; [exact H1|]. split; [exact H2|].
  split; [|reflexivity].
  exact (@addReservation_keeps_lists_fresh 17 sample_form ada db H1 H2).
Defined.

Lemma filter_formatted (id : Uuid) (name : ReservationRow.t -> option string)
    (l : list ReservationRow.t) :
  filter (fun r => negb (opt_eqb Nat.eqb (Reservation.id r) id))
         (map (fun r => formatReservationFromDB
                          (ReservationRow.to_object (name r) r)) l)
  = map (fun r => formatReservationFromDB
                    (ReservationRow.to_object (name r) r))
        (filter (fun r => negb (Nat.eqb (ReservationRow.id r) id)) l).
Proof.
  induction l as [|r l IH]; [reflexivity|].
  cbn [map filter]. cbn [formatReservationFromDB ReservationRow.to_object
                         Reservation.id DbReservation.id opt_eqb].
  destruct (Nat.eqb (ReservationRow.id r) id); cbn [negb map];
    rewrite IH; reflexivity.
Qed.

Lemma filter_rev {A} (f : A -> bool) (l : list A) :
  filter f (rev l) = rev (filter f l).
Proof.
  induction l as [|a l IH]; [reflexivity|].
  cbn [rev filter]. rewrite filter_app, IH. cbn [filter].
  destruct (f a); cbn [rev]; [reflexivity | apply app_nil_r].
Qed.



(** ** The reservation context: featured listings *)

Lemma insert_sorted_perm {A} (key : A -> Z) (x : A) (l : list A) :
  Permutation (insert_sorted key x l) (x :: l).
Proof.
  induction l as [|y l IH]; [apply Permutation_refl|].
  cbn [insert_sorted]. destruct (key y <=? key x); [apply Permutation_refl|].
  apply perm_trans with (y :: x :: l); [|apply perm_swap].
  apply perm_skip. exact IH.
Qed.

Lemma sort_desc_perm {A} (key : A -> Z) (l : list A) :
  Permutation (sort_desc key l) l.
Proof.
  induction l as [|x l IH]; [apply Permutation_refl|].
  cbn [sort_desc fold_right]. fold (sort_desc key l).
  apply perm_trans with (x :: sort_desc key l);
    [apply insert_sorted_perm | apply perm_skip; exact IH].
Qed.

Lemma insert_sorted_sorted {A} (key : A -> Z) (x : A) (l : list A) :
  StronglySorted (fun a b => key b <= key a) l ->
  StronglySorted (fun a b => key b <= key a) (insert_sorted key x l).
Proof.
  induction l as [|y l IH]; intros Hs.
  - constructor; constructor.
  - cbn [insert_sorted]. inversion Hs as [|y' l' Hl Hy]; subst.
    destruct (Z.leb_spec (key y) (key x)) as [Hle|Hgt].
    + constructor; [exact Hs|]. constructor; [exact Hle|].
      apply Forall_impl with (2 := Hy). intros a Ha. cbn in *. lia.
    + constructor; [apply IH; exact Hl|].
      apply Forall_forall. intros a Ha.
      apply (Permutation_in _ (insert_sorted_perm key x l)) in Ha.
      destruct Ha as [<-|Ha]; [cbn; lia|].
      rewrite Forall_forall in Hy. apply Hy. exact Ha.
Qed.

Lemma sort_desc_sorted {A} (key : A -> Z) (l : list A) :
  StronglySorted (fun a b => key b <= key a) (sort_desc key l).
Proof.
  induction l as [|x l IH]; [constructor|].
  cbn [sort_desc fold_right]. apply insert_sorted_sorted. exact IH.
Qed.

Lemma sorted_app_split {A} (R : A -> A -> Prop) (l1 l2 : list A) :
  StronglySorted R (l1 ++ l2) ->
  StronglySorted R l1
  /\ forall a b, In a l1 -> In b l2 -> R a b.
Proof.
  induction l1 as [|x l1 IH]; intros Hs.
  - split; [constructor | intros a b []].
  - cbn [app] in Hs. inversion Hs as [|x' l' Hl Hx]; subst.
    destruct (IH Hl) as [Hf Hr]. rewrite Forall_forall in Hx. split.
    + constructor; [exact Hf|]. apply Forall_forall. intros a Ha.
      apply Hx. apply in_or_app. left. exact Ha.
    + intros a b [<-|Ha] Hb; [|apply Hr; assumption].
      apply Hx. apply in_or_app. right. exact Hb.
Qed.

Lemma sort_desc_of_sorted {A} (key : A -> Z) (l : list A) :
  StronglySorted (fun a b => key b <= key a) l -> sort_desc key l = l.
Proof.
  induction l as [|x l IH]; [reflexivity|].
  intros Hs. inversion Hs as [|x' l' Hl Hx]; subst.
  cbn [sort_desc fold_right]. fold (sort_desc key l). rewrite (IH Hl).
  destruct l as [|y l]; [reflexivity|]. cbn [insert_sorted].
  rewrite Forall_forall in Hx.
  replace (key y <=? key x) with true; [reflexivity|].
  symmetry. apply Z.leb_le. apply Hx. left. reflexivity.
Qed.

(** X29: the featured listings are the three most popular.  They are at
    most three entries of the list, all of them when the list has three or
    fewer, in descending order of popularity, and no entry left out is more
    popular than a featured one; when the list is already in descending
    order of popularity they are its first three entries, ties included. *)
Theorem featuredReservations_are_the_most_popular :
  forall reservations,
    let featured := featuredReservations reservations in
    List.length featured = Nat.min 3 (List.length reservations)
    /\ StronglySorted (fun a b => popularity_of b <= popularity_of a) featured
    /\ (exists rest,
          Permutation reservations (featured ++ rest)
          /\ forall f r, In f featured -> In r rest ->
                         popularity_of r <= popularity_of f)
    /\ (StronglySorted (fun a b => popularity_of b <= popularity_of a)
                       reservations ->
        featured = firstn 3 reservations).
Proof.
  intros reservations featured. subst featured. unfold featuredReservations.
  set (sorted := sort_desc popularity_of reservations).
  assert (Hp : Permutation sorted reservations) by apply sort_desc_perm.
  assert (Hs : StronglySorted (fun a b => popularity_of b <= popularity_of a)
                              sorted) by apply sort_desc_sorted.
  rewrite <- (firstn_skipn 3 sorted) in Hs.
  destruct (sorted_app_split _ _ Hs) as [Hf Hr].
  split.
  { rewrite length_firstn, (Permutation_length Hp). reflexivity. }
  split; [exact Hf|].
  split.
  { exists (skipn 3 sorted). split; [|exact Hr].
    rewrite firstn_skipn. apply Permutation_sym. exact Hp. }
  intros Hsorted. unfold sorted. rewrite (sort_desc_of_sorted _ Hsorted).
  reflexivity.
Qed.
(** ** Bids and purchases through the context *)

Lemma update_rows_current_bid now id p (l : list ReservationRow.t) amount :
  Patch.current_bid p = Some amount ->
  forall r, In r (map (update_row now id None p) l) ->
            ReservationRow.id r = id ->
            ReservationRow.current_bid r = Some amount.
Proof.
  intros Hp r Hin Hid. apply in_map_iff in Hin. destruct Hin as (r0 & <- & _).
  rewrite update_row_id in Hid. unfold update_row, reservation_matches.
  rewrite Hid, Nat.eqb_refl. cbn [andb].
  destruct (handle_bid_expiration_keeps now (Patch.apply p r0))
    as (_ & _ & _ & Hcb & _).
  rewrite Hcb. destruct r0. cbn. rewrite Hp. reflexivity.
Qed.

(** X11: what a bid accepted by [placeBid] looks like.  Whenever the call
    returns true, the caller is signed in, the cached entry allows bidding,
    and the amount is at least the cached minimum bid and above the cached
    current bid; the call has made two commits, first the bid (open,
    without an expiry) and then the update that sets [current_bid] of the
    listing to the amount, and the list is fetched again. *)
Theorem placeBid_accepted :
  forall be c db id amount now,
    result (placeBid be c db id amount now) = Returns true ->
    exists user reservation db1 db2,
      Ctx.user c = Some user
      /\ getReservationById c id = Some reservation
      /\ truthy (Reservation.allowBidding reservation) = true
      /\ num_or (Reservation.minimumBid reservation) 0 <= amount
      /\ num_or (Reservation.currentBid reservation) 0 < amount
      /\ commits (placeBid be c db id amount now) = [db1; db2]
      /\ Store.bids db1
         = Store.bids db
           ++ [Bid.mk (S (Store.next_uuid db)) id (User.id user) amount now
                      None bids_status_default]
      /\ Store.reservations db1 = Store.reservations db
      /\ Store.bids db2 = Store.bids db1
      /\ (forall r, In r (Store.reservations db2) ->
                    ReservationRow.id r = id ->
                    ReservationRow.current_bid r = Some amount)
      /\ client (placeBid be c db id amount now)
         = Ctx.mk (Some user) (fetchReservations db2).
Proof.
  intros be c db id amount now. unfold placeBid.
  destruct (Ctx.user c) as [user|] eqn:Hu; [|discriminate].
  destruct (getReservationById c id) as [reservation|]; [|discriminate].
  destruct (truthy (Reservation.allowBidding reservation)) eqn:Ha;
    cbn [negb]; [|discriminate].
  destruct (Z.ltb_spec amount (num_or (Reservation.minimumBid reservation) 0))
    as [|Hmin]; cbn [orb]; [discriminate|].
  destruct (Z.leb_spec amount (num_or (Reservation.currentBid reservation) 0))
    as [|Hcur]; [discriminate|].
  cbn [run exec BidInsert.user_id].
  destruct (Z_lt_le_dec
              (Z.of_nat (List.length
                           (recent_attempts now (User.id user) "place_bid"
                                            (Store.rate_limits db))))
              max_bids_per_window) as [Hlt|Hge].
  2:{ rewrite (enforce_bid_rate_limit_over _ _ _ Hge). discriminate. }
  rewrite (enforce_bid_rate_limit_under _ _ _ Hlt).
  destruct (_ && negb _); [discriminate|].
  intros _. exists user, reservation. eexists. eexists.
  cbn [commits client last].
  split; [reflexivity|]. split; [reflexivity|]. split; [exact Ha|].
  split; [exact Hmin|]. split; [exact Hcur|].
  split; [reflexivity|].
  split; [reflexivity|]. split; [reflexivity|]. split; [reflexivity|].
  split; [|reflexivity].
  cbn [Store.with_reservations Store.reservations Store.add_bid].
  apply update_rows_current_bid. reflexivity.
Qed.

Lemma placeBid_accepted_witness :
  let db := store_with (listing (Some 1) None (Some true)) in
  let e := placeBid lenient (context_of bob db) db 1%nat 150 1000 in
  result e = Returns true
  /\ exists db1 db2,
       commits e = [db1; db2]
       /\ map Bid.amount (Store.bids db1) = [150]
       /\ current_bid_of db1 1%nat = None
       /\ current_bid_of db2 1%nat = Some 150.
Proof.
  intros db e.
  assert (H : result e = Returns true) by reflexivity.
  split; [exact H|].
  destruct (@placeBid_accepted lenient (context_of bob db) db 1%nat 150 1000 H)
    as (user & reservation & db1 & db2 & _ & _ & _ & _ & _ & Hc & _).
  exists db1, db2. split; [exact Hc|].
  injection Hc as <- <-. repeat split.
Defined.

Lemma buyNow_committed be c (db : Store.t) id now user reservation price row :
  Ctx.user c = Some user ->
  getReservationById c id = Some reservation ->
  Reservation.price reservation = Some price ->
  0 < num_or (Reservation.stockRemaining reservation) 0 ->
  find_row db id = Some row ->
  let db1 :=
    Store.with_reservations
      (map (update_row now id None (purchase_patch reservation now))
           (Store.reservations db))
      db in
  let db2 :=
    Store.add_history
      (purchase_record (Store.next_uuid db) id user reservation now) db1 in
  buyNow be c db id now
  = mkEffect (Returns true) (Ctx.mk (Some user) (fetchReservations db2))
             [db1; db2]
  /\ find_row db2 id
     = Some (handle_bid_expiration now
               (Patch.apply (purchase_patch reservation now) row)).
Proof.
  intros Hu Hc Hp Hs Hrow db1 db2.
  destruct (find_row_matches _ _ Hrow) as [Hm Hex].
  split.
  - unfold buyNow. rewrite Hu, Hc.
    replace (num_or (Reservation.stockRemaining reservation) 0 - 1 <? 0)
      with false by (symmetry; apply Z.ltb_ge; lia).
    cbn [run exec HistoryInsert.price]. rewrite Hex, Hp, !andb_false_r.
    cbn [commits]. unfold db2, db1, purchase_patch, purchase_record.
    rewrite Hp. reflexivity.
  - unfold db2, db1, find_row in *.
    cbn [Store.add_history Store.with_reservations Store.reservations].
    rewrite find_update_rows, Hrow. cbn [option_map].
    unfold update_row. rewrite Hm. reflexivity.
Qed.

(** X12: [buyNow] takes the stock from the list, not from the store.  Two
    buyers whose lists hold the same entry of a listing, with at least one
    unit in stock, both complete their purchase one after the other: both
    calls return true and two purchases are recorded, while the stock of the
    listing goes down by one only. *)
Theorem buyNow_same_entry_sells_twice :
  forall be c1 c2 db id now1 now2 u1 u2 reservation price row,
    Ctx.user c1 = Some u1 ->
    Ctx.user c2 = Some u2 ->
    getReservationById c1 id = Some reservation ->
    getReservationById c2 id = Some reservation ->
    Reservation.price reservation = Some price ->
    0 < num_or (Reservation.stockRemaining reservation) 0 ->
    find_row db id = Some row ->
    let e1 := buyNow be c1 db id now1 in
    let db1 := store_after db e1 in
    let e2 := buyNow be c2 db1 id now2 in
    let db2 := store_after db1 e2 in
    result e1 = Returns true
    /\ result e2 = Returns true
    /\ map History.buyer_id (Store.reservation_history db2)
       = map History.buyer_id (Store.reservation_history db)
         ++ [Some (User.id u1); Some (User.id u2)]
    /\ option_map ReservationRow.stock_remaining (find_row db2 id)
       = Some (Some (num_or (Reservation.stockRemaining reservation) 0 - 1)).
Proof.
  intros be c1 c2 db id now1 now2 u1 u2 reservation price row
         Hu1 Hu2 Hc1 Hc2 Hp Hs Hrow e1 db1 e2 db2.
  destruct (buyNow_committed be c1 db id now1 Hu1 Hc1 Hp Hs Hrow)
    as [E1 Hf1].
  assert (Hdb1 : db1 = Store.add_history
                         (purchase_record (Store.next_uuid db) id u1
                                          reservation now1)
                         (Store.with_reservations
                            (map (update_row now1 id None
                                    (purchase_patch reservation now1))
                                 (Store.reservations db))
                            db)).
  { unfold db1, e1, store_after. rewrite E1. reflexivity. }
  rewrite <- Hdb1 in Hf1.
  destruct (buyNow_committed be c2 db1 id now2 Hu2 Hc2 Hp Hs Hf1)
    as [E2 Hf2].
  assert (Hdb2 : db2 = Store.add_history
                         (purchase_record (Store.next_uuid db1) id u2
                                          reservation now2)
                         (Store.with_reservations
                            (map (update_row now2 id None
                                    (purchase_patch reservation now2))
                                 (Store.reservations db1))
                            db1)).
  { unfold db2, e2, store_after. rewrite E2. reflexivity. }
  rewrite <- Hdb2 in Hf2.
  split; [unfold e1; rewrite E1; reflexivity|].
  split; [unfold e2; rewrite E2; reflexivity|].
  split.
  { rewrite Hdb2, Hdb1.
    cbn [Store.add_history Store.with_reservations Store.reservation_history].
    rewrite !map_app, <- app_assoc. reflexivity. }
  rewrite Hf2. cbn [option_map]. f_equal.
  destruct (handle_bid_expiration_keeps now2
              (Patch.apply (purchase_patch reservation now2)
                 (handle_bid_expiration now1
                    (Patch.apply (purchase_patch reservation now1) row))))
    as (Hst & _).
  rewrite Hst. reflexivity.
Qed.

Lemma buyNow_same_entry_sells_twice_witness :
  let row := listing (Some 1) None (Some true) in
  let db := store_with row in
  let reservation :=
    formatReservationFromDB (ReservationRow.to_object (Some "Ada") row) in
  let e1 := buyNow lenient (context_of bob db) db 1%nat 1000 in
  let db1 := store_after db e1 in
  let e2 := buyNow lenient (context_of cy db) db1 1%nat 2000 in
  getReservationById (context_of bob db) 1%nat = Some reservation
  /\ getReservationById (context_of cy db) 1%nat = Some reservation
  /\ 0 < num_or (Reservation.stockRemaining reservation) 0
  /\ result e1 = Returns true
  /\ result e2 = Returns true
  /\ map History.buyer_id (Store.reservation_history (store_after db1 e2))
     = [Some 8%nat; Some 9%nat]
  /\ option_map ReservationRow.stock_remaining
       (find_row (store_after db1 e2) 1%nat) = Some (Some 0).
Proof.
  intros row db reservation e1 db1 e2.
  assert (H1 : getReservationById (context_of bob db) 1%nat
               = Some reservation) by reflexivity.
  assert (H2 : getReservationById (context_of cy db) 1%nat
               = Some reservation) by reflexivity.
  assert (H3 : 0 < num_or (Reservation.stockRemaining reservation) 0)
    by (cbn; lia).
  split; [exact H1|]. split; [exact H2|]. split; [exact H3|].
  exact (@buyNow_same_entry_sells_twice lenient (context_of bob db)
           (context_of cy db) db 1%nat 1000 2000 bob cy reservation 120 row
           eq_refl eq_refl H1 H2 eq_refl H3 eq_refl).
Defined.

(** ** The reservation context: updating a listing *)

Lemma fetched_entry (db : Store.t) (entry : Reservation.t) (id : Uuid) :
  In entry (fetchReservations db) ->
  Reservation.id entry = Some id ->
  exists row,
    In row (Store.reservations db) /\ ReservationRow.id row = id
    /\ entry = formatReservationFromDB
                 (ReservationRow.to_object (seller_name db row) row).
Proof.
  unfold fetchReservations. intros Hin Hid.
  apply in_map_iff in Hin. destruct Hin as (row & <- & Hin).
  apply in_rev in Hin. exists row. split; [exact Hin|].
  split; [|reflexivity]. cbn in Hid. congruence.
Qed.

Lemma formatReservationToDB_fields (updates : Reservation.t)
    (o : DbReservation.t) :
  formatReservationToDB updates = Some o ->
  DbReservation.restaurant_name o = Reservation.restaurantName updates
  /\ DbReservation.location o = Reservation.location updates
  /\ DbReservation.cuisine o = Reservation.cuisine updates
  /\ iso_field (Reservation.date updates) = Some (DbReservation.date o)
  /\ DbReservation.time o = Reservation.time updates
  /\ DbReservation.party_size o = Reservation.partySize updates
  /\ DbReservation.price o = Reservation.price updates
  /\ DbReservation.original_price o = Reservation.originalPrice updates
  /\ DbReservation.seller_id o = Reservation.sellerId updates
  /\ DbReservation.description o = Reservation.description updates
  /\ DbReservation.image_url o = Reservation.imageUrl updates
  /\ DbReservation.popularity o = Reservation.popularity updates
  /\ DbReservation.allow_bidding o = Reservation.allowBidding updates
  /\ DbReservation.minimum_bid o = Reservation.minimumBid updates
  /\ DbReservation.current_bid o = Reservation.currentBid updates
  /\ iso_field (Reservation.bidEndTime updates)
     = Some (DbReservation.bid_end_time o)
  /\ DbReservation.stock_remaining o = Reservation.stockRemaining updates
  /\ DbReservation.last_sale_price o = Reservation.lastSalePrice updates
  /\ iso_field (Reservation.lastSaleDate updates)
     = Some (DbReservation.last_sale_date o)
  /\ DbReservation.latitude o = Reservation.latitude updates
  /\ DbReservation.longitude o = Reservation.longitude updates
  /\ DbReservation.status o = Reservation.status updates.
Proof.
  unfold formatReservationToDB.
  destruct (iso_field (Reservation.date updates)) as [d|]; [|discriminate].
  destruct (iso_field (Reservation.bidEndTime updates)) as [b|];
    [|discriminate].
  destruct (iso_field (Reservation.lastSaleDate updates)) as [l|];
    [|discriminate].
  intros [= <-]. cbn. repeat split.
Qed.

Lemma absent_true {A} (x : option A) : absent x = true -> x = None.
Proof. destruct x; [discriminate | reflexivity]. Qed.

Lemma iso_field_None (d : option JsDate) : iso_field d = Some None -> d = None.
Proof. destruct d as [[t|]|]; cbn; congruence. Qed.

Lemma iso_field_Some (d : option JsDate) (t : Millis) :
  iso_field d = Some (Some t) -> d = Some (Instant t).
Proof. destruct d as [[t'|]|]; cbn; congruence. Qed.

Lemma no_column_shows (updates : Reservation.t) (o : DbReservation.t)
    (entry : Reservation.t) :
  formatReservationToDB updates = Some o ->
  no_column o = true ->
  shows_update updates entry.
Proof.
  intros Ho Hn. unfold no_column in Hn.
  repeat (apply andb_true_iff in Hn; destruct Hn as [Hn ?]).
  repeat match goal with
         | H : absent _ = true |- _ => apply absent_true in H
         end.
  destruct (formatReservationToDB_fields _ Ho)
    as (F1 & F2 & F3 & F4 & F5 & F6 & F7 & F8 & F9 & F10 & F11 & F12 & F13
        & F14 & F15 & F16 & F17 & F18 & F19 & F20 & F21 & F22).
  unfold shows_update, read_back.
  repeat match goal with
         | |- _ /\ _ => split
         end.
  all: try (left; congruence).
  all: try (left; apply iso_field_None; congruence).
  left. left. congruence.
Qed.

Lemma swept_status_cases (now : Millis) (r : ReservationRow.t) :
  swept_status now r = available \/ swept_status now r = pending
  \/ swept_status now r = expired.
Proof.
  unfold swept_status. destruct (bidding_ended now r); [|left; reflexivity].
  destruct (ReservationRow.current_bid r); right; [left|right]; reflexivity.
Qed.

(** A field that is written as it is given. *)
Ltac field_read_back F :=
  unfold read_back; rewrite <- F;
  match goal with
  | |- ?x = None \/ _ => destruct x; [right; reflexivity | left; reflexivity]
  end.

(** A date field, written as its ISO text. *)
Ltac date_read_back F :=
  unfold read_back;
  match goal with
  | |- ?x = None \/ _ =>
      destruct x as [[?t|]|];
      [ right; cbn in F; injection F as <-; reflexivity
      | cbn in F; discriminate
      | left; reflexivity ]
  end.

Lemma updated_row_shows (now : Millis) (updates : Reservation.t)
    (o : DbReservation.t) (row : ReservationRow.t) (n : option string) :
  formatReservationToDB updates = Some o ->
  shows_update updates
    (formatReservationFromDB
       (ReservationRow.to_object n
          (handle_bid_expiration now (write_columns o row)))).
Proof.
  intros Ho.
  destruct (formatReservationToDB_fields _ Ho)
    as (F1 & F2 & F3 & F4 & F5 & F6 & F7 & F8 & F9 & F10 & F11 & F12 & F13
        & F14 & F15 & F16 & F17 & F18 & F19 & F20 & F21 & F22).
  assert (Hst := handle_bid_expiration_status now (write_columns o row)).
  rewrite handle_bid_expiration_only_status.
  set (s := ReservationRow.status
              (handle_bid_expiration now (write_columns o row))) in *.
  unfold shows_update.
  cbn [formatReservationFromDB ReservationRow.to_object Patch.apply
       write_columns
       Reservation.restaurantName Reservation.location Reservation.cuisine
       Reservation.date Reservation.time Reservation.partySize
       Reservation.price Reservation.originalPrice Reservation.sellerId
       Reservation.description Reservation.imageUrl Reservation.popularity
       Reservation.allowBidding Reservation.minimumBid Reservation.currentBid
       Reservation.bidEndTime Reservation.stockRemaining
       Reservation.lastSalePrice Reservation.lastSaleDate Reservation.latitude
       Reservation.longitude Reservation.status
       DbReservation.restaurant_name DbReservation.location
       DbReservation.cuisine DbReservation.date DbReservation.time
       DbReservation.party_size DbReservation.price
       DbReservation.original_price DbReservation.seller_id
       DbReservation.description DbReservation.image_url
       DbReservation.popularity DbReservation.allow_bidding
       DbReservation.minimum_bid DbReservation.current_bid
       DbReservation.bid_end_time DbReservation.stock_remaining
       DbReservation.last_sale_price DbReservation.last_sale_date
       DbReservation.latitude DbReservation.longitude DbReservation.status
       ReservationRow.restaurant_name ReservationRow.location
       ReservationRow.cuisine ReservationRow.date ReservationRow.time
       ReservationRow.party_size ReservationRow.price
       ReservationRow.original_price ReservationRow.seller_id
       ReservationRow.description ReservationRow.image_url
       ReservationRow.popularity ReservationRow.allow_bidding
       ReservationRow.minimum_bid ReservationRow.current_bid
       ReservationRow.bid_end_time ReservationRow.stock_remaining
       ReservationRow.last_sale_price ReservationRow.last_sale_date
       ReservationRow.latitude ReservationRow.longitude ReservationRow.status
       Patch.status Patch.price Patch.stock_remaining Patch.last_sale_price
       Patch.last_sale_date Patch.current_bid Patch.or_old].
  cbn [write_columns ReservationRow.status] in Hst.
  split; [field_read_back F1|]. split; [field_read_back F2|].
  split; [field_read_back F3|]. split; [date_read_back F4|].
  split; [field_read_back F5|]. split; [field_read_back F6|].
  split; [field_read_back F7|]. split; [field_read_back F8|].
  split; [field_read_back F9|]. split; [field_read_back F10|].
  split; [field_read_back F11|]. split; [field_read_back F12|].
  split; [field_read_back F13|]. split; [field_read_back F14|].
  split; [field_read_back F15|]. split; [date_read_back F16|].
  split; [field_read_back F17|]. split; [field_read_back F18|].
  split; [date_read_back F19|]. split; [field_read_back F20|].
  split; [field_read_back F21|].
  unfold read_back. rewrite F22 in Hst |- *.
  destruct (Reservation.status updates) as [[| | |]|];
    cbn [Patch.or_old] in Hst;
    try (left; right; rewrite Hst; reflexivity);
    try (left; left; reflexivity).
  destruct (swept_status_cases now (write_columns o row)) as [E|[E|E]];
    rewrite E in Hst; rewrite Hst; cbn [Patch.or_old].
  - left. right. reflexivity.
  - right. split; [reflexivity|]. left. reflexivity.
  - right. split; [reflexivity|]. right. reflexivity.
Qed.

Lemma write_columns_id (o : DbReservation.t) (r : ReservationRow.t) :
  ReservationRow.id (write_columns o r) = ReservationRow.id r.
Proof. reflexivity. Qed.

Lemma filter_other_rows (id : Uuid) (g : ReservationRow.t -> ReservationRow.t)
    (l : list ReservationRow.t) :
  (forall r, ReservationRow.id (g r) = ReservationRow.id r) ->
  filter (fun r => negb (Nat.eqb (ReservationRow.id r) id))
         (map (fun r => if reservation_matches id None r then g r else r) l)
  = filter (fun r => negb (Nat.eqb (ReservationRow.id r) id)) l.
Proof.
  intros Hg. induction l as [|r l IH]; [reflexivity|].
  cbn [map filter].
  assert (Hm : reservation_matches id None r
               = Nat.eqb (ReservationRow.id r) id)
    by (unfold reservation_matches; apply andb_true_r).
  rewrite Hm.
  destruct (Nat.eqb (ReservationRow.id r) id) eqn:E.
  - rewrite Hg, E. cbn [negb]. exact IH.
  - rewrite E. cbn [negb]. rewrite IH. reflexivity.
Qed.

(** X27: what [updateReservation] writes, the list shows.  After a
    successful call, every entry of the list with the key of the update
    shows each field that the update set, with the value given, except
    that a status of 'available' may have become 'pending' or 'expired'
    under the bid-expiration trigger; the entries of the other listings
    are what a fetch before the update would have given. *)
Theorem updateReservation_reads_back :
  forall be runs id updates c now db,
    let e := updateReservation be runs id updates c now db in
    result e = Fulfilled ->
    (forall entry,
        In entry (Ctx.reservations (client e)) ->
        Reservation.id entry = Some id ->
        shows_update updates entry)
    /\ filter (fun r => negb (opt_eqb Nat.eqb (Reservation.id r) id))
              (Ctx.reservations (client e))
       = filter (fun r => negb (opt_eqb Nat.eqb (Reservation.id r) id))
                (fetchReservations db).
Proof.
  intros be runs id updates c now db e. subst e.
  unfold updateReservation, update_reservation.
  destruct (formatReservationToDB updates) as [o|] eqn:Ho; [|discriminate].
  destruct (no_column o && negb runs) eqn:En.
  { intros _. cbn [client Ctx.reservations]. split; [|reflexivity].
    intros entry _ _. apply andb_true_iff in En. destruct En as [En _].
    exact (@no_column_shows updates o entry Ho En). }
  clear En.
  destruct (Backend.zero_row_update_raises be && _); [discriminate|].
  intros _. cbn [client Ctx.reservations]. split.
  - intros entry Hin Hid.
    destruct (@fetched_entry _ entry id Hin Hid) as (row' & Hrow' & Hid' & ->).
    cbn [Store.with_reservations Store.reservations] in Hrow'.
    apply in_map_iff in Hrow'. destruct Hrow' as (row & <- & _).
    assert (Hm : reservation_matches id None row = true).
    { destruct (reservation_matches id None row) eqn:Em; [reflexivity|].
      unfold reservation_matches in Em.
      rewrite Hid', Nat.eqb_refl in Em. discriminate. }
    rewrite Hm. apply updated_row_shows. exact Ho.
  - unfold fetchReservations.
    cbn [Store.with_reservations Store.reservations].
    change (fun r => formatReservationFromDB
                       (ReservationRow.to_object
                          (seller_name
                             (Store.with_reservations
                                (map (fun r0 =>
                                        if reservation_matches id None r0
                                        then handle_bid_expiration now
                                               (write_columns o r0)
                                        else r0)
                                     (Store.reservations db))
                                db) r) r))
      with (fun r => formatReservationFromDB
                       (ReservationRow.to_object (seller_name db r) r)).
    rewrite !(filter_formatted id (seller_name db)), !filter_rev.
    rewrite filter_other_rows; [reflexivity|].
    intros r. rewrite handle_bid_expiration_id. apply write_columns_id.
Qed.

Lemma updateReservation_reads_back_witness :
  let db := store_with (listing (Some 1) (Some 10) (Some true)) in
  let e := updateReservation lenient false 1%nat (relist_at 150)
                             (context_of ada db) 20 db in
  result e = Fulfilled
  /\ exists entry,
       Ctx.reservations (client e) = [entry]
       /\ Reservation.id entry = Some 1%nat
       /\ shows_update (relist_at 150) entry
       /\ Reservation.price entry = Some 150
       /\ Reservation.status entry = Some expired.
Proof.
  intros db e.
  assert (H : result e = Fulfilled) by reflexivity.
  split; [exact H|].
  eexists. split; [reflexivity|]. split; [reflexivity|].
  split; [|split; reflexivity].
  apply (proj1 (@updateReservation_reads_back lenient false 1%nat
                  (relist_at 150) (context_of ada db) 20 db H)).
  - left. reflexivity.
  - reflexivity.
Defined.

(** ** The analytics page *)

Lemma open_bids_are_bids (id : Uuid) (db : Store.t) :
  (List.length (open_bids_of id db) <= List.length (bids_of id db))%nat.
Proof.
  unfold open_bids_of, bids_of. rewrite order_desc_length.
  induction (Store.bids db) as [|b l IH]; [apply Nat.le_refl|].
  cbn [filter]. destruct (Nat.eqb (Bid.reservation_id b) id); cbn [andb].
  - destruct (BidStatus_eqb (Bid.status b) bid_open); cbn [List.length]; lia.
  - exact IH.
Qed.

(** X30: the bid analytics of one state of the store.  The highest bid
    is missing exactly when the listing has no bid; otherwise it is the
    amount of one of the listing's bids and no bid of the listing is
    higher.  Bids of every status count, so the count is at least the
    number of open bids the detail page lists, and the highest bid is at
    least every open bid shown there. *)
Theorem fetchAnalytics_of_a_snapshot :
  forall id db,
    let analytics := fetchAnalytics id db db in
    (BidAnalytics.highestBid analytics = None
     <-> BidAnalytics.bidCount analytics = 0%nat)
    /\ (forall h, BidAnalytics.highestBid analytics = Some h ->
          (exists b, In b (Store.bids db) /\ Bid.reservation_id b = id
                     /\ Bid.amount b = h)
          /\ (forall b, In b (Store.bids db) -> Bid.reservation_id b = id ->
                        Bid.amount b <= h)
          /\ (forall b, In b (open_bids_of id db) -> Bid.amount b <= h))
    /\ (List.length (open_bids_of id db)
        <= BidAnalytics.bidCount analytics)%nat.
Proof.
  intros id db analytics. subst analytics. unfold fetchAnalytics.
  cbn [BidAnalytics.highestBid BidAnalytics.bidCount].
  assert (Hin : forall b, In b (bids_of id db)
                          <-> In b (Store.bids db) /\ Bid.reservation_id b = id).
  { intros b. unfold bids_of. rewrite filter_In, Nat.eqb_eq. reflexivity. }
  destruct (order_desc Bid.amount (bids_of id db)) as [|top rest] eqn:Eo.
  - apply order_desc_nil in Eo. rewrite Eo. cbn.
    split; [split; reflexivity|]. split; [discriminate|].
    assert (Hle := open_bids_are_bids id db). rewrite Eo in Hle. exact Hle.
  - destruct (order_desc_first _ _ Eo) as [Htop Hmax].
    assert (Hlen : List.length (bids_of id db) <> 0%nat).
    { destruct (bids_of id db); [destruct Htop | discriminate]. }
    replace (Nat.ltb 0 (List.length (bids_of id db))) with true
      by (symmetry; apply Nat.ltb_lt; lia).
    cbn [firstn].
    split; [split; [discriminate | intros H; contradiction]|].
    split; [|apply open_bids_are_bids].
    intros h [= <-]. split; [|split].
    + exists top. apply Hin in Htop. destruct Htop. repeat split; assumption.
    + intros b Hb Hid. apply Hmax. apply Hin. split; assumption.
    + intros b Hb. apply open_bids_of_In in Hb. destruct Hb as (Hb & Hid & _).
      apply Hmax. apply Hin. split; assumption.
Qed.
(** ** Instances of the general lemmas *)

Lemma api_bids_create_once_per_window_witness :
  let db := store_with (listing (Some 1) None (Some true)) in
  let first := api_bids_create lenient (sample_bid bob 150) 0 0 db in
  BidInsert.user_id (sample_bid bob 150) = Some 8%nat
  /\ (exists b, result first = Resolved b)
  /\ BidInsert.user_id (sample_bid bob 200) = Some 8%nat
  /\ 299999 < 0 + window_seconds * 1000
  /\ exists err,
       result (api_bids_create lenient (sample_bid bob 200) 299999 299999
                               (store_after db first))
       = Rejected err
       /\ AppError.isRateLimit err = true.
Proof.
  intros db first.
  assert (H1 : BidInsert.user_id (sample_bid bob 150) = Some 8%nat)
    by reflexivity.
  assert (H2 : result first
               = Resolved (Bid.mk 101%nat 1%nat 8%nat 150 0 None bid_open))
    by reflexivity.
  assert (H3 : BidInsert.user_id (sample_bid bob 200) = Some 8%nat)
    by reflexivity.
  assert (H4 : 299999 < 0 + window_seconds * 1000) by (cbn; lia).
  split; [exact H1|]. split; [eexists; exact H2|]. split; [exact H3|].
  split; [exact H4|].
  destruct (@api_bids_create_once_per_window lenient (sample_bid bob 150)
              0 0 db 8%nat _ H1 H2 (sample_bid bob 200) 299999 299999 H3 H4)
    as (err & Hr & Hl & _).
  exists err. split; [exact Hr | exact Hl].
Defined.

Lemma buyNow_two_commits_witness :
  let row := listing (Some 2) (Some 10) (Some true) in
  let db := store_with row in
  let c := context_of bob db in
  Ctx.user c = Some bob
  /\ find_row db 1%nat = Some row
  /\ getReservationById c 1%nat
     = Some (formatReservationFromDB
               (ReservationRow.to_object (Some "Ada") row))
  /\ 0 < num_or (ReservationRow.stock_remaining row) 0
  /\ exists db1 db2,
       commits (buyNow lenient c db 1%nat 20) = [db1; db2]
       /\ option_map ReservationRow.status (find_row db1 1%nat)
          = Some (Some expired).
Proof.
  intros row db c.
  assert (H1 : Ctx.user c = Some bob) by reflexivity.
  assert (H2 : find_row db 1%nat = Some row) by reflexivity.
  assert (H3 : getReservationById c 1%nat
               = Some (formatReservationFromDB
                         (ReservationRow.to_object (Some "Ada") row)))
    by reflexivity.
  assert (H4 : 0 < num_or (ReservationRow.stock_remaining row) 0)
    by (cbn; lia).
  split; [exact H1|]. split; [exact H2|]. split; [exact H3|].
  split; [exact H4|].
  destruct (@buyNow_two_commits lenient c db 1%nat 20 bob row (Some "Ada")
              H1 H2 H3 H4) as (db1 & db2 & Hc & _ & _ & _ & Hs).
  exists db1, db2. split; [exact Hc | exact Hs].
Defined.

Lemma market_stats_follow_listing_price_witness :
  let row := listing (Some 1) None (Some true) in
  let db :=
    Store.mk [row] []
             [History.mk 100%nat 1%nat (Some 8%nat) (Some "Bob") (Some 90) 1000]
             [] [ada; bob; cy] 101%nat in
  formattedSales_of row db <> []
  /\ recorded_prices 1%nat db = [90]
  /\ MarketStats.lowPrice
       (computeMarketStats 4000 (formattedSales_of row db) MarketStats.initial)
     = Some 120.
Proof.
  intros row db.
  assert (H : formattedSales_of row db <> []) by (vm_compute; discriminate).
  split; [exact H|]. split; [reflexivity|].
  exact (proj1 (proj2 (proj2
           (@market_stats_follow_listing_price 4000 row db
              MarketStats.initial H)))).
Defined.
